(** * GlobalTrade AI: the agent layer

    A shallow embedding of the request-routing and agent code of the
    platform backend:

    - [base_agent.py]: [BaseAgent] (validation, envelopes, the completion
      call, request logging) and [AgentOrchestrator] (registry, dispatch);
    - [market_research_agent.py], [translation_agent.py],
      [business_intelligence_agent.py]: the capability handlers;
    - [agent_manager.py]: the request builders and the comprehensive
      market research fan-out;
    - [chat.py], [market.py]: the translation and contact search routes;
    - [voice_handler.py]: the registry of voice sessions.

    Python objects are values of [value]; a method is a function in the
    monad [M], which threads the mutable state (the agent object and the
    outside world) and carries a raised exception.  State changes made
    before an exception is raised stay, as they do in Python. *)

From Stdlib Require Import String Ascii List ZArith Bool Lia PeanoNat.
From Stdlib Require Import DecimalString.
From Stdlib Require Import Floats.PrimFloat Numbers.Cyclic.Int63.Uint63.
Import ListNotations.

#[local] Set Warnings "-inexact-float,-register-all".
#[local] Open Scope list_scope.
#[local] Open Scope string_scope.

(** ** Python values *)

(** The values that travel in request envelopes, decoded completions and
    response envelopes: what [json] can decode, with dictionaries kept in
    insertion order. *)
Inductive value : Type :=
| VNone
| VBool (b : bool)
| VInt (z : Z)
| VFloat (f : float)
| VStr (s : string)
| VList (items : list value)
| VDict (entries : list (string * value)).

Definition dict : Type := list (string * value).

(** [type(v).__name__], as the interpreter's error messages print it. *)
Definition type_name (v : value) : string :=
  match v with
  | VNone => "NoneType"
  | VBool _ => "bool"
  | VInt _ => "int"
  | VFloat _ => "float"
  | VStr _ => "str"
  | VList _ => "list"
  | VDict _ => "dict"
  end.

(** [bool(v)]: the truth value Python's [not] and [if] test. *)
Definition truthy (v : value) : bool :=
  match v with
  | VNone => false
  | VBool b => b
  | VInt z => negb (Z.eqb z 0)
  | VFloat f => negb (PrimFloat.eqb f 0%float)
  | VStr s => negb (String.eqb s "")
  | VList items => match items with [] => false | _ :: _ => true end
  | VDict entries => match entries with [] => false | _ :: _ => true end
  end.

(** [v == 'literal'] for a string literal. *)
Definition is_str (v : value) (literal : string) : bool :=
  match v with
  | VStr s => String.eqb s literal
  | _ => false
  end.

(** [a or b] *)
Definition py_or (a b : value) : value := if truthy a then a else b.

(** ** Dictionaries *)

(** [d.get(key)] as an option: the first (and only) entry under [key]. *)
Fixpoint dict_get (key : string) (d : dict) : option value :=
  match d with
  | [] => None
  | (k, v) :: rest => if String.eqb k key then Some v else dict_get key rest
  end.

(** [key in d] *)
Definition dict_mem (key : string) (d : dict) : bool :=
  match dict_get key d with Some _ => true | None => false end.

(** [d.get(key, default)] *)
Definition get (d : dict) (key : string) (default : value) : value :=
  match dict_get key d with Some v => v | None => default end.

(** [d[key] = v]: an existing key keeps its place, a new one goes last. *)
Fixpoint dict_set (key : string) (v : value) (d : dict) : dict :=
  match d with
  | [] => [(key, v)]
  | (k, old) :: rest =>
      if String.eqb k key then (k, v) :: rest else (k, old) :: dict_set key v rest
  end.

(** [list(d.keys())] *)
Definition keys {A : Type} (d : list (string * A)) : list string := map fst d.

(** ** Exceptions and outcomes *)

(** An exception instance: its class and [str(e)]. *)
Record exn : Type := Exception { exn_class : string; str : string }.

Definition TypeError (text : string) : exn := Exception "TypeError" text.
Definition AttributeError (v : value) (attribute : string) : exn :=
  Exception "AttributeError"
    ("'" ++ type_name v ++ "' object has no attribute '" ++ attribute ++ "'").
Definition KeyError (key : string) : exn :=
  Exception "KeyError" ("'" ++ key ++ "'").

Inductive outcome (A : Type) : Type :=
| Return (result : A)
| Raise (e : exn).
Arguments Return {A} result.
Arguments Raise {A} e.

(** ** Built-ins of the interpreter and the libraries

    What the code calls and the repository does not define: the JSON
    decoder, [repr] of floats and containers, [sum] and true division,
    the methods of [str] on text outside ASCII, and the constructor of
    the completion client.  Every statement below holds for any such
    built-ins. *)

(** What [json.loads] does with a text: it returns the decoded value, or
    raises [json.JSONDecodeError] (the text is not a JSON document), or
    raises another exception ([RecursionError] on a document nested
    deeper than the interpreter's stack, [ValueError] on an integer
    literal longer than the interpreter converts), which an
    [except json.JSONDecodeError] does not catch. *)
Inductive decoding : Type :=
| Decoded (v : value)
| JSONDecodeError
| OtherError (e : exn).

(** [OpenAI] is the call [OpenAI()]: it returns the client, or raises
    (the library refuses to build a client without credentials). *)
Class runtime : Type := {
  json_loads : string -> decoding;
  repr : value -> string;
  py_sum : list value -> outcome value;
  truediv : value -> Z -> outcome value;
  unicode_lower : string -> string;
  unicode_strip : string -> string;
  unicode_title : string -> string;
  OpenAI : outcome unit
}.

(** ** Strings

    A Python [str] is the [string] of its UTF-8 bytes.  A character of
    the ASCII range is one byte, any other character a lead byte and its
    continuation bytes.  On a text of the ASCII range the case and
    whitespace methods of [str] are the tables below; on any other text
    they are the interpreter's. *)

Definition code (c : ascii) : nat := nat_of_ascii c.

Definition between (lo hi n : nat) : bool := (lo <=? n)%nat && (n <=? hi)%nat.

(** [s.isascii()] *)
Fixpoint isascii (s : string) : bool :=
  match s with
  | EmptyString => true
  | String c rest => (code c <? 128)%nat && isascii rest
  end.

(** [c.isspace()] in the ASCII range: tab to carriage return, the four
    separators and space. *)
Definition isspace (c : ascii) : bool :=
  between 9 13 (code c) || between 28 32 (code c).

Definition isupper (c : ascii) : bool := between 65 90 (code c).
Definition islower (c : ascii) : bool := between 97 122 (code c).

Definition lower_char (c : ascii) : ascii :=
  if isupper c then ascii_of_nat (code c + 32) else c.

Definition upper_char (c : ascii) : ascii :=
  if islower c then ascii_of_nat (code c - 32) else c.

Fixpoint lower_ascii (s : string) : string :=
  match s with
  | EmptyString => EmptyString
  | String c rest => String (lower_char c) (lower_ascii rest)
  end.

(** [s.lower()] *)
Definition lower {py : runtime} (s : string) : string :=
  if isascii s then lower_ascii s else unicode_lower s.

Fixpoint drop_spaces (cs : list ascii) : list ascii :=
  match cs with
  | c :: rest => if isspace c then drop_spaces rest else cs
  | [] => []
  end.

Definition strip_ascii (s : string) : string :=
  string_of_list_ascii
    (rev (drop_spaces (rev (drop_spaces (list_ascii_of_string s))))).

(** [s.strip()] *)
Definition strip {py : runtime} (s : string) : string :=
  if isascii s then strip_ascii s else unicode_strip s.

(** A letter that follows a letter is lowered, any other letter is
    raised. *)
Fixpoint title_after (previous_is_cased : bool) (s : string) : string :=
  match s with
  | EmptyString => EmptyString
  | String c rest =>
      if isupper c || islower c
      then String (if previous_is_cased then lower_char c else upper_char c)
                  (title_after true rest)
      else String c (title_after false rest)
  end.

(** [s.title()] *)
Definition title {py : runtime} (s : string) : string :=
  if isascii s then title_after false s else unicode_title s.

(** [s.replace(' ', '')] *)
Fixpoint remove_spaces (s : string) : string :=
  match s with
  | EmptyString => EmptyString
  | String c rest =>
      if Ascii.eqb c " "%char then remove_spaces rest
      else String c (remove_spaces rest)
  end.

(** [sub in s] for strings. *)
Fixpoint contains (sub s : string) : bool :=
  String.prefix sub s ||
  match s with
  | EmptyString => false
  | String _ rest => contains sub rest
  end.

(** The bytes 128 to 191 continue a character of more than one byte. *)
Definition continues (c : ascii) : bool := between 128 191 (code c).

(** The continuation bytes [s] starts with, and the characters after
    them. *)
Fixpoint split_characters (s : string) : string * list string :=
  match s with
  | EmptyString => (EmptyString, [])
  | String c rest =>
      let (continuation, following) := split_characters rest in
      if continues c then (String c continuation, following)
      else (EmptyString, String c continuation :: following)
  end.

(** The one-character strings a [for] loop over a string yields. *)
Definition characters (s : string) : list string :=
  match split_characters s with
  | (EmptyString, following) => following
  | (continuation, following) => continuation :: following
  end.

(** [str(n)] for an integer. *)
Definition decimal (z : Z) : string := NilZero.string_of_int (Z.to_int z).

(** Some string leaf of [v] contains [text]. *)
Fixpoint mentions (text : string) (v : value) : bool :=
  match v with
  | VStr s => contains text s
  | VList items => existsb (mentions text) items
  | VDict entries => existsb (fun entry => mentions text (snd entry)) entries
  | _ => false
  end.

(** ** Operations on values that can raise *)

(** [v.get(key, default)] *)
Definition py_get (v : value) (key : string) (default : value) : outcome value :=
  match v with
  | VDict d => Return (get d key default)
  | _ => Raise (AttributeError v "get")
  end.

(** [v[key]] with a string key. *)
Definition py_item (v : value) (key : string) : outcome value :=
  match v with
  | VDict d =>
      match dict_get key d with
      | Some x => Return x
      | None => Raise (KeyError key)
      end
  | VList _ => Raise (TypeError "list indices must be integers or slices, not str")
  | VStr _ => Raise (TypeError "string indices must be integers, not 'str'")
  | _ => Raise (TypeError ("'" ++ type_name v ++ "' object is not subscriptable"))
  end.

(** [v[key] = x] with a string key. *)
Definition py_setitem (v : value) (key : string) (x : value) : outcome value :=
  match v with
  | VDict d => Return (VDict (dict_set key x d))
  | VList _ => Raise (TypeError "list indices must be integers or slices, not str")
  | _ => Raise (TypeError ("'" ++ type_name v ++ "' object does not support item assignment"))
  end.

(** The elements a [for] loop over [v] visits. *)
Definition py_iter (v : value) : outcome (list value) :=
  match v with
  | VList items => Return items
  | VDict d => Return (map VStr (keys d))
  | VStr s => Return (map VStr (characters s))
  | _ => Raise (TypeError ("'" ++ type_name v ++ "' object is not iterable"))
  end.

(** [len(v)] *)
Definition py_len (v : value) : outcome Z :=
  match v with
  | VList items => Return (Z.of_nat (List.length items))
  | VDict d => Return (Z.of_nat (List.length d))
  | VStr s => Return (Z.of_nat (List.length (characters s)))
  | _ => Raise (TypeError ("object of type '" ++ type_name v ++ "' has no len()"))
  end.

Fixpoint join_items (sep : string) (index : nat) (items : list value) : outcome string :=
  match items with
  | [] => Return ""
  | VStr s :: rest =>
      match rest with
      | [] => Return s
      | _ :: _ =>
          match join_items sep (S index) rest with
          | Return joined => Return (s ++ sep ++ joined)
          | Raise e => Raise e
          end
      end
  | other :: _ =>
      Raise (TypeError ("sequence item " ++ decimal (Z.of_nat index)
                        ++ ": expected str instance, " ++ type_name other ++ " found"))
  end.

(** [sep.join(v)] *)
Definition py_join (sep : string) (v : value) : outcome string :=
  match py_iter v with
  | Return items => join_items sep 0 items
  | Raise _ => Raise (TypeError "can only join an iterable")
  end.

(** [v.lower()] and [v.title()] *)
Definition py_lower {py : runtime} (v : value) : outcome string :=
  match v with
  | VStr s => Return (lower s)
  | _ => Raise (AttributeError v "lower")
  end.

Definition py_title {py : runtime} (v : value) : outcome string :=
  match v with
  | VStr s => Return (title s)
  | _ => Raise (AttributeError v "title")
  end.

(** [v in table] for a dictionary keyed by strings: the key is hashed
    first, which lists and dictionaries refuse. *)
Definition py_in {A : Type} (v : value) (table : list (string * A)) : outcome bool :=
  match v with
  | VStr s => Return (existsb (String.eqb s) (keys table))
  | VList _ | VDict _ => Raise (TypeError ("unhashable type: '" ++ type_name v ++ "'"))
  | _ => Return false
  end.

(** [format(v)], what an f-string writes for [{v}]. *)
Definition format {py : runtime} (v : value) : string :=
  match v with
  | VStr s => s
  | VNone => "None"
  | VBool true => "True"
  | VBool false => "False"
  | VInt z => decimal z
  | _ => repr v
  end.

(** ** The outside world *)

(** The content of a chat message: a literal, or one of the handlers'
    prompt templates with the expressions its f-string interpolates. *)
Inductive content : Type :=
| literal (text : string)
| analysis_prompt (product_name target_country product_category : value)
| contact_prompt (contact_type industry country company_size : value)
| trends_prompt (industry country timeframe : value)
| opportunity_prompt (product_name product_category : value) (target_countries : string)
| translation_prompt (language_name : string) (context source_language text : value)
| context_prompt (country business_context communication_type : value)
| etiquette_prompt (situation country : value)
| detection_prompt (text : value)
| analytics_prompt (time_period : value)
| insights_prompt (product_name product_category : value)
| recommendations_prompt (user_country user_industry : value)
| competition_prompt (industry target_market : value)
| growth_prompt (current_markets : string) (products : Z).

Record message : Type := { role : string; body : content }.

Definition system (text : string) : message := {| role := "system"; body := literal text |}.
Definition user (prompt : content) : message := {| role := "user"; body := prompt |}.

(** What one call of [chat.completions.create] comes back with: the text
    of the first choice (a string, as the return annotation of
    [call_openai_gpt] has it), or an exception of the client library.
    A choice without text (a content of [None]) is not modelled. *)
Inductive reply : Type :=
| Content (text : string)
| Failure (e : exn).

(** A line written by [print]: plain text, or text followed by
    [json.dumps(v, indent=2)]. *)
Inductive line : Type :=
| Text (text : string)
| Json (prefix : string) (v : value).

(** The completion service answers its n-th call with [completions n];
    [requests] records the calls made; [clock n] is the ISO format of the
    n-th reading of [datetime.utcnow()]. *)
Record world : Type := {
  completions : nat -> reply;
  requests : list (list message);
  clock : nat -> string;
  clock_reads : nat;
  stdout : list line
}.

Definition record_request (messages : list message) (w : world) : world :=
  {| completions := completions w;
     requests := (requests w ++ [messages])%list;
     clock := clock w;
     clock_reads := clock_reads w;
     stdout := stdout w |}.

Definition tick (w : world) : world :=
  {| completions := completions w;
     requests := requests w;
     clock := clock w;
     clock_reads := S (clock_reads w);
     stdout := stdout w |}.

Definition write (l : line) (w : world) : world :=
  {| completions := completions w;
     requests := requests w;
     clock := clock w;
     clock_reads := clock_reads w;
     stdout := (stdout w ++ [l])%list |}.

(** ** Agents *)

Inductive agent_class : Type := MarketResearch | Translation | BusinessIntelligence.

(** The attributes [BaseAgent.__init__] sets, with the language table of
    [TranslationAgent] (empty for the other classes).  The client handle
    [openai_client] is the world's completion service. *)
Record agent : Type := {
  class_of : agent_class;
  name : string;
  capabilities : list string;
  created_at : string;
  request_count : Z;
  supported_languages : list (string * string)
}.

Definition count_request (a : agent) : agent :=
  {| class_of := class_of a;
     name := name a;
     capabilities := capabilities a;
     created_at := created_at a;
     request_count := request_count a + 1;
     supported_languages := supported_languages a |}.

(** The state a method of an agent runs in. *)
Record state : Type := { self : agent; outside : world }.

(** ** The monad of methods *)

Definition M (S A : Type) : Type := S -> outcome A * S.

Definition ret {S A : Type} (a : A) : M S A := fun s => (Return a, s).

Definition raise {S A : Type} (e : exn) : M S A := fun s => (Raise e, s).

Definition bind {S A B : Type} (m : M S A) (k : A -> M S B) : M S B :=
  fun s =>
    match m s with
    | (Return a, s') => k a s'
    | (Raise e, s') => (Raise e, s')
    end.

(** [try: body / except Exception as e: handler] *)
Definition try_except {S A : Type} (body : M S A) (handler : exn -> M S A) : M S A :=
  fun s =>
    match body s with
    | (Return a, s') => (Return a, s')
    | (Raise e, s') => handler e s'
    end.

(** An operation on values, run as a statement. *)
Definition eval {S A : Type} (o : outcome A) : M S A := fun s => (o, s).

Declare Scope method_scope.
Delimit Scope method_scope with method.
Notation "x <- m ;; k" := (bind m (fun x => k))
  (at level 61, m at next level, right associativity) : method_scope.
Notation "m ;; k" := (bind m (fun _ => k))
  (at level 61, right associativity) : method_scope.
#[local] Open Scope method_scope.

(** States that hold the world. *)
Class Worldly (S : Type) : Type := {
  world_of : S -> world;
  with_world : world -> S -> S
}.

#[export] Instance worldly_world : Worldly world := {
  world_of := fun w => w;
  with_world := fun w _ => w
}.

#[export] Instance worldly_state : Worldly state := {
  world_of := outside;
  with_world := fun w s => {| self := self s; outside := w |}
}.

Section World.
Context {S : Type} `{Worldly S}.

Definition print (l : line) : M S unit :=
  fun s => (Return tt, with_world (write l (world_of s)) s).

(** [datetime.utcnow().isoformat()] *)
Definition utcnow_isoformat : M S string :=
  fun s =>
    let w := world_of s in
    (Return (clock w (clock_reads w)), with_world (tick w) s).

(** [openai_client.chat.completions.create(...).choices[0].message.content] *)
Definition chat_completions_create (messages : list message) : M S string :=
  fun s =>
    let w := world_of s in
    let s' := with_world (record_request messages w) s in
    match completions w (List.length (requests w)) with
    | Content text => (Return text, s')
    | Failure e => (Raise e, s')
    end.

End World.

Definition get_self : M state agent := fun s => (Return (self s), s).

Definition set_self (a : agent) : M state unit :=
  fun s => (Return tt, {| self := a; outside := outside s |}).

(** ** base_agent.py: [BaseAgent] *)

Module BaseAgent.

(** [__init__]: the attributes in the order they are set; the client is
    built before the clock is read. *)
Definition init {py : runtime} (cls : agent_class) (agent_name : string)
    (agent_capabilities : list string) : M world agent :=
  eval OpenAI ;;
  now <- utcnow_isoformat ;;
  ret {| class_of := cls;
         name := agent_name;
         capabilities := agent_capabilities;
         created_at := now;
         request_count := 0;
         supported_languages := [] |}.

Definition log_request (request_type : string) (data : dict) : M state unit :=
  me <- get_self ;;
  set_self (count_request me) ;;
  me <- get_self ;;
  print (Text ("[" ++ name me ++ "] Processing " ++ request_type ++ " request #"
               ++ decimal (request_count me))) ;;
  print (Json ("[" ++ name me ++ "] Request data: ") (VDict data)).

Definition log_response (response : value) : M state unit :=
  me <- get_self ;;
  print (Json ("[" ++ name me ++ "] Response: ") response).

Definition call_openai_gpt (messages : list message) : M state string :=
  try_except
    (chat_completions_create messages)
    (fun e =>
       me <- get_self ;;
       print (Text ("[" ++ name me ++ "] OpenAI API error: " ++ str e)) ;;
       ret ("Error: Unable to process request - " ++ str e)).

Fixpoint validate_request (request_data : dict) (required_fields : list string) : M state bool :=
  match required_fields with
  | [] => ret true
  | field :: rest =>
      if negb (dict_mem field request_data) || negb (truthy (get request_data field VNone))
      then
        me <- get_self ;;
        print (Text ("[" ++ name me ++ "] Missing required field: " ++ field)) ;;
        ret false
      else validate_request request_data rest
  end.

Definition format_error_response (error_message : string) : M state value :=
  me <- get_self ;;
  timestamp <- utcnow_isoformat ;;
  ret (VDict [("success", VBool false);
              ("error", VStr error_message);
              ("agent", VStr (name me));
              ("timestamp", VStr timestamp)]).

Definition format_success_response (data : value) : M state value :=
  me <- get_self ;;
  timestamp <- utcnow_isoformat ;;
  ret (VDict [("success", VBool true);
              ("data", data);
              ("agent", VStr (name me));
              ("timestamp", VStr timestamp)]).

(** [request_data[key]] *)
Definition subscript (request_data : dict) (key : string) : M state value :=
  eval (py_item (VDict request_data) key).

End BaseAgent.

(** A [for] loop that carries a local list from one element to the next. *)
Fixpoint for_each {S A B : Type} (body : A -> B -> M S B) (elements : list A) (carried : B)
    : M S B :=
  match elements with
  | [] => ret carried
  | element :: rest => carried' <- body element carried ;; for_each body rest carried'
  end.

(** [for x in decoded: x[key] = v; collected.append(x)]: the list as the
    loop leaves it, and the exception that stopped it, if any. *)
Fixpoint tag_and_collect (key : string) (v : value) (decoded collected : list value)
    : list value * option exn :=
  match decoded with
  | [] => (collected, None)
  | x :: rest =>
      match py_setitem x key v with
      | Return x' => tag_and_collect key v rest (collected ++ [x'])%list
      | Raise e => (collected, Some e)
      end
  end.

(** ** market_research_agent.py *)

Module MarketResearchAgent.
Import BaseAgent.

Section Handlers.
Context {py : runtime}.

Definition init : M world agent :=
  BaseAgent.init MarketResearch "MarketResearchAgent"
    ["market_analysis"; "contact_discovery"; "trend_analysis"; "opportunity_matching"].

Definition _analyze_market (request_data : dict) : M state value :=
  let required_fields := ["product_name"; "target_country"] in
  valid <- validate_request request_data required_fields ;;
  if negb valid
  then format_error_response "Missing required fields for market analysis"
  else
    product_name <- subscript request_data "product_name" ;;
    target_country <- subscript request_data "target_country" ;;
    let product_category := get request_data "product_category" (VStr "General") in
    let messages :=
      [system "You are a market research expert with deep knowledge of international trade and market analysis.";
       user (analysis_prompt product_name target_country product_category)] in
    try_except
      (ai_response <- call_openai_gpt messages ;;
       market_data <-
         match json_loads ai_response with
         | Decoded decoded => ret decoded
         | JSONDecodeError =>
             ret (VDict [("analysis_text", VStr ai_response);
                         ("market_size", VDict [("value", VStr "Data not available");
                                                ("currency", VStr "USD");
                                                ("year", VStr "2024")]);
                         ("growth_rate", VStr "To be determined");
                         ("recommendations", VList [VStr "Conduct detailed market survey";
                                                    VStr "Engage local partners"])])
         | OtherError e => raise e
         end ;;
       me <- get_self ;;
       format_success_response
         (VDict [("market_analysis", market_data);
                 ("product", product_name);
                 ("target_country", target_country);
                 ("analysis_date", VStr (created_at me))]))
      (fun e => format_error_response ("Market analysis failed: " ++ str e)).

Definition _generate_mock_contacts (country industry contact_type : value) : M state value :=
  lowered_country <- eval (py_lower country) ;;
  italian_coffee <-
    (if String.eqb lowered_country "italy"
     then lowered_industry <- eval (py_lower industry) ;;
          ret (contains "coffee" lowered_industry)
     else ret false) ;;
  if italian_coffee : bool
  then
    ret (VList
      [VDict [("company_name", VStr "Milano Coffee Roasters");
              ("contact_person", VStr "Marco Rossi");
              ("position", VStr "Procurement Manager");
              ("email", VStr "marco.rossi@milanocoffee.it");
              ("phone", VStr "+39 02 1234567");
              ("address", VStr "Via Roma 123, 20121 Milano, Italy");
              ("company_size", VStr "50-100 employees");
              ("website", VStr "https://milanocoffee.it");
              ("description", VStr "Premium coffee roaster specializing in single-origin beans");
              ("verified", VBool true);
              ("industry", industry);
              ("country", country)];
       VDict [("company_name", VStr "Italian Coffee Distributors");
              ("contact_person", VStr "Giuseppe Bianchi");
              ("position", VStr "Import Director");
              ("email", VStr "g.bianchi@italiancoffee.com");
              ("phone", VStr "+39 06 7654321");
              ("address", VStr "Via Nazionale 456, 00100 Roma, Italy");
              ("company_size", VStr "100-500 employees");
              ("website", VStr "https://italiancoffee.com");
              ("description", VStr "Leading coffee distributor serving Italian market");
              ("verified", VBool true);
              ("industry", industry);
              ("country", country)]])
  else
    let company_name := "Global " ++ format industry ++ " Corp" in
    titled <- eval (py_title contact_type) ;;
    lowered_industry <- eval (py_lower industry) ;;
    let domain := remove_spaces lowered_industry in
    ret (VList
      [VDict [("company_name", VStr company_name);
              ("contact_person", VStr "John Smith");
              ("position", VStr (titled ++ " Manager"));
              ("email", VStr ("j.smith@global" ++ domain ++ ".com"));
              ("phone", VStr "+1 555 123 4567");
              ("address", VStr ("123 Business St, " ++ format country));
              ("company_size", VStr "100-500 employees");
              ("website", VStr ("https://global" ++ domain ++ ".com"));
              ("description", VStr ("Leading " ++ format industry ++ " company in " ++ format country));
              ("verified", VBool true);
              ("industry", industry);
              ("country", country)]]).

Definition _discover_contacts (request_data : dict) : M state value :=
  let required_fields := ["country"; "industry"] in
  valid <- validate_request request_data required_fields ;;
  if negb valid
  then format_error_response "Missing required fields for contact discovery"
  else
    country <- subscript request_data "country" ;;
    industry <- subscript request_data "industry" ;;
    let company_size := get request_data "company_size" (VStr "any") in
    let contact_type := get request_data "contact_type" (VStr "buyer") in
    let messages :=
      [system "You are a business intelligence expert with access to global business directories.";
       user (contact_prompt contact_type industry country company_size)] in
    try_except
      (ai_response <- call_openai_gpt messages ;;
       contacts <-
         match json_loads ai_response with
         | Decoded decoded => ret decoded
         | JSONDecodeError => _generate_mock_contacts country industry contact_type
         | OtherError e => raise e
         end ;;
       total_found <- eval (py_len contacts) ;;
       format_success_response
         (VDict [("contacts", contacts);
                 ("total_found", VInt total_found);
                 ("search_criteria", VDict [("country", country);
                                            ("industry", industry);
                                            ("company_size", company_size);
                                            ("contact_type", contact_type)])]))
      (fun e =>
         contacts <- _generate_mock_contacts country industry contact_type ;;
         total_found <- eval (py_len contacts) ;;
         format_success_response
           (VDict [("contacts", contacts);
                   ("total_found", VInt total_found);
                   ("note", VStr "Using sample data due to API limitations")])).

Definition _analyze_trends (request_data : dict) : M state value :=
  let required_fields := ["country"] in
  valid <- validate_request request_data required_fields ;;
  if negb valid
  then format_error_response "Missing required fields for trend analysis"
  else
    country <- subscript request_data "country" ;;
    let industry := get request_data "industry" (VStr "General") in
    let timeframe := get request_data "timeframe" (VStr "2024-2025") in
    let messages :=
      [system "You are a market trends analyst with expertise in global markets and industry forecasting.";
       user (trends_prompt industry country timeframe)] in
    try_except
      (ai_response <- call_openai_gpt messages ;;
       trends_data <-
         match json_loads ai_response with
         | Decoded decoded => ret decoded
         | JSONDecodeError =>
             ret (VDict [("trends_text", VStr ai_response);
                         ("market_outlook", VStr "neutral");
                         ("recommendations", VList [VStr "Conduct detailed trend analysis";
                                                    VStr "Monitor market developments"])])
         | OtherError e => raise e
         end ;;
       format_success_response
         (VDict [("trends_analysis", trends_data);
                 ("country", country);
                 ("industry", industry);
                 ("timeframe", timeframe)]))
      (fun e => format_error_response ("Trend analysis failed: " ++ str e)).

(** The body of the loop over [products] in [_match_opportunities]. *)
Definition opportunities_for (target_countries product : value) (opportunities : list value)
    : M state (list value) :=
  product_name <- eval (py_get product "name" (VStr "Unknown Product")) ;;
  product_category <- eval (py_get product "category" (VStr "General")) ;;
  countries <-
    (if truthy target_countries then eval (py_join ", " target_countries) else ret "Global") ;;
  let messages :=
    [system "You are a business opportunity analyst specializing in international trade.";
     user (opportunity_prompt product_name product_category countries)] in
  attempt <-
    try_except
      (ai_response <- call_openai_gpt messages ;;
       match json_loads ai_response with
       | Decoded product_opportunities =>
           decoded <- eval (py_iter product_opportunities) ;;
           ret (tag_and_collect "matched_product" product decoded opportunities)
       | JSONDecodeError =>
           ret ((opportunities ++
                 [VDict [("title", VStr ("Export Opportunity for " ++ format product_name));
                         ("description",
                          VStr ("Potential market opportunity for " ++ format product_name
                                ++ " in international markets"));
                         ("market", VStr "Global");
                         ("potential_value", VStr "To be determined");
                         ("confidence", VInt 70);
                         ("matched_product", product);
                         ("requirements", VList [VStr "Market research";
                                                 VStr "Regulatory compliance"]);
                         ("next_steps", VList [VStr "Contact potential buyers";
                                               VStr "Prepare samples"])]])%list,
                None)
       | OtherError e => raise e
       end)
      (fun e => ret (opportunities, Some e)) ;;
  match attempt with
  | (opportunities', None) => ret opportunities'
  | (opportunities', Some e) =>
      print (Text ("Error generating opportunities for " ++ format product_name
                   ++ ": " ++ str e)) ;;
      ret opportunities'
  end.

Definition _match_opportunities (request_data : dict) : M state value :=
  let required_fields := ["products"] in
  valid <- validate_request request_data required_fields ;;
  if negb valid
  then format_error_response "Missing required fields for opportunity matching"
  else
    products <- subscript request_data "products" ;;
    let target_countries := get request_data "target_countries" (VList []) in
    each_product <- eval (py_iter products) ;;
    opportunities <- for_each (opportunities_for target_countries) each_product [] ;;
    products_analyzed <- eval (py_len products) ;;
    format_success_response
      (VDict [("opportunities", VList opportunities);
              ("total_found", VInt (Z.of_nat (List.length opportunities)));
              ("products_analyzed", VInt products_analyzed)]).

Definition process_request (request_data : dict) : M state value :=
  log_request "market_research" request_data ;;
  let request_type := get request_data "type" VNone in
  result <-
    (if is_str request_type "market_analysis" then _analyze_market request_data
     else if is_str request_type "contact_discovery" then _discover_contacts request_data
     else if is_str request_type "trend_analysis" then _analyze_trends request_data
     else if is_str request_type "opportunity_matching" then _match_opportunities request_data
     else format_error_response ("Unknown request type: " ++ format request_type)) ;;
  log_response result ;;
  ret result.

End Handlers.
End MarketResearchAgent.

(** ** translation_agent.py *)

(** [table[v]] for a table keyed by strings. *)
Definition py_lookup {py : runtime} (table : list (string * string)) (v : value)
    : outcome string :=
  match v with
  | VStr s =>
      match find (fun entry => String.eqb (fst entry) s) table with
      | Some entry => Return (snd entry)
      | None => Raise (KeyError s)
      end
  | VList _ | VDict _ => Raise (TypeError ("unhashable type: '" ++ type_name v ++ "'"))
  | _ => Raise (Exception "KeyError" (format v))
  end.

(** [table.get(key, default)] *)
Definition lookup_or (table : list (string * string)) (key default : string) : string :=
  match find (fun entry => String.eqb (fst entry) key) table with
  | Some entry => snd entry
  | None => default
  end.

(** [enumerate(items)] *)
Fixpoint enumerate_from (i : Z) (items : list value) : list (Z * value) :=
  match items with
  | [] => []
  | item :: rest => (i, item) :: enumerate_from (i + 1) rest
  end.

(** [sum(1 for t in translations if t['success'])] *)
Fixpoint count_successes (translations : list value) : outcome Z :=
  match translations with
  | [] => Return 0%Z
  | t :: rest =>
      match py_item t "success" with
      | Return flag =>
          match count_successes rest with
          | Return n => Return (if truthy flag then 1 + n else n)%Z
          | Raise e => Raise e
          end
      | Raise e => Raise e
      end
  end.

Module TranslationAgent.
Import BaseAgent.

Definition language_table : list (string * string) :=
  [("en", "English"); ("es", "Spanish"); ("fr", "French"); ("de", "German");
   ("it", "Italian"); ("pt", "Portuguese"); ("ru", "Russian"); ("zh", "Chinese");
   ("ja", "Japanese"); ("ko", "Korean"); ("ar", "Arabic"); ("hi", "Hindi");
   ("id", "Indonesian"); ("th", "Thai"); ("vi", "Vietnamese"); ("tr", "Turkish");
   ("pl", "Polish"); ("nl", "Dutch"); ("sv", "Swedish"); ("da", "Danish")].

Definition init {py : runtime} : M world agent :=
  base <- BaseAgent.init Translation "TranslationAgent"
            ["text_translation"; "voice_translation"; "cultural_context"; "business_etiquette"] ;;
  ret {| class_of := class_of base;
         name := name base;
         capabilities := capabilities base;
         created_at := created_at base;
         request_count := request_count base;
         supported_languages := language_table |}.

Section Handlers.
Context {py : runtime}.

Definition _detect_language_internal (text : value) : M state string :=
  let messages :=
    [system "You are a language detection expert. Return only the ISO 639-1 language code, nothing else.";
     user (detection_prompt text)] in
  try_except
    (detected <- call_openai_gpt messages ;;
     let detected_code := lower (strip detected) in
     me <- get_self ;;
     if existsb (String.eqb detected_code) (keys (supported_languages me))
     then ret detected_code
     else ret "en")
    (fun e =>
       print (Text ("Language detection error: " ++ str e)) ;;
       ret "en").

Definition _translate_text (request_data : dict) : M state value :=
  let required_fields := ["text"; "target_language"] in
  valid <- validate_request request_data required_fields ;;
  if negb valid
  then format_error_response "Missing required fields for text translation"
  else
    text <- subscript request_data "text" ;;
    target_language <- subscript request_data "target_language" ;;
    let source_language := get request_data "source_language" (VStr "auto") in
    let context := get request_data "context" (VStr "general") in
    me <- get_self ;;
    supported <- eval (py_in target_language (supported_languages me)) ;;
    if negb supported
    then format_error_response ("Unsupported target language: " ++ format target_language)
    else
      try_except
        (language_name <- eval (py_lookup (supported_languages me) target_language) ;;
         let messages :=
           [system "You are a professional translator with expertise in business and cultural communication. Provide accurate, contextually appropriate translations.";
            user (translation_prompt language_name context
                    (if negb (is_str source_language "auto")
                     then source_language else VStr "auto-detect")
                    text)] in
         translated_text <- call_openai_gpt messages ;;
         detected_language <-
           (if is_str source_language "auto"
            then detected <- _detect_language_internal text ;; ret (VStr detected)
            else ret source_language) ;;
         format_success_response
           (VDict [("original_text", text);
                   ("translated_text", VStr translated_text);
                   ("source_language", detected_language);
                   ("target_language", target_language);
                   ("context", context);
                   ("confidence", VFloat 0.95%float)]))
        (fun e => format_error_response ("Translation failed: " ++ str e)).

(** The body of the loop over [enumerate(texts)] in [_batch_translate]. *)
Definition translate_element (request_data : dict) (target_language source_language : value)
    (element : Z * value) (translations : list value) : M state (list value) :=
  let (i, text) := element in
  try_except
    (let translation_request :=
       [("text", text);
        ("target_language", target_language);
        ("source_language", source_language);
        ("context", get request_data "context" (VStr "general"))] in
     result <- _translate_text translation_request ;;
     succeeded <- eval (py_item result "success") ;;
     if truthy succeeded
     then
       data <- eval (py_item result "data") ;;
       translated <- eval (py_item data "translated_text") ;;
       ret (translations ++
            [VDict [("index", VInt i);
                    ("original", text);
                    ("translated", translated);
                    ("success", VBool true)]])%list
     else
       error <- eval (py_item result "error") ;;
       ret (translations ++
            [VDict [("index", VInt i);
                    ("original", text);
                    ("translated", text);
                    ("success", VBool false);
                    ("error", error)]])%list)
    (fun e =>
       ret (translations ++
            [VDict [("index", VInt i);
                    ("original", text);
                    ("translated", text);
                    ("success", VBool false);
                    ("error", VStr (str e))]])%list).

Definition _batch_translate (request_data : dict) : M state value :=
  let required_fields := ["texts"; "target_language"] in
  valid <- validate_request request_data required_fields ;;
  if negb valid
  then format_error_response "Missing required fields for batch translation"
  else
    texts <- subscript request_data "texts" ;;
    target_language <- subscript request_data "target_language" ;;
    let source_language := get request_data "source_language" (VStr "auto") in
    match texts with
    | VList items =>
        translations <-
          for_each (translate_element request_data target_language source_language)
                   (enumerate_from 0 items) [] ;;
        successful_translations <- eval (count_successes translations) ;;
        format_success_response
          (VDict [("translations", VList translations);
                  ("total_texts", VInt (Z.of_nat (List.length items)));
                  ("successful_translations", VInt successful_translations);
                  ("target_language", target_language)])
    | _ => format_error_response "Texts must be a list"
    end.

Definition _provide_cultural_context (request_data : dict) : M state value :=
  let required_fields := ["country"] in
  valid <- validate_request request_data required_fields ;;
  if negb valid
  then format_error_response "Missing required fields for cultural context"
  else
    country <- subscript request_data "country" ;;
    let business_context := get request_data "business_context" (VStr "general") in
    let communication_type := get request_data "communication_type" (VStr "email") in
    let messages :=
      [system "You are a cultural business consultant with deep knowledge of international business practices and cultural norms.";
       user (context_prompt country business_context communication_type)] in
    try_except
      (ai_response <- call_openai_gpt messages ;;
       cultural_data <-
         match json_loads ai_response with
         | Decoded decoded => ret decoded
         | JSONDecodeError =>
             ret (VDict [("cultural_advice", VStr ai_response);
                         ("country", country);
                         ("tips", VList [VStr "Research local customs";
                                         VStr "Be respectful of cultural differences"])])
         | OtherError e => raise e
         end ;;
       format_success_response
         (VDict [("cultural_context", cultural_data);
                 ("country", country);
                 ("business_context", business_context);
                 ("communication_type", communication_type)]))
      (fun e => format_error_response ("Cultural context analysis failed: " ++ str e)).

Definition _provide_business_etiquette (request_data : dict) : M state value :=
  let required_fields := ["country"; "situation"] in
  valid <- validate_request request_data required_fields ;;
  if negb valid
  then format_error_response "Missing required fields for business etiquette"
  else
    country <- subscript request_data "country" ;;
    situation <- subscript request_data "situation" ;;
    let messages :=
      [system "You are a business etiquette expert with extensive knowledge of international business protocols.";
       user (etiquette_prompt situation country)] in
    try_except
      (ai_response <- call_openai_gpt messages ;;
       etiquette_data <-
         match json_loads ai_response with
         | Decoded decoded => ret decoded
         | JSONDecodeError =>
             ret (VDict [("etiquette_advice", VStr ai_response);
                         ("general_tips", VList [VStr "Be respectful";
                                                 VStr "Research local customs";
                                                 VStr "Be punctual"])])
         | OtherError e => raise e
         end ;;
       format_success_response
         (VDict [("business_etiquette", etiquette_data);
                 ("country", country);
                 ("situation", situation)]))
      (fun e => format_error_response ("Business etiquette analysis failed: " ++ str e)).

Definition _detect_language (request_data : dict) : M state value :=
  let required_fields := ["text"] in
  valid <- validate_request request_data required_fields ;;
  if negb valid
  then format_error_response "Missing required fields for language detection"
  else
    text <- subscript request_data "text" ;;
    detected_language <- _detect_language_internal text ;;
    me <- get_self ;;
    format_success_response
      (VDict [("text", text);
              ("detected_language", VStr detected_language);
              ("language_name",
               VStr (lookup_or (supported_languages me) detected_language "Unknown"));
              ("confidence", VFloat 0.9%float)]).

Definition process_request (request_data : dict) : M state value :=
  log_request "translation" request_data ;;
  let request_type := get request_data "type" VNone in
  result <-
    (if is_str request_type "text_translation" then _translate_text request_data
     else if is_str request_type "batch_translation" then _batch_translate request_data
     else if is_str request_type "cultural_context" then _provide_cultural_context request_data
     else if is_str request_type "business_etiquette" then _provide_business_etiquette request_data
     else if is_str request_type "language_detection" then _detect_language request_data
     else format_error_response ("Unknown request type: " ++ format request_type)) ;;
  log_response result ;;
  ret result.

End Handlers.
End TranslationAgent.

(** ** business_intelligence_agent.py *)

(** [[p.get(key, default) for p in items]] *)
Fixpoint get_each (key : string) (default : value) (items : list value)
    : outcome (list value) :=
  match items with
  | [] => Return []
  | p :: rest =>
      match py_get p key default with
      | Return x =>
          match get_each key default rest with
          | Return xs => Return (x :: xs)
          | Raise e => Raise e
          end
      | Raise e => Raise e
      end
  end.

Module BusinessIntelligenceAgent.
Import BaseAgent.

Definition init {py : runtime} : M world agent :=
  BaseAgent.init BusinessIntelligence "BusinessIntelligenceAgent"
    ["user_analytics"; "performance_insights"; "recommendations"; "trend_prediction"].

Section Handlers.
Context {py : runtime}.

Definition _analyze_user_performance (request_data : dict) : M state value :=
  let required_fields := ["user_id"] in
  valid <- validate_request request_data required_fields ;;
  if negb valid
  then format_error_response "Missing required fields for user analytics"
  else
    user_id <- subscript request_data "user_id" ;;
    let time_period := get request_data "time_period" (VStr "30_days") in
    let messages :=
      [system "You are a business analytics expert specializing in export business performance metrics.";
       user (analytics_prompt time_period)] in
    try_except
      (ai_response <- call_openai_gpt messages ;;
       analytics_data <-
         match json_loads ai_response with
         | Decoded decoded => ret decoded
         | JSONDecodeError =>
             ret (VDict [("performance_score", VInt 75);
                         ("profile_completion", VInt 80);
                         ("recommendations", VList [VStr "Complete your business profile";
                                                    VStr "Add more product photos";
                                                    VStr "Respond to messages faster"]);
                         ("analysis_text", VStr ai_response)])
         | OtherError e => raise e
         end ;;
       generated_at <- utcnow_isoformat ;;
       format_success_response
         (VDict [("user_analytics", analytics_data);
                 ("user_id", user_id);
                 ("time_period", time_period);
                 ("generated_at", VStr generated_at)]))
      (fun e => format_error_response ("User analytics failed: " ++ str e)).

(** The body of the loop over [products] in [_analyze_product_performance]. *)
Definition insights_for (product : value) (product_insights : list value)
    : M state (list value) :=
  product_name <- eval (py_get product "name" (VStr "Unknown Product")) ;;
  product_category <- eval (py_get product "category" (VStr "General")) ;;
  let messages :=
    [system "You are a product market analyst with expertise in international trade and product positioning.";
     user (insights_prompt product_name product_category)] in
  try_except
    (ai_response <- call_openai_gpt messages ;;
     match json_loads ai_response with
     | Decoded insight_data =>
         tagged <- eval (py_setitem insight_data "product" product) ;;
         ret (product_insights ++ [tagged])%list
     | JSONDecodeError =>
         ret (product_insights ++
              [VDict [("product", product);
                      ("performance_score", VInt 70);
                      ("analysis_text", VStr ai_response);
                      ("optimization_tips", VList [VStr "Improve product description";
                                                   VStr "Add more images"])]])%list
     | OtherError e => raise e
     end)
    (fun e =>
       print (Text ("Error analyzing product " ++ format product_name ++ ": " ++ str e)) ;;
       ret product_insights).

Definition _analyze_product_performance (request_data : dict) : M state value :=
  let required_fields := ["products"] in
  valid <- validate_request request_data required_fields ;;
  if negb valid
  then format_error_response "Missing required fields for product insights"
  else
    products <- subscript request_data "products" ;;
    each_product <- eval (py_iter products) ;;
    product_insights <- for_each insights_for each_product [] ;;
    total_products_analyzed <- eval (py_len products) ;;
    overall_portfolio_score <-
      match product_insights with
      | [] => ret (VInt 0)
      | _ :: _ =>
          scores <- eval (get_each "performance_score" (VInt 70) product_insights) ;;
          total <- eval (py_sum scores) ;;
          eval (truediv total (Z.of_nat (List.length product_insights)))
      end ;;
    format_success_response
      (VDict [("product_insights", VList product_insights);
              ("total_products_analyzed", VInt total_products_analyzed);
              ("overall_portfolio_score", overall_portfolio_score)]).

Definition _generate_market_recommendations (request_data : dict) : M state value :=
  let required_fields := ["user_profile"] in
  valid <- validate_request request_data required_fields ;;
  if negb valid
  then format_error_response "Missing required fields for market recommendations"
  else
    user_profile <- subscript request_data "user_profile" ;;
    user_country <- eval (py_get user_profile "country" (VStr "Unknown")) ;;
    let user_industry := get request_data "industry" (VStr "General") in
    let messages :=
      [system "You are a strategic business consultant specializing in international market expansion and export business development.";
       user (recommendations_prompt user_country user_industry)] in
    try_except
      (ai_response <- call_openai_gpt messages ;;
       recommendations_data <-
         match json_loads ai_response with
         | Decoded decoded => ret decoded
         | JSONDecodeError =>
             ret (VDict [("recommendations_text", VStr ai_response);
                         ("priority_markets",
                          VList [VDict [("country", VStr "Global");
                                        ("opportunity_score", VInt 75)]]);
                         ("strategic_recommendations",
                          VList [VDict [("recommendation", VStr "Conduct market research");
                                        ("priority", VStr "high")]])])
         | OtherError e => raise e
         end ;;
       format_success_response
         (VDict [("market_recommendations", recommendations_data);
                 ("user_country", user_country);
                 ("industry", user_industry)]))
      (fun e => format_error_response ("Market recommendations failed: " ++ str e)).

Definition _analyze_competition (request_data : dict) : M state value :=
  let required_fields := ["industry"; "target_market"] in
  valid <- validate_request request_data required_fields ;;
  if negb valid
  then format_error_response "Missing required fields for competitive analysis"
  else
    industry <- subscript request_data "industry" ;;
    target_market <- subscript request_data "target_market" ;;
    let messages :=
      [system "You are a competitive intelligence analyst with expertise in global market analysis.";
       user (competition_prompt industry target_market)] in
    try_except
      (ai_response <- call_openai_gpt messages ;;
       competition_data <-
         match json_loads ai_response with
         | Decoded decoded => ret decoded
         | JSONDecodeError =>
             ret (VDict [("analysis_text", VStr ai_response);
                         ("market_dynamics", VDict [("competition_intensity", VStr "medium")]);
                         ("recommendations", VList [VStr "Conduct detailed competitive research"])])
         | OtherError e => raise e
         end ;;
       format_success_response
         (VDict [("competitive_analysis", competition_data);
                 ("industry", industry);
                 ("target_market", target_market)]))
      (fun e => format_error_response ("Competitive analysis failed: " ++ str e)).

Definition _identify_growth_opportunities (request_data : dict) : M state value :=
  let required_fields := ["user_data"] in
  valid <- validate_request request_data required_fields ;;
  if negb valid
  then format_error_response "Missing required fields for growth opportunities"
  else
    user_data <- subscript request_data "user_data" ;;
    current_markets <- eval (py_get user_data "current_markets" (VList [])) ;;
    products <- eval (py_get user_data "products" (VList [])) ;;
    markets <-
      (if truthy current_markets
       then eval (py_join ", " current_markets)
       else ret "None specified") ;;
    portfolio_size <- eval (py_len products) ;;
    let messages :=
      [system "You are a business growth strategist with expertise in international expansion and business development.";
       user (growth_prompt markets portfolio_size)] in
    try_except
      (ai_response <- call_openai_gpt messages ;;
       growth_data <-
         match json_loads ai_response with
         | Decoded decoded => ret decoded
         | JSONDecodeError =>
             ret (VDict [("growth_analysis", VStr ai_response);
                         ("growth_opportunities",
                          VList [VDict [("type", VStr "market_expansion");
                                        ("title", VStr "Explore new markets");
                                        ("potential_impact", VStr "high");
                                        ("key_steps", VList [VStr "Market research";
                                                             VStr "Local partnerships"])]])])
         | OtherError e => raise e
         end ;;
       analysis_date <- utcnow_isoformat ;;
       format_success_response
         (VDict [("growth_opportunities", growth_data);
                 ("analysis_date", VStr analysis_date)]))
      (fun e => format_error_response ("Growth opportunity analysis failed: " ++ str e)).

Definition process_request (request_data : dict) : M state value :=
  log_request "business_intelligence" request_data ;;
  let request_type := get request_data "type" VNone in
  result <-
    (if is_str request_type "user_analytics" then _analyze_user_performance request_data
     else if is_str request_type "product_insights" then _analyze_product_performance request_data
     else if is_str request_type "market_recommendations"
          then _generate_market_recommendations request_data
     else if is_str request_type "competitive_analysis" then _analyze_competition request_data
     else if is_str request_type "growth_opportunities"
          then _identify_growth_opportunities request_data
     else format_error_response ("Unknown request type: " ++ format request_type)) ;;
  log_response result ;;
  ret result.

End Handlers.
End BusinessIntelligenceAgent.

(** ** base_agent.py: [AgentOrchestrator] *)

(** The registry [self.agents], a dictionary from agent name to agent
    object, in insertion order. *)
Definition registry : Type := list (string * agent).

Fixpoint registry_get (agent_name : string) (r : registry) : option agent :=
  match r with
  | [] => None
  | (k, a) :: rest => if String.eqb k agent_name then Some a else registry_get agent_name rest
  end.

Fixpoint registry_set (agent_name : string) (a : agent) (r : registry) : registry :=
  match r with
  | [] => [(agent_name, a)]
  | (k, old) :: rest =>
      if String.eqb k agent_name then (k, a) :: rest
      else (k, old) :: registry_set agent_name a rest
  end.

Record orchestrator : Type := { agents : registry; running : bool }.

(** The state the orchestrator and the manager run in: the global
    orchestrator object and the world. *)
Definition platform : Type := (orchestrator * world)%type.

#[export] Instance worldly_platform : Worldly platform := {
  world_of := snd;
  with_world := fun w p => (fst p, w)
}.

(** A method call on the agent object registered under [agent_name]: the
    method runs on the object, and what it changes of the object is seen
    through the registry afterwards. *)
Definition on_agent {A : Type} (agent_name : string) (a : agent) (method : M state A)
    : M platform A :=
  fun p =>
    let (result, s') := method {| self := a; outside := snd p |} in
    (result,
     ({| agents := registry_set agent_name (self s') (agents (fst p));
         running := running (fst p) |},
      outside s')).

Section Dispatch.
Context {py : runtime}.

(** [agent.process_request], resolved by the class of the object. *)
Definition process_request (a : agent) (request_data : dict) : M state value :=
  match class_of a with
  | MarketResearch => MarketResearchAgent.process_request request_data
  | Translation => TranslationAgent.process_request request_data
  | BusinessIntelligence => BusinessIntelligenceAgent.process_request request_data
  end.

End Dispatch.

Module AgentOrchestrator.

Definition init : orchestrator := {| agents := []; running := false |}.

Definition register_agent (a : agent) : M platform unit :=
  fun p =>
    print (Text ("[Orchestrator] Registered agent: " ++ name a))
      ({| agents := registry_set (name a) a (agents (fst p)); running := running (fst p) |},
       snd p).

Definition get_agent (agent_name : string) : M platform (option agent) :=
  fun p => (Return (registry_get agent_name (agents (fst p))), p).

Section Routing.
Context {py : runtime}.

Definition route_request (agent_name : string) (request_data : dict) : M platform value :=
  found <- get_agent agent_name ;;
  match found with
  | None =>
      p <- (fun p => (Return p, p)) ;;
      ret (VDict [("success", VBool false);
                  ("error", VStr ("Agent " ++ agent_name ++ " not found"));
                  ("available_agents", VList (map VStr (keys (agents (fst p)))))])
  | Some a =>
      try_except
        (on_agent agent_name a (process_request a request_data))
        (fun e =>
           ret (VDict [("success", VBool false);
                       ("error", VStr ("Agent " ++ agent_name
                                       ++ " failed to process request: " ++ str e));
                       ("agent", VStr agent_name)]))
  end.

End Routing.

Definition start : M platform unit :=
  fun p =>
    print (Text "[Orchestrator] Started successfully")
      ({| agents := agents (fst p); running := true |}, snd p).

Definition stop : M platform unit :=
  fun p =>
    print (Text "[Orchestrator] Stopped")
      ({| agents := agents (fst p); running := false |}, snd p).

End AgentOrchestrator.

(** ** agent_manager.py *)



Module AgentManager.
Import AgentOrchestrator.




Section Requests.
Context {py : runtime}.

Definition analyze_market (product_name target_country product_category : value)
    : M platform value :=
  let request_data :=
    [("type", VStr "market_analysis");
     ("product_name", product_name);
     ("target_country", target_country);
     ("product_category", py_or product_category (VStr "General"))] in
  route_request "MarketResearchAgent" request_data.

Definition discover_contacts (country industry company_size contact_type : value)
    : M platform value :=
  let request_data :=
    [("type", VStr "contact_discovery");
     ("country", country);
     ("industry", industry);
     ("company_size", company_size);
     ("contact_type", contact_type)] in
  route_request "MarketResearchAgent" request_data.

Definition analyze_trends (country industry timeframe : value) : M platform value :=
  let request_data :=
    [("type", VStr "trend_analysis");
     ("country", country);
     ("industry", industry);
     ("timeframe", timeframe)] in
  route_request "MarketResearchAgent" request_data.

Definition translate_text (text target_language source_language context : value)
    : M platform value :=
  let request_data :=
    [("type", VStr "text_translation");
     ("text", text);
     ("target_language", target_language);
     ("source_language", source_language);
     ("context", context)] in
  route_request "TranslationAgent" request_data.

Definition batch_translate (texts target_language source_language : value)
    : M platform value :=
  let request_data :=
    [("type", VStr "batch_translation");
     ("texts", texts);
     ("target_language", target_language);
     ("source_language", source_language)] in
  route_request "TranslationAgent" request_data.

Definition detect_language (text : value) : M platform value :=
  let request_data := [("type", VStr "language_detection"); ("text", text)] in
  route_request "TranslationAgent" request_data.


End Requests.
End AgentManager.

(** A constructor call: it runs in the world and leaves the orchestrator
    alone. *)
Definition in_world {A : Type} (m : M world A) : M platform A :=
  fun p => let (result, w') := m (snd p) in (result, (fst p, w')).

(** [AgentManager._initialize_agents]: the three agents are created and
    registered; the result is the value left in [agents_initialized].  A
    constructor that raises (no client can be built) sends the method to
    its [except] branch before anything is registered. *)
Definition _initialize_agents {py : runtime} : M platform bool :=
  try_except
    (market_agent <- in_world MarketResearchAgent.init ;;
     translation_agent <- in_world TranslationAgent.init ;;
     business_agent <- in_world BusinessIntelligenceAgent.init ;;
     AgentOrchestrator.register_agent market_agent ;;
     AgentOrchestrator.register_agent translation_agent ;;
     AgentOrchestrator.register_agent business_agent ;;
     print (Text "[AgentManager] All agents initialized successfully") ;;
     ret true)
    (fun e =>
       print (Text ("[AgentManager] Error initializing agents: " ++ str e)) ;;
       ret false).

(** ** The capability handlers, by request type *)

Inductive capability : Type :=
| market_analysis | contact_discovery | trend_analysis | opportunity_matching
| text_translation | batch_translation | cultural_context | business_etiquette
| language_detection
| user_analytics | product_insights | market_recommendations | competitive_analysis
| growth_opportunities.

Definition handler {py : runtime} (c : capability) : dict -> M state value :=
  match c with
  | market_analysis => MarketResearchAgent._analyze_market
  | contact_discovery => MarketResearchAgent._discover_contacts
  | trend_analysis => MarketResearchAgent._analyze_trends
  | opportunity_matching => MarketResearchAgent._match_opportunities
  | text_translation => TranslationAgent._translate_text
  | batch_translation => TranslationAgent._batch_translate
  | cultural_context => TranslationAgent._provide_cultural_context
  | business_etiquette => TranslationAgent._provide_business_etiquette
  | language_detection => TranslationAgent._detect_language
  | user_analytics => BusinessIntelligenceAgent._analyze_user_performance
  | product_insights => BusinessIntelligenceAgent._analyze_product_performance
  | market_recommendations => BusinessIntelligenceAgent._generate_market_recommendations
  | competitive_analysis => BusinessIntelligenceAgent._analyze_competition
  | growth_opportunities => BusinessIntelligenceAgent._identify_growth_opportunities
  end.

(** The [required_fields] list of each handler. *)
Definition required_fields (c : capability) : list string :=
  match c with
  | market_analysis => ["product_name"; "target_country"]
  | contact_discovery => ["country"; "industry"]
  | trend_analysis => ["country"]
  | opportunity_matching => ["products"]
  | text_translation => ["text"; "target_language"]
  | batch_translation => ["texts"; "target_language"]
  | cultural_context => ["country"]
  | business_etiquette => ["country"; "situation"]
  | language_detection => ["text"]
  | user_analytics => ["user_id"]
  | product_insights => ["products"]
  | market_recommendations => ["user_profile"]
  | competitive_analysis => ["industry"; "target_market"]
  | growth_opportunities => ["user_data"]
  end.

(** The message each handler rejects an incomplete request with. *)
Definition rejection (c : capability) : string :=
  "Missing required fields for " ++
  match c with
  | market_analysis => "market analysis"
  | contact_discovery => "contact discovery"
  | trend_analysis => "trend analysis"
  | opportunity_matching => "opportunity matching"
  | text_translation => "text translation"
  | batch_translation => "batch translation"
  | cultural_context => "cultural context"
  | business_etiquette => "business etiquette"
  | language_detection => "language detection"
  | user_analytics => "user analytics"
  | product_insights => "product insights"
  | market_recommendations => "market recommendations"
  | competitive_analysis => "competitive analysis"
  | growth_opportunities => "growth opportunities"
  end.

(** The key of the payload under which a handler puts the decoded
    completion as a whole; the handlers that loop over products, and
    those that decode nothing, have none. *)
Definition decoded_slot (c : capability) : option string :=
  match c with
  | market_analysis => Some "market_analysis"
  | contact_discovery => Some "contacts"
  | trend_analysis => Some "trends_analysis"
  | cultural_context => Some "cultural_context"
  | business_etiquette => Some "business_etiquette"
  | user_analytics => Some "user_analytics"
  | market_recommendations => Some "market_recommendations"
  | competitive_analysis => Some "competitive_analysis"
  | growth_opportunities => Some "growth_opportunities"
  | _ => None
  end.

(** The field that takes the completion text in the fallback object of
    a handler that puts one object under [decoded_slot].  Contact
    discovery falls back to sample contacts, which have no such field;
    the two handlers that loop over products have one fallback per
    product: the one of product insights ([insight_fallback]) keeps the
    text in [analysis_text], the one of opportunity matching has no field
    for it. *)
Definition free_text_field (c : capability) : option string :=
  match c with
  | market_analysis => Some "analysis_text"
  | trend_analysis => Some "trends_text"
  | cultural_context => Some "cultural_advice"
  | business_etiquette => Some "etiquette_advice"
  | user_analytics => Some "analysis_text"
  | market_recommendations => Some "recommendations_text"
  | competitive_analysis => Some "analysis_text"
  | growth_opportunities => Some "growth_analysis"
  | _ => None
  end.

(** The object a handler builds in its [except json.JSONDecodeError]
    branch, from the request and the completion text. *)
Definition fallback_object (c : capability) (request_data : dict) (ai_response : string)
    : option value :=
  match c with
  | market_analysis =>
      Some (VDict [("analysis_text", VStr ai_response);
                   ("market_size", VDict [("value", VStr "Data not available");
                                          ("currency", VStr "USD");
                                          ("year", VStr "2024")]);
                   ("growth_rate", VStr "To be determined");
                   ("recommendations", VList [VStr "Conduct detailed market survey";
                                              VStr "Engage local partners"])])
  | trend_analysis =>
      Some (VDict [("trends_text", VStr ai_response);
                   ("market_outlook", VStr "neutral");
                   ("recommendations", VList [VStr "Conduct detailed trend analysis";
                                              VStr "Monitor market developments"])])
  | cultural_context =>
      Some (VDict [("cultural_advice", VStr ai_response);
                   ("country", get request_data "country" VNone);
                   ("tips", VList [VStr "Research local customs";
                                   VStr "Be respectful of cultural differences"])])
  | business_etiquette =>
      Some (VDict [("etiquette_advice", VStr ai_response);
                   ("general_tips", VList [VStr "Be respectful";
                                           VStr "Research local customs";
                                           VStr "Be punctual"])])
  | user_analytics =>
      Some (VDict [("performance_score", VInt 75);
                   ("profile_completion", VInt 80);
                   ("recommendations", VList [VStr "Complete your business profile";
                                              VStr "Add more product photos";
                                              VStr "Respond to messages faster"]);
                   ("analysis_text", VStr ai_response)])
  | market_recommendations =>
      Some (VDict [("recommendations_text", VStr ai_response);
                   ("priority_markets",
                    VList [VDict [("country", VStr "Global");
                                  ("opportunity_score", VInt 75)]]);
                   ("strategic_recommendations",
                    VList [VDict [("recommendation", VStr "Conduct market research");
                                  ("priority", VStr "high")]])])
  | competitive_analysis =>
      Some (VDict [("analysis_text", VStr ai_response);
                   ("market_dynamics", VDict [("competition_intensity", VStr "medium")]);
                   ("recommendations", VList [VStr "Conduct detailed competitive research"])])
  | growth_opportunities =>
      Some (VDict [("growth_analysis", VStr ai_response);
                   ("growth_opportunities",
                    VList [VDict [("type", VStr "market_expansion");
                                  ("title", VStr "Explore new markets");
                                  ("potential_impact", VStr "high");
                                  ("key_steps", VList [VStr "Market research";
                                                       VStr "Local partnerships"])]])])
  | _ => None
  end.

(** The insight [_analyze_product_performance] collects for a product
    whose completion is not a JSON document. *)
Definition insight_fallback (product : value) (ai_response : string) : value :=
  VDict [("product", product);
         ("performance_score", VInt 70);
         ("analysis_text", VStr ai_response);
         ("optimization_tips", VList [VStr "Improve product description";
                                      VStr "Add more images"])].

(** What [call_openai_gpt] returns for an answer of the service. *)
Definition reply_text (answer : reply) : string :=
  match answer with
  | Content text => text
  | Failure e => "Error: Unable to process request - " ++ str e
  end.

(** The insights collected for [products] when none of the completions
    from the [n]-th on is a JSON document. *)
Fixpoint insight_fallbacks (completions : nat -> reply) (n : nat) (products : list dict)
    : list value :=
  match products with
  | [] => []
  | product :: rest =>
      insight_fallback (VDict product) (reply_text (completions n))
      :: insight_fallbacks completions (S n) rest
  end.

(** The text before [str(e)] in the error envelope of a handler whose
    [try] block ends in [except Exception as e]. *)
Definition failure_prefix (c : capability) : option string :=
  match c with
  | market_analysis => Some "Market analysis failed: "
  | trend_analysis => Some "Trend analysis failed: "
  | text_translation => Some "Translation failed: "
  | cultural_context => Some "Cultural context analysis failed: "
  | business_etiquette => Some "Business etiquette analysis failed: "
  | user_analytics => Some "User analytics failed: "
  | market_recommendations => Some "Market recommendations failed: "
  | competitive_analysis => Some "Competitive analysis failed: "
  | growth_opportunities => Some "Growth opportunity analysis failed: "
  | _ => None
  end.


(** The success and error envelopes of the response formatter. *)
Definition success_envelope (data : value) (agent_name timestamp : string) : value :=
  VDict [("success", VBool true);
         ("data", data);
         ("agent", VStr agent_name);
         ("timestamp", VStr timestamp)].

Definition error_envelope (error_message agent_name timestamp : string) : value :=
  VDict [("success", VBool false);
         ("error", VStr error_message);
         ("agent", VStr agent_name);
         ("timestamp", VStr timestamp)].

(** The next answer of the completion service. *)
Definition next_completion (s : state) : reply :=
  completions (outside s) (List.length (requests (outside s))).

(** ** Definitions used by the statements below *)

(** The test of [validate_request] on one field:
    [field not in request_data or not request_data[field]]. *)
Definition unusable (request_data : dict) (field : string) : bool :=
  negb (dict_mem field request_data) || negb (truthy (get request_data field VNone)).

(** The field at which [validate_request] stops, if any. *)
Definition first_missing (request_data : dict) (fields : list string) : option string :=
  find (unusable request_data) fields.

(** The state after one more printed line. *)
Definition logged (l : line) (s : state) : state :=
  {| self := self s; outside := write l (outside s) |}.

(** The state after one more completion request. *)
Definition asked (messages : list message) (s : state) : state :=
  {| self := self s; outside := record_request messages (outside s) |}.

(** An envelope the response formatter can produce. *)
Definition formatted (envelope : value) : Prop :=
  exists s : state,
    (exists data, fst (BaseAgent.format_success_response data s) = Return envelope) \/
    (exists error_message, fst (BaseAgent.format_error_response error_message s) = Return envelope).

(** The entry of the batch result for the text at position [i]: it
    carries the index and the original text, and either reports success
    or has the original text as its translation, with an error. *)
Definition entry_for (i : Z) (text entry : value) : Prop :=
  exists fields,
    entry = VDict fields /\
    dict_get "index" fields = Some (VInt i) /\
    dict_get "original" fields = Some text /\
    ((dict_get "success" fields = Some (VBool true) /\
      exists translated, dict_get "translated" fields = Some translated) \/
     (dict_get "success" fields = Some (VBool false) /\
      dict_get "translated" fields = Some text /\
      exists error, dict_get "error" fields = Some error)).





(** [isinstance(result, dict) and result.get('success')] *)
Definition succeeded (result : outcome value) : bool :=
  match result with
  | Return (VDict envelope) => truthy (get envelope "success" VNone)
  | _ => false
  end.

(** A method that leaves the agent object as it found it. *)
Definition keeps_self {A : Type} (m : M state A) : Prop :=
  forall s, self (snd (m s)) = self s.

(** Every value a method returns satisfies [Q]. *)
Definition yields {A : Type} (m : M state A) (Q : A -> Prop) : Prop :=
  forall s a s', m s = (Return a, s') -> Q a.

(** The method returns, with a value that satisfies [Q]. *)
Definition always {A : Type} (m : M state A) (Q : A -> Prop) : Prop :=
  forall s, exists a s', m s = (Return a, s') /\ Q a.

(** What [_translate_text] returns: a success envelope whose data has a
    [translated_text], or an error envelope. *)
Definition translation_envelope (v : value) : Prop :=
  (exists data agent_name timestamp translated,
     v = success_envelope (VDict data) agent_name timestamp /\
     dict_get "translated_text" data = Some translated) \/
  (exists error_message agent_name timestamp,
     v = error_envelope error_message agent_name timestamp).

(** The entries of a batch result for [items], numbered from [i]. *)
Fixpoint entries_from (i : Z) (items entries : list value) : Prop :=
  match items, entries with
  | [], [] => True
  | text :: items', entry :: entries' =>
      entry_for i text entry /\ entries_from (i + 1) items' entries'
  | _, _ => False
  end.

(** The request [_batch_translate] hands to [_translate_text] for one
    text of the batch. *)
Definition element_request (request_data : dict) (target_language source_language text : value)
    : dict :=
  [("text", text);
   ("target_language", target_language);
   ("source_language", source_language);
   ("context", get request_data "context" (VStr "general"))].

(** The entry of the batch result for the text at position [i], given
    how [_translate_text] ended on it: a success envelope gives its
    [translated_text]; an error envelope gives the original text and the
    error of the envelope; an exception gives the original text and
    [str(e)]. *)
Definition entry_after (i : Z) (text : value) (result : outcome value) (entry : value) : Prop :=
  (exists data agent_name timestamp translated,
     result = Return (success_envelope (VDict data) agent_name timestamp) /\
     dict_get "translated_text" data = Some translated /\
     entry = VDict [("index", VInt i);
                    ("original", text);
                    ("translated", translated);
                    ("success", VBool true)]) \/
  (exists error_message agent_name timestamp,
     result = Return (error_envelope error_message agent_name timestamp) /\
     entry = VDict [("index", VInt i);
                    ("original", text);
                    ("translated", text);
                    ("success", VBool false);
                    ("error", VStr error_message)]) \/
  (exists e,
     result = Raise e /\
     entry = VDict [("index", VInt i);
                    ("original", text);
                    ("translated", text);
                    ("success", VBool false);
                    ("error", VStr (str e))]).

(** The entries of a batch result for [items], numbered from [i], when
    the batch reaches the first of them in state [s]: each entry is the
    one [entry_after] the run of [_translate_text] on its text, in the
    state the texts before it left. *)
Fixpoint entries_after {py : runtime} (request_data : dict)
    (target_language source_language : value) (i : Z) (items : list value) (s : state)
    (entries : list value) : Prop :=
  match items, entries with
  | [], [] => True
  | text :: items', entry :: entries' =>
      let run :=
        TranslationAgent._translate_text
          (element_request request_data target_language source_language text) s in
      entry_after i text (fst run) entry /\
      entries_after request_data target_language source_language (i + 1) items' (snd run)
        entries'
  | _, _ => False
  end.

(** ** Worked examples: a runtime, a world, the booted platform *)

Definition quote : string := String "034"%char EmptyString.

Definition quoted (s : string) : string := quote ++ s ++ quote.

(** A completion in the shape the opportunity prompt documents, and what
    [json.loads] makes of it. *)
Definition opportunity_json : string :=
  "[{" ++ quoted "title" ++ ": " ++ quoted "Green coffee for Italian roasters" ++ ", "
       ++ quoted "description" ++ ": " ++ quoted "Roasters in Lombardy look for traceable lots" ++ ", "
       ++ quoted "market" ++ ": " ++ quoted "Italy" ++ ", "
       ++ quoted "potential_value" ++ ": " ++ quoted "250000 USD per year" ++ ", "
       ++ quoted "confidence" ++ ": 85, "
       ++ quoted "requirements" ++ ": [" ++ quoted "EU organic certificate" ++ "], "
       ++ quoted "next_steps" ++ ": [" ++ quoted "Send samples" ++ "], "
       ++ quoted "timeline" ++ ": " ++ quoted "6 months" ++ ", "
       ++ quoted "risk_level" ++ ": " ++ quoted "low" ++ "}]".

Definition opportunity_decoded : value :=
  VList [VDict [("title", VStr "Green coffee for Italian roasters");
                ("description", VStr "Roasters in Lombardy look for traceable lots");
                ("market", VStr "Italy");
                ("potential_value", VStr "250000 USD per year");
                ("confidence", VInt 85);
                ("requirements", VList [VStr "EU organic certificate"]);
                ("next_steps", VList [VStr "Send samples"]);
                ("timeline", VStr "6 months");
                ("risk_level", VStr "low")]].

(** A completion in the shape the etiquette prompt documents. *)
Definition etiquette_json : string :=
  "{" ++ quoted "dress_code" ++ ": " ++ quoted "Dark suit" ++ ", "
      ++ quoted "preparation" ++ ": [" ++ quoted "Print business cards" ++ "], "
      ++ quoted "greeting_protocol" ++ ": " ++ quoted "Handshake" ++ ", "
      ++ quoted "appropriate_topics" ++ ": [" ++ quoted "Food" ++ "], "
      ++ quoted "topics_to_avoid" ++ ": [" ++ quoted "Politics" ++ "], "
      ++ quoted "body_language" ++ ": [" ++ quoted "Keep eye contact" ++ "], "
      ++ quoted "gift_giving" ++ ": " ++ quoted "Not expected" ++ ", "
      ++ quoted "follow_up" ++ ": " ++ quoted "Write within two days" ++ ", "
      ++ quoted "common_mistakes" ++ ": [" ++ quoted "Being late" ++ "], "
      ++ quoted "success_tips" ++ ": [" ++ quoted "Be patient" ++ "]}".

Definition etiquette_decoded : value :=
  VDict [("dress_code", VStr "Dark suit");
         ("preparation", VList [VStr "Print business cards"]);
         ("greeting_protocol", VStr "Handshake");
         ("appropriate_topics", VList [VStr "Food"]);
         ("topics_to_avoid", VList [VStr "Politics"]);
         ("body_language", VList [VStr "Keep eye contact"]);
         ("gift_giving", VStr "Not expected");
         ("follow_up", VStr "Write within two days");
         ("common_mistakes", VList [VStr "Being late"]);
         ("success_tips", VList [VStr "Be patient"])].

(** A text the decoder gives up on: 1200 opening brackets. *)
Definition deeply_nested : string :=
  fold_right String.append EmptyString (repeat "[" 1200).

Definition RecursionError : exn :=
  Exception "RecursionError"
    "maximum recursion depth exceeded while decoding a JSON array from a unicode string".

(** [sum] of a list of integers. *)
Fixpoint sum_of_integers (items : list value) : outcome Z :=
  match items with
  | [] => Return 0%Z
  | VInt z :: rest =>
      match sum_of_integers rest with
      | Return total => Return (z + total)%Z
      | Raise e => Raise e
      end
  | other :: _ =>
      Raise (TypeError ("unsupported operand type(s) for +: 'int' and '"
                        ++ type_name other ++ "'"))
  end.

(** The interpreter's built-ins as the examples need them: the decoder
    knows the two JSON documents above, gives up on [deeply_nested] and
    rejects the other texts of the examples, none of which is JSON; the
    scores the examples add and divide are small natural numbers.  No
    example formats a float or a container or has text outside ASCII, so
    these built-ins have no content.  The client can be built. *)
Definition example_runtime : runtime := {|
  json_loads := fun text =>
    if String.eqb text deeply_nested then OtherError RecursionError
    else
      match dict_get text [(opportunity_json, opportunity_decoded);
                           (etiquette_json, etiquette_decoded)] with
      | Some decoded => Decoded decoded
      | None => JSONDecodeError
      end;
  repr := fun v => "<" ++ type_name v ++ ">";
  py_sum := fun items =>
    match sum_of_integers items with
    | Return total => Return (VInt total)
    | Raise e => Raise e
    end;
  truediv := fun v n =>
    match v with
    | VInt z =>
        if (n =? 0)%Z then Raise (Exception "ZeroDivisionError" "division by zero")
        else Return (VFloat (PrimFloat.div (PrimFloat.of_uint63 (Uint63.of_Z z))
                                           (PrimFloat.of_uint63 (Uint63.of_Z n))))
    | _ => Raise (TypeError ("unsupported operand type(s) for /: '"
                             ++ type_name v ++ "' and 'int'"))
    end;
  unicode_lower := fun s => s;
  unicode_strip := fun s => s;
  unicode_title := fun s => s;
  OpenAI := Return tt
|}.

(** The same built-ins in an environment without credentials, where the
    client library refuses to build a client. *)
Definition without_credentials : runtime := {|
  json_loads := json_loads (runtime := example_runtime);
  repr := repr (runtime := example_runtime);
  py_sum := py_sum (runtime := example_runtime);
  truediv := truediv (runtime := example_runtime);
  unicode_lower := unicode_lower (runtime := example_runtime);
  unicode_strip := unicode_strip (runtime := example_runtime);
  unicode_title := unicode_title (runtime := example_runtime);
  OpenAI :=
    Raise (Exception "OpenAIError"
             "The api_key client option must be set either by passing api_key to the client or by setting the OPENAI_API_KEY environment variable")
|}.

(** A world in which the completion service answers every call with
    [text], nothing was asked or printed yet, and the clock shows a new
    microsecond at every reading. *)
Definition stubbed (answer : reply) : world := {|
  completions := fun _ => answer;
  requests := [];
  clock := fun n => "2024-05-01T12:00:00.00000" ++ decimal (Z.of_nat n);
  clock_reads := 0;
  stdout := []
|}.

(** The platform after [AgentManager.__init__]. *)
Definition booted (answer : reply) : platform :=
  snd (_initialize_agents (py := example_runtime) (AgentOrchestrator.init, stubbed answer)).

(** The translation agent of the booted platform. *)
Definition example_translator : agent := {|
  class_of := Translation;
  name := "TranslationAgent";
  capabilities := ["text_translation"; "voice_translation"; "cultural_context";
                   "business_etiquette"];
  created_at := "2024-05-01T12:00:00.000001";
  request_count := 0;
  supported_languages := TranslationAgent.language_table
|}.

(** The market research agent of the booted platform. *)
Definition example_researcher : agent := {|
  class_of := MarketResearch;
  name := "MarketResearchAgent";
  capabilities := ["market_analysis"; "contact_discovery"; "trend_analysis";
                   "opportunity_matching"];
  created_at := "2024-05-01T12:00:00.000000";
  request_count := 0;
  supported_languages := []
|}.

(** ** base_agent.py: the other methods of [BaseAgent] *)



Module BaseAgentMethods.
Import BaseAgent.


(** [translate_text], with string arguments, as annotated. *)
Definition translate_text (text target_language source_language : string) : M state string :=
  try_except
    (let messages :=
       [system ("You are a professional translator. Translate the following text from "
                ++ source_language ++ " to " ++ target_language
                ++ ". Only return the translated text, no explanations.");
        user (literal text)] in
     call_openai_gpt messages)
    (fun e =>
       me <- get_self ;;
       print (Text ("[" ++ name me ++ "] Translation error: " ++ str e)) ;;
       ret text).

Definition communicate_with_agent {py : runtime} (agent_name : string) (message : value)
    : M state value :=
  me <- get_self ;;
  print (Text ("[" ++ name me ++ "] Sending message to " ++ agent_name ++ ": "
               ++ format message)) ;;
  ret (VDict [("status", VStr "message_sent")]).

Definition get_agent_info (a : agent) : value :=
  VDict [("name", VStr (name a));
         ("capabilities", VList (map VStr (capabilities a)));
         ("created_at", VStr (created_at a));
         ("request_count", VInt (request_count a));
         ("status", VStr "active")].

End BaseAgentMethods.

(** ** base_agent.py: the other methods of [AgentOrchestrator] *)

Module OrchestratorMethods.

(** [any(cap in agent.capabilities for cap in agent_capabilities)] *)
Definition has_capability (agent_capabilities : list string) (a : agent) : bool :=
  existsb (fun cap => existsb (String.eqb cap) (capabilities a)) agent_capabilities.

(** The agents the list comprehension of [broadcast_request] keeps, each
    with the key it is registered under. *)
Definition matching_agents (agent_capabilities : list string) (r : registry) : registry :=
  filter (fun entry => has_capability agent_capabilities (snd entry)) r.

Section Broadcast.
Context {py : runtime}.

(** The body of the loop over [matching_agents].  The registry is a
    dictionary, so the agents of the list are distinct objects and the
    one a later iteration calls is as the comprehension found it. *)
Definition ask_agent (request_data : dict) (entry : string * agent) (results : dict)
    : M platform dict :=
  let (registered_as, a) := entry in
  try_except
    (result <- on_agent registered_as a (process_request a request_data) ;;
     ret (dict_set (name a) result results))
    (fun e =>
       ret (dict_set (name a)
              (VDict [("success", VBool false); ("error", VStr (str e))])
              results)).

Definition broadcast_request (request_data : dict) (agent_capabilities : list string)
    : M platform value :=
  fun p =>
    let matching := matching_agents agent_capabilities (agents (fst p)) in
    match matching with
    | [] =>
        (Return (VDict [("success", VBool false);
                        ("error",
                         VStr ("No agents found with capabilities: "
                               ++ format (VList (map VStr agent_capabilities))))]),
         p)
    | _ :: _ =>
        (results <- for_each (ask_agent request_data) matching [] ;;
         ret (VDict [("success", VBool true);
                     ("results", VDict results);
                     ("agents_contacted", VInt (Z.of_nat (List.length matching)))])) p
    end.

End Broadcast.

Definition get_system_status : M platform value :=
  fun p =>
    (timestamp <- utcnow_isoformat ;;
     ret (VDict [("orchestrator_status",
                  VStr (if running (fst p) then "active" else "inactive"));
                 ("total_agents", VInt (Z.of_nat (List.length (agents (fst p)))));
                 ("agents",
                  VDict (map (fun entry =>
                                (fst entry, BaseAgentMethods.get_agent_info (snd entry)))
                             (agents (fst p))));
                 ("timestamp", VStr timestamp)])) p.

End OrchestratorMethods.

(** ** translation_agent.py: the chat entry point *)

Module TranslationAgentMethods.

Definition get_supported_languages : M state (list (string * string)) :=
  me <- get_self ;;
  ret (supported_languages me).

Section Chat.
Context {py : runtime}.

(** [translate_message_for_chat], with string arguments, as annotated. *)
Definition translate_message_for_chat (message sender_language receiver_language : string)
    : M state value :=
  if String.eqb sender_language receiver_language
  then
    ret (VDict [("original", VStr message);
                ("translated", VStr message);
                ("needs_translation", VBool false)])
  else
    let translation_request :=
      [("type", VStr "text_translation");
       ("text", VStr message);
       ("source_language", VStr sender_language);
       ("target_language", VStr receiver_language);
       ("context", VStr "business_chat")] in
    result <- TranslationAgent.process_request translation_request ;;
    succeeded <- eval (py_item result "success") ;;
    if truthy succeeded
    then
      data <- eval (py_item result "data") ;;
      translated <- eval (py_item data "translated_text") ;;
      ret (VDict [("original", VStr message);
                  ("translated", translated);
                  ("needs_translation", VBool true);
                  ("source_language", VStr sender_language);
                  ("target_language", VStr receiver_language)])
    else
      error <- eval (py_item result "error") ;;
      ret (VDict [("original", VStr message);
                  ("translated", VStr message);
                  ("needs_translation", VBool true);
                  ("error", error)]).

End Chat.
End TranslationAgentMethods.

(** ** agent_manager.py: the other request builders and the system methods *)

(** [type(a).__name__] *)
Definition class_name (cls : agent_class) : string :=
  match cls with
  | MarketResearch => "MarketResearchAgent"
  | Translation => "TranslationAgent"
  | BusinessIntelligence => "BusinessIntelligenceAgent"
  end.

Module AgentManagerMethods.
Import AgentOrchestrator.

Section Requests.
Context {py : runtime}.

Definition match_opportunities (products target_countries : value) : M platform value :=
  let request_data :=
    [("type", VStr "opportunity_matching");
     ("products", products);
     ("target_countries", py_or target_countries (VList []))] in
  route_request "MarketResearchAgent" request_data.

Definition get_cultural_context (country business_context communication_type : value)
    : M platform value :=
  let request_data :=
    [("type", VStr "cultural_context");
     ("country", country);
     ("business_context", business_context);
     ("communication_type", communication_type)] in
  route_request "TranslationAgent" request_data.

Definition get_business_etiquette (country situation : value) : M platform value :=
  let request_data :=
    [("type", VStr "business_etiquette");
     ("country", country);
     ("situation", situation)] in
  route_request "TranslationAgent" request_data.

Definition analyze_user_performance (user_id time_period : value) : M platform value :=
  let request_data :=
    [("type", VStr "user_analytics");
     ("user_id", user_id);
     ("time_period", time_period)] in
  route_request "BusinessIntelligenceAgent" request_data.

Definition analyze_product_performance (products : value) : M platform value :=
  let request_data :=
    [("type", VStr "product_insights");
     ("products", products)] in
  route_request "BusinessIntelligenceAgent" request_data.

Definition generate_market_recommendations (user_profile industry : value)
    : M platform value :=
  let request_data :=
    [("type", VStr "market_recommendations");
     ("user_profile", user_profile);
     ("industry", industry)] in
  route_request "BusinessIntelligenceAgent" request_data.

Definition analyze_competition (industry target_market : value) : M platform value :=
  let request_data :=
    [("type", VStr "competitive_analysis");
     ("industry", industry);
     ("target_market", target_market)] in
  route_request "BusinessIntelligenceAgent" request_data.

Definition identify_growth_opportunities (user_data : value) : M platform value :=
  let request_data :=
    [("type", VStr "growth_opportunities");
     ("user_data", user_data)] in
  route_request "BusinessIntelligenceAgent" request_data.

(** [translate_chat_message]: the method it calls exists on a
    [TranslationAgent] only. *)
Definition translate_chat_message (message sender_language receiver_language : string)
    : M platform value :=
  translation_agent <- get_agent "TranslationAgent" ;;
  match translation_agent with
  | Some a =>
      match class_of a with
      | Translation =>
          on_agent "TranslationAgent" a
            (TranslationAgentMethods.translate_message_for_chat
               message sender_language receiver_language)
      | _ =>
          raise (Exception "AttributeError"
                   ("'" ++ class_name (class_of a)
                    ++ "' object has no attribute 'translate_message_for_chat'"))
      end
  | None =>
      ret (VDict [("original", VStr message);
                  ("translated", VStr message);
                  ("needs_translation", VBool false);
                  ("error", VStr "Translation agent not available")])
  end.

End Requests.

Definition get_system_status : M platform value := OrchestratorMethods.get_system_status.

Definition get_agent_capabilities : M platform value :=
  fun p =>
    (Return (VDict (fold_left
                      (fun by_name entry =>
                         dict_set (fst entry) (VList (map VStr (capabilities (snd entry))))
                                  by_name)
                      (agents (fst p)) [])),
     p).

End AgentManagerMethods.

(** ** chat.py and market.py: the routes that call the agents

    A route is modelled from the decoded JSON body ([request.get_json()])
    to the pair it returns: the body handed to [jsonify] and the status
    code. *)

(** [for field in required_fields: if not data.get(field): return ...]:
    the field at which the loop returns, if any. *)
Fixpoint first_blank (data : value) (required_fields : list string) : outcome (option string) :=
  match required_fields with
  | [] => Return None
  | field :: rest =>
      match py_get data field VNone with
      | Return v => if negb (truthy v) then Return (Some field) else first_blank data rest
      | Raise e => Raise e
      end
  end.

Module Chat.
Section Routes.
Context {py : runtime}.

Definition translate_message (data : value) : M platform (value * Z) :=
  try_except
    (let required_fields := ["text"; "target_language"] in
     blank <- eval (first_blank data required_fields) ;;
     match blank with
     | Some field => ret (VDict [("error", VStr (field ++ " is required"))], 400%Z)
     | None =>
         text <- eval (py_item data "text") ;;
         target_language <- eval (py_item data "target_language") ;;
         source_language <- eval (py_get data "source_language" (VStr "auto")) ;;
         context <- eval (py_get data "context" (VStr "chat")) ;;
         try_except
           (result <- AgentManager.translate_text text target_language source_language context ;;
            succeeded <- eval (py_get result "success" VNone) ;;
            if truthy succeeded
            then
              payload <- eval (py_item result "data") ;;
              translated_text <- eval (py_item payload "translated_text") ;;
              detected <- eval (py_item payload "source_language") ;;
              confidence <- eval (py_get payload "confidence" (VFloat 0.95%float)) ;;
              ret (VDict [("original_text", text);
                          ("translated_text", translated_text);
                          ("source_language", detected);
                          ("target_language", target_language);
                          ("confidence", confidence)],
                   200%Z)
            else
              details <- eval (py_get result "error" (VStr "Unknown error")) ;;
              ret (VDict [("error", VStr "Translation failed"); ("details", details)], 500%Z))
           (fun e =>
              ret (VDict [("error", VStr "Translation service error");
                          ("details", VStr (str e))],
                   500%Z))
     end)
    (fun e =>
       ret (VDict [("error", VStr "Translation request failed"); ("details", VStr (str e))],
            500%Z)).

End Routes.
End Chat.

Module Market.
Section Routes.
Context {py : runtime}.


End Routes.
End Market.

(** ** voice_handler.py: the voice sessions *)

(** What [start_voice_session] stores under a session id: a dictionary
    with these seven keys. *)
Record session : Type := {
  user_id : value;
  config : value;
  status : string;
  session_created_at : float;
  translation_enabled : value;
  session_target_language : value;
  session_source_language : value
}.

(** The handler object: the dictionary [active_sessions], in insertion
    order, and the clock of the event loop, whose n-th reading
    ([loop.time()]) is [loop_time n]. *)
Record voice : Type := {
  active_sessions : list (string * session);
  loop_time : nat -> float;
  time_reads : nat
}.

Fixpoint session_get (session_id : string) (sessions : list (string * session))
    : option session :=
  match sessions with
  | [] => None
  | (k, v) :: rest => if String.eqb k session_id then Some v else session_get session_id rest
  end.

(** [sessions[session_id] = v] *)
Fixpoint session_set (session_id : string) (v : session) (sessions : list (string * session))
    : list (string * session) :=
  match sessions with
  | [] => [(session_id, v)]
  | (k, old) :: rest =>
      if String.eqb k session_id then (k, v) :: rest
      else (k, old) :: session_set session_id v rest
  end.

(** [del sessions[session_id]] *)
Fixpoint session_del (session_id : string) (sessions : list (string * session))
    : list (string * session) :=
  match sessions with
  | [] => []
  | (k, v) :: rest =>
      if String.eqb k session_id then rest else (k, v) :: session_del session_id rest
  end.

Module VoiceHandler.

(** [asyncio.get_event_loop().time()] *)
Definition event_loop_time : M voice float :=
  fun h =>
    (Return (loop_time h (time_reads h)),
     {| active_sessions := active_sessions h;
        loop_time := loop_time h;
        time_reads := S (time_reads h) |}).

Definition store_session (session_id : string) (v : session) : M voice unit :=
  fun h =>
    (Return tt,
     {| active_sessions := session_set session_id v (active_sessions h);
        loop_time := loop_time h;
        time_reads := time_reads h |}).

Definition start_voice_session (session_id : string) (user : value) (settings : value)
    : M voice value :=
  try_except
    (voice_name <- eval (py_get settings "voice" (VStr "alloy")) ;;
     let session_config :=
       VDict [("model", VStr "gpt-4o-realtime-preview");
              ("voice", voice_name);
              ("input_audio_format", VStr "pcm16");
              ("output_audio_format", VStr "pcm16");
              ("input_audio_transcription", VDict [("model", VStr "whisper-1")]);
              ("turn_detection",
               VDict [("type", VStr "server_vad");
                      ("threshold", VFloat 0.5%float);
                      ("prefix_padding_ms", VInt 300);
                      ("silence_duration_ms", VInt 200)]);
              ("tools", VList []);
              ("temperature", VFloat 0.8%float);
              ("max_response_output_tokens", VInt 4096)] in
     now <- event_loop_time ;;
     enabled <- eval (py_get settings "translation_enabled" (VBool false)) ;;
     target <- eval (py_get settings "target_language" (VStr "en")) ;;
     source <- eval (py_get settings "source_language" (VStr "auto")) ;;
     store_session session_id
       {| user_id := user;
          config := session_config;
          status := "active";
          session_created_at := now;
          translation_enabled := enabled;
          session_target_language := target;
          session_source_language := source |} ;;
     ret (VDict [("success", VBool true);
                 ("session_id", VStr session_id);
                 ("config", session_config);
                 ("message", VStr "Voice session started successfully")]))
    (fun e =>
       ret (VDict [("success", VBool false);
                   ("error", VStr ("Failed to start voice session: " ++ str e))])).

Definition end_voice_session (session_id : string) : M voice value :=
  try_except
    (fun h =>
       match session_get session_id (active_sessions h) with
       | Some _ =>
           (Return (VDict [("success", VBool true);
                           ("message", VStr "Voice session ended successfully")]),
            {| active_sessions := session_del session_id (active_sessions h);
               loop_time := loop_time h;
               time_reads := time_reads h |})
       | None =>
           (Return (VDict [("success", VBool false);
                           ("error", VStr "Session not found")]),
            h)
       end)
    (fun e =>
       ret (VDict [("success", VBool false);
                   ("error", VStr ("Failed to end session: " ++ str e))])).

(** [get_session_status], a function of the sessions. *)
Definition session_status (session_id : string) (sessions : list (string * session)) : value :=
  match session_get session_id sessions with
  | Some found =>
      VDict [("session_id", VStr session_id);
             ("status", VStr (status found));
             ("user_id", user_id found);
             ("translation_enabled", translation_enabled found);
             ("target_language", session_target_language found);
             ("created_at", VFloat (session_created_at found))]
  | None =>
      VDict [("session_id", VStr session_id);
             ("status", VStr "not_found")]
  end.

Definition get_session_status (session_id : string) : M voice value :=
  fun h => (Return (session_status session_id (active_sessions h)), h).

Definition get_active_sessions : M voice value :=
  fun h =>
    (Return (VDict [("total_sessions", VInt (Z.of_nat (List.length (active_sessions h))));
                    ("sessions",
                     VList (map (fun session_id =>
                                   session_status session_id (active_sessions h))
                                (keys (active_sessions h))))]),
     h).

End VoiceHandler.

(** ** More definitions used by the statements below *)


(** The code [_detect_language_internal] returns in state [s]: the next
    answer of the service, stripped and lowered, when the language table
    has it, and "en" otherwise. *)
Definition detected_code {py : runtime} (s : state) : string :=
  let detected_code := lower (strip (reply_text (next_completion s))) in
  if existsb (String.eqb detected_code) (keys (supported_languages (self s)))
  then detected_code else "en".

(** The payload of contact discovery for a request that passed the
    validator, given the sample contacts [_generate_mock_contacts] makes
    for it and what the decoder did with the completion: the decoded
    contacts when they have a length, the sample contacts otherwise;
    the branch that answers from the outer handler has a note in place
    of the search criteria. *)
Definition discovered (request_data : dict) (sample : list value) (decoded : decoding)
    : dict :=
  let search_criteria :=
    VDict [("country", get request_data "country" VNone);
           ("industry", get request_data "industry" VNone);
           ("company_size", get request_data "company_size" (VStr "any"));
           ("contact_type", get request_data "contact_type" (VStr "buyer"))] in
  let found (contacts : value) (total : Z) :=
    [("contacts", contacts); ("total_found", VInt total);
     ("search_criteria", search_criteria)] in
  let sample_size := Z.of_nat (List.length sample) in
  match decoded with
  | Decoded contacts =>
      match py_len contacts with
      | Return total => found contacts total
      | Raise _ =>
          [("contacts", VList sample); ("total_found", VInt sample_size);
           ("note", VStr "Using sample data due to API limitations")]
      end
  | JSONDecodeError => found (VList sample) sample_size
  | OtherError _ =>
      [("contacts", VList sample); ("total_found", VInt sample_size);
       ("note", VStr "Using sample data due to API limitations")]
  end.

(** The test [t['success']] of the count over a batch, on one entry. *)
Definition reports_success (entry : value) : bool :=
  match py_item entry "success" with
  | Return flag => truthy flag
  | Raise _ => false
  end.

(** The calls of the manager's request builders, with their arguments. *)
Inductive manager_call : Type :=
| call_analyze_market (product_name target_country product_category : value)
| call_discover_contacts (country industry company_size contact_type : value)
| call_analyze_trends (country industry timeframe : value)
| call_match_opportunities (products target_countries : value)
| call_translate_text (text target_language source_language context : value)
| call_batch_translate (texts target_language source_language : value)
| call_get_cultural_context (country business_context communication_type : value)
| call_get_business_etiquette (country situation : value)
| call_detect_language (text : value)
| call_analyze_user_performance (user_id time_period : value)
| call_analyze_product_performance (products : value)
| call_generate_market_recommendations (user_profile industry : value)
| call_analyze_competition (industry target_market : value)
| call_identify_growth_opportunities (user_data : value).

Definition perform {py : runtime} (call : manager_call) : M platform value :=
  match call with
  | call_analyze_market product_name target_country product_category =>
      AgentManager.analyze_market product_name target_country product_category
  | call_discover_contacts country industry company_size contact_type =>
      AgentManager.discover_contacts country industry company_size contact_type
  | call_analyze_trends country industry timeframe =>
      AgentManager.analyze_trends country industry timeframe
  | call_match_opportunities products target_countries =>
      AgentManagerMethods.match_opportunities products target_countries
  | call_translate_text text target_language source_language context =>
      AgentManager.translate_text text target_language source_language context
  | call_batch_translate texts target_language source_language =>
      AgentManager.batch_translate texts target_language source_language
  | call_get_cultural_context country business_context communication_type =>
      AgentManagerMethods.get_cultural_context country business_context communication_type
  | call_get_business_etiquette country situation =>
      AgentManagerMethods.get_business_etiquette country situation
  | call_detect_language text => AgentManager.detect_language text
  | call_analyze_user_performance user_id time_period =>
      AgentManagerMethods.analyze_user_performance user_id time_period
  | call_analyze_product_performance products =>
      AgentManagerMethods.analyze_product_performance products
  | call_generate_market_recommendations user_profile industry =>
      AgentManagerMethods.generate_market_recommendations user_profile industry
  | call_analyze_competition industry target_market =>
      AgentManagerMethods.analyze_competition industry target_market
  | call_identify_growth_opportunities user_data =>
      AgentManagerMethods.identify_growth_opportunities user_data
  end.

(** The handler a call of the manager is meant for. *)
Definition capability_of (call : manager_call) : capability :=
  match call with
  | call_analyze_market _ _ _ => market_analysis
  | call_discover_contacts _ _ _ _ => contact_discovery
  | call_analyze_trends _ _ _ => trend_analysis
  | call_match_opportunities _ _ => opportunity_matching
  | call_translate_text _ _ _ _ => text_translation
  | call_batch_translate _ _ _ => batch_translation
  | call_get_cultural_context _ _ _ => cultural_context
  | call_get_business_etiquette _ _ => business_etiquette
  | call_detect_language _ => language_detection
  | call_analyze_user_performance _ _ => user_analytics
  | call_analyze_product_performance _ => product_insights
  | call_generate_market_recommendations _ _ => market_recommendations
  | call_analyze_competition _ _ => competitive_analysis
  | call_identify_growth_opportunities _ => growth_opportunities
  end.

(** The class whose [process_request] has the handler. *)
Definition class_for (c : capability) : agent_class :=
  match c with
  | market_analysis | contact_discovery | trend_analysis | opportunity_matching =>
      MarketResearch
  | text_translation | batch_translation | cultural_context | business_etiquette
  | language_detection =>
      Translation
  | user_analytics | product_insights | market_recommendations | competitive_analysis
  | growth_opportunities =>
      BusinessIntelligence
  end.

(** The request type under which the [process_request] of a class logs. *)
Definition logged_as (cls : agent_class) : string :=
  match cls with
  | MarketResearch => "market_research"
  | Translation => "translation"
  | BusinessIntelligence => "business_intelligence"
  end.

(** The business intelligence agent of the booted platform. *)
Definition example_analyst : agent := {|
  class_of := BusinessIntelligence;
  name := "BusinessIntelligenceAgent";
  capabilities := ["user_analytics"; "performance_insights"; "recommendations";
                   "trend_prediction"];
  created_at := "2024-05-01T12:00:00.000002";
  request_count := 0;
  supported_languages := []
|}.

(** * Properties *)

(** ** The request validator *)

Lemma validate_request_run (request_data : dict) (fields : list string) (s : state) :
  BaseAgent.validate_request request_data fields s =
  match first_missing request_data fields with
  | None => (Return true, s)
  | Some field =>
      (Return false,
       logged (Text ("[" ++ name (self s) ++ "] Missing required field: " ++ field)) s)
  end.
Proof.
  induction fields as [|field rest IH]; [reflexivity|].
  unfold first_missing. simpl. unfold unusable at 1.
  destruct (negb (dict_mem field request_data)
            || negb (truthy (get request_data field VNone))).
  - reflexivity.
  - exact IH.
Qed.

Lemma usable_present (request_data : dict) (field : string) :
  unusable request_data field = false ->
  exists v, dict_get field request_data = Some v /\ truthy v = true.
Proof.
  unfold unusable, dict_mem, get.
  destruct (dict_get field request_data) as [v|]; simpl; [|discriminate].
  intro H. exists v. split; [reflexivity|].
  destruct (truthy v); [reflexivity|discriminate].
Qed.

Lemma unusable_absent_or_falsy (request_data : dict) (field : string) :
  unusable request_data field = true <->
  dict_get field request_data = None \/
  exists v, dict_get field request_data = Some v /\ truthy v = false.
Proof.
  unfold unusable, dict_mem, get.
  destruct (dict_get field request_data) as [v|]; simpl.
  - split.
    + intro H. right. exists v. split; [reflexivity|].
      destruct (truthy v); [discriminate|reflexivity].
    + intros [H|(v' & H & F)]; [discriminate|].
      inversion H; subst. rewrite F. reflexivity.
  - split; [intros _; left; reflexivity | reflexivity].
Qed.

Lemma first_missing_some (request_data : dict) (fields : list string) (field : string) :
  In field fields -> unusable request_data field = true ->
  exists missing,
    first_missing request_data fields = Some missing /\
    In missing fields /\ unusable request_data missing = true.
Proof.
  intros Hin Hbad. unfold first_missing.
  destruct (find (unusable request_data) fields) as [missing|] eqn:F.
  - exists missing. apply find_some in F. tauto.
  - pose proof (find_none _ _ F _ Hin) as H. congruence.
Qed.

(** ** C6: the response formatter *)

(** C6.  Every envelope the response formatter produces is a dictionary
    in which [success] is a boolean; when it is true there is a [data]
    field and no [error] field, when it is false there is an [error]
    field and no [data] field. *)
Theorem formatter_envelope_invariant (envelope : value) :
  formatted envelope ->
  exists fields,
    envelope = VDict fields /\
    (dict_get "success" fields = Some (VBool true) \/
     dict_get "success" fields = Some (VBool false)) /\
    (dict_get "success" fields = Some (VBool true) ->
     dict_mem "data" fields = true /\ dict_mem "error" fields = false) /\
    (dict_get "success" fields = Some (VBool false) ->
     dict_mem "error" fields = true /\ dict_mem "data" fields = false).
Proof.
  intros (s & [(data & H) | (error_message & H)]);
    cbn in H; inversion H; subst; clear H;
    eexists; (split; [reflexivity|]); cbn.
  - split; [left; reflexivity|]. split; [intros _; split; reflexivity | discriminate].
  - split; [right; reflexivity|]. split; [discriminate | intros _; split; reflexivity].
Qed.

Lemma formatter_envelope_invariant_witness :
  formatted
    (error_envelope "Unknown request type: None" "TranslationAgent"
       "2024-05-01T12:00:00.000000") /\
  exists fields,
    error_envelope "Unknown request type: None" "TranslationAgent"
      "2024-05-01T12:00:00.000000" = VDict fields /\
    (dict_get "success" fields = Some (VBool true) \/
     dict_get "success" fields = Some (VBool false)) /\
    (dict_get "success" fields = Some (VBool true) ->
     dict_mem "data" fields = true /\ dict_mem "error" fields = false) /\
    (dict_get "success" fields = Some (VBool false) ->
     dict_mem "error" fields = true /\ dict_mem "data" fields = false).
Proof.
  assert (H : formatted
                (error_envelope "Unknown request type: None" "TranslationAgent"
                   "2024-05-01T12:00:00.000000")).
  { exists {| self := example_translator; outside := stubbed (Content "fr") |}.
    right. exists "Unknown request type: None". reflexivity. }
  split; [exact H | exact (formatter_envelope_invariant _ H)].
Defined.

(** ** C5: the dispatcher *)

Lemma registry_get_some_in (r : registry) (agent_name : string) (a : agent) :
  registry_get agent_name r = Some a -> In agent_name (keys r).
Proof.
  induction r as [|[k b] rest IH]; simpl; [discriminate|].
  destruct (String.eqb k agent_name) eqn:E.
  - intros _. left. apply String.eqb_eq. exact E.
  - intro H. right. apply IH. exact H.
Qed.

Lemma registry_get_none_not_in (r : registry) (agent_name : string) :
  registry_get agent_name r = None -> ~ In agent_name (keys r).
Proof.
  induction r as [|[k b] rest IH]; simpl; [tauto|].
  destruct (String.eqb k agent_name) eqn:E; [discriminate|].
  intros H [K|K].
  - apply String.eqb_neq in E. contradiction.
  - exact (IH H K).
Qed.

Lemma in_map_VStr (n : string) (l : list string) : In (VStr n) (map VStr l) <-> In n l.
Proof.
  split.
  - intro H. apply in_map_iff in H. destruct H as (m & E & I).
    inversion E; subst. exact I.
  - apply in_map.
Qed.

Section Dispatcher.
Context {py : runtime}.

(** C5.  Dispatching to a name that is not in the registry returns, with
    nothing changed, an error envelope whose [available_agents] list holds
    every registered name and not the requested one; and when the handler
    of a registered agent raises, the dispatcher returns an error envelope
    that names the agent and carries the text of the exception. *)
Theorem route_request_error_envelopes
    (agent_name : string) (request_data : dict) (p : platform) :
  (registry_get agent_name (agents (fst p)) = None ->
   exists available,
     AgentOrchestrator.route_request agent_name request_data p =
       (Return (VDict [("success", VBool false);
                       ("error", VStr ("Agent " ++ agent_name ++ " not found"));
                       ("available_agents", VList available)]),
        p) /\
     (forall registered a,
        registry_get registered (agents (fst p)) = Some a ->
        In (VStr registered) available) /\
     ~ In (VStr agent_name) available) /\
  (forall a e s',
     registry_get agent_name (agents (fst p)) = Some a ->
     process_request a request_data {| self := a; outside := snd p |} = (Raise e, s') ->
     AgentOrchestrator.route_request agent_name request_data p =
       (Return (VDict [("success", VBool false);
                       ("error", VStr ("Agent " ++ agent_name
                                       ++ " failed to process request: " ++ str e));
                       ("agent", VStr agent_name)]),
        ({| agents := registry_set agent_name (self s') (agents (fst p));
            running := running (fst p) |},
         outside s'))).
Proof.
  split.
  - intro Hnone. exists (map VStr (keys (agents (fst p)))).
    split; [|split].
    + unfold AgentOrchestrator.route_request, AgentOrchestrator.get_agent, bind.
      rewrite Hnone. reflexivity.
    + intros registered a Hsome. apply in_map_VStr.
      exact (registry_get_some_in _ _ _ Hsome).
    + intro Hin. apply in_map_VStr in Hin.
      exact (registry_get_none_not_in _ _ Hnone Hin).
  - intros a e s' Hsome Hraise.
    unfold AgentOrchestrator.route_request, AgentOrchestrator.get_agent, bind.
    rewrite Hsome. unfold try_except, on_agent. rewrite Hraise. reflexivity.
Qed.

End Dispatcher.

Lemma route_request_error_envelopes_witness :
  (exists available,
     AgentOrchestrator.route_request (py := example_runtime) "PricingAgent"
       [("type", VStr "quote")] (booted (Content "fr")) =
       (Return (VDict [("success", VBool false);
                       ("error", VStr "Agent PricingAgent not found");
                       ("available_agents", VList available)]),
        booted (Content "fr")) /\
     (forall registered a,
        registry_get registered (agents (fst (booted (Content "fr")))) = Some a ->
        In (VStr registered) available) /\
     ~ In (VStr "PricingAgent") available) /\
  fst (AgentOrchestrator.route_request (py := example_runtime) "TranslationAgent"
         [("type", VStr "text_translation"); ("text", VStr "Hello");
          ("target_language", VList [VStr "fr"])]
         (booted (Content "Bonjour"))) =
    Return (VDict [("success", VBool false);
                   ("error", VStr "Agent TranslationAgent failed to process request: unhashable type: 'list'");
                   ("agent", VStr "TranslationAgent")]).
Proof.
  split.
  - apply (proj1 (route_request_error_envelopes (py := example_runtime) "PricingAgent"
                    [("type", VStr "quote")] (booted (Content "fr")))).
    reflexivity.
  - rewrite (proj2 (route_request_error_envelopes (py := example_runtime) "TranslationAgent"
                      [("type", VStr "text_translation"); ("text", VStr "Hello");
                       ("target_language", VList [VStr "fr"])]
                      (booted (Content "Bonjour")))
               example_translator (TypeError "unhashable type: 'list'")
               (snd (process_request (py := example_runtime) example_translator
                       [("type", VStr "text_translation"); ("text", VStr "Hello");
                        ("target_language", VList [VStr "fr"])]
                       {| self := example_translator;
                          outside := snd (booted (Content "Bonjour")) |}))).
    + reflexivity.
    + reflexivity.
    + reflexivity.
Defined.

(** ** C9: what a request changes of the agent *)

Create HintDb keeps_self discriminated.

Lemma keeps_self_ret {A : Type} (a : A) : keeps_self (ret a).
Proof. intro s. reflexivity. Qed.

Lemma keeps_self_eval {A : Type} (o : outcome A) : keeps_self (eval o).
Proof. intro s. reflexivity. Qed.

Lemma keeps_self_get_self : keeps_self get_self.
Proof. intro s. reflexivity. Qed.

Lemma keeps_self_print (l : line) : keeps_self (print l).
Proof. intro s. reflexivity. Qed.

Lemma keeps_self_utcnow : keeps_self utcnow_isoformat.
Proof. intro s. reflexivity. Qed.

Lemma keeps_self_create (messages : list message) :
  keeps_self (chat_completions_create messages).
Proof.
  intro s. unfold chat_completions_create.
  destruct (completions _ _); reflexivity.
Qed.

Lemma keeps_self_bind {A B : Type} (m : M state A) (k : A -> M state B) :
  keeps_self m -> (forall a, keeps_self (k a)) -> keeps_self (bind m k).
Proof.
  intros Hm Hk s. unfold bind. specialize (Hm s).
  destruct (m s) as [[a|e] s1]; simpl in *.
  - rewrite Hk. exact Hm.
  - exact Hm.
Qed.

Lemma keeps_self_try_except {A : Type} (body : M state A) (handler : exn -> M state A) :
  keeps_self body -> (forall e, keeps_self (handler e)) -> keeps_self (try_except body handler).
Proof.
  intros Hb Hh s. unfold try_except. specialize (Hb s).
  destruct (body s) as [[a|e] s1]; simpl in *.
  - exact Hb.
  - rewrite Hh. exact Hb.
Qed.

Lemma keeps_self_for_each {A B : Type} (body : A -> B -> M state B)
    (elements : list A) (carried : B) :
  (forall element c, keeps_self (body element c)) ->
  keeps_self (for_each body elements carried).
Proof.
  intro Hbody. revert carried.
  induction elements as [|element rest IH]; intro carried; simpl.
  - apply keeps_self_ret.
  - apply keeps_self_bind; [apply Hbody | intro c; apply IH].
Qed.

Lemma keeps_self_validate_request (request_data : dict) (fields : list string) :
  keeps_self (BaseAgent.validate_request request_data fields).
Proof.
  intro s. rewrite validate_request_run.
  destruct (first_missing request_data fields); reflexivity.
Qed.

#[local] Hint Resolve keeps_self_ret keeps_self_eval keeps_self_get_self keeps_self_print
  keeps_self_utcnow keeps_self_create keeps_self_validate_request : keeps_self.

(** Splits a method into its statements and settles each of them. *)
Ltac keeps :=
  repeat first
    [ progress intros
    | solve [auto with keeps_self nocore]
    | apply keeps_self_bind
    | apply keeps_self_try_except
    | apply keeps_self_for_each
    | match goal with
      | |- keeps_self (if ?b then _ else _) => destruct b
      | |- keeps_self (match ?x with _ => _ end) => destruct x
      | |- keeps_self (let (_, _) := ?x in _) => destruct x
      end ].

Lemma keeps_self_format_error_response (error_message : string) :
  keeps_self (BaseAgent.format_error_response error_message).
Proof. unfold BaseAgent.format_error_response. keeps. Qed.

Lemma keeps_self_format_success_response (data : value) :
  keeps_self (BaseAgent.format_success_response data).
Proof. unfold BaseAgent.format_success_response. keeps. Qed.

Lemma keeps_self_call_openai_gpt (messages : list message) :
  keeps_self (BaseAgent.call_openai_gpt messages).
Proof. unfold BaseAgent.call_openai_gpt. keeps. Qed.

Lemma keeps_self_subscript (request_data : dict) (key : string) :
  keeps_self (BaseAgent.subscript request_data key).
Proof. unfold BaseAgent.subscript. keeps. Qed.

Lemma keeps_self_log_response (response : value) :
  keeps_self (BaseAgent.log_response response).
Proof. unfold BaseAgent.log_response. keeps. Qed.

#[local] Hint Resolve keeps_self_format_error_response keeps_self_format_success_response
  keeps_self_call_openai_gpt keeps_self_subscript keeps_self_log_response : keeps_self.

Section Statelessness.
Context {py : runtime}.

Lemma keeps_self_generate_mock_contacts (country industry contact_type : value) :
  keeps_self (MarketResearchAgent._generate_mock_contacts country industry contact_type).
Proof. unfold MarketResearchAgent._generate_mock_contacts. keeps. Qed.

Lemma keeps_self_detect_language_internal (text : value) :
  keeps_self (TranslationAgent._detect_language_internal text).
Proof. unfold TranslationAgent._detect_language_internal. keeps. Qed.

#[local] Hint Resolve keeps_self_generate_mock_contacts
  keeps_self_detect_language_internal : keeps_self.

Lemma keeps_self_translate_text (request_data : dict) :
  keeps_self (TranslationAgent._translate_text request_data).
Proof. unfold TranslationAgent._translate_text. keeps. Qed.

#[local] Hint Resolve keeps_self_translate_text : keeps_self.

Lemma keeps_self_translate_element (request_data : dict) (target source : value)
    (element : Z * value) (translations : list value) :
  keeps_self (TranslationAgent.translate_element request_data target source element translations).
Proof. unfold TranslationAgent.translate_element. keeps. Qed.

Lemma keeps_self_opportunities_for (target_countries product : value)
    (opportunities : list value) :
  keeps_self (MarketResearchAgent.opportunities_for target_countries product opportunities).
Proof. unfold MarketResearchAgent.opportunities_for. keeps. Qed.

Lemma keeps_self_insights_for (product : value) (product_insights : list value) :
  keeps_self (BusinessIntelligenceAgent.insights_for product product_insights).
Proof. unfold BusinessIntelligenceAgent.insights_for. keeps. Qed.

#[local] Hint Resolve keeps_self_translate_element keeps_self_opportunities_for
  keeps_self_insights_for : keeps_self.

(** No capability handler changes the agent object. *)
Lemma keeps_self_handler (c : capability) (request_data : dict) :
  keeps_self (handler c request_data).
Proof.
  destruct c; cbv beta iota zeta delta
    [handler
     MarketResearchAgent._analyze_market MarketResearchAgent._discover_contacts
     MarketResearchAgent._analyze_trends MarketResearchAgent._match_opportunities
     TranslationAgent._translate_text TranslationAgent._batch_translate
     TranslationAgent._provide_cultural_context TranslationAgent._provide_business_etiquette
     TranslationAgent._detect_language
     BusinessIntelligenceAgent._analyze_user_performance
     BusinessIntelligenceAgent._analyze_product_performance
     BusinessIntelligenceAgent._generate_market_recommendations
     BusinessIntelligenceAgent._analyze_competition
     BusinessIntelligenceAgent._identify_growth_opportunities];
    keeps.
Qed.

End Statelessness.

Lemma log_request_run (request_type : string) (data : dict) (s : state) :
  BaseAgent.log_request request_type data s =
  (Return tt,
   {| self := count_request (self s);
      outside :=
        write (Json ("[" ++ name (self s) ++ "] Request data: ") (VDict data))
          (write (Text ("[" ++ name (self s) ++ "] Processing " ++ request_type
                        ++ " request #" ++ decimal (request_count (self s) + 1)))
             (outside s)) |}).
Proof. reflexivity. Qed.

Section Counting.
Context {py : runtime}.

Lemma keeps_self_after_logging (choice : M state value) :
  keeps_self choice ->
  keeps_self (result <- choice ;; BaseAgent.log_response result ;; ret result).
Proof. intro H. keeps. Qed.

(** One arm of the chain of tests on the request type. *)
Ltac branch c :=
  match goal with
  | |- keeps_self (if ?b then ?h ?d else _) =>
      destruct b; [exact (keeps_self_handler c d)|]
  end.

(** C9, as the code has it.  A call of [process_request] changes the
    agent object in exactly one attribute: [request_count] grows by one,
    whether the handler returns or raises; the name, the capabilities,
    the creation time and the language table stay as they were. *)
Theorem process_request_counts_the_request (request_data : dict) (s : state) :
  self (snd (process_request (self s) request_data s)) = count_request (self s) /\
  request_count (count_request (self s)) = (request_count (self s) + 1)%Z /\
  name (count_request (self s)) = name (self s) /\
  capabilities (count_request (self s)) = capabilities (self s) /\
  created_at (count_request (self s)) = created_at (self s) /\
  supported_languages (count_request (self s)) = supported_languages (self s).
Proof.
  split; [|repeat split].
  unfold process_request.
  destruct (class_of (self s));
    [ unfold MarketResearchAgent.process_request
    | unfold TranslationAgent.process_request
    | unfold BusinessIntelligenceAgent.process_request ];
    unfold bind at 1; rewrite log_request_run;
    match goal with
    | |- self (snd (?m ?s1)) = _ =>
        assert (K : keeps_self m); [|rewrite (K s1); reflexivity]
    end;
    apply keeps_self_after_logging.
  - branch market_analysis. branch contact_discovery. branch trend_analysis.
    branch opportunity_matching. apply keeps_self_format_error_response.
  - branch text_translation. branch batch_translation. branch cultural_context.
    branch business_etiquette. branch language_detection.
    apply keeps_self_format_error_response.
  - branch user_analytics. branch product_insights. branch market_recommendations.
    branch competitive_analysis. branch growth_opportunities.
    apply keeps_self_format_error_response.
Qed.

End Counting.

(** C9 as stated fails: after one language detection request the
    translation agent is not the object it was; its request counter went
    from 0 to 1. *)
Lemma process_request_changes_the_agent :
  request_count example_translator = 0%Z /\
  request_count
    (self (snd (process_request (py := example_runtime) example_translator
                  [("type", VStr "language_detection"); ("text", VStr "Bonjour")]
                  {| self := example_translator; outside := stubbed (Content "fr") |})))
  = 1%Z /\
  self (snd (process_request (py := example_runtime) example_translator
               [("type", VStr "language_detection"); ("text", VStr "Bonjour")]
               {| self := example_translator; outside := stubbed (Content "fr") |}))
  <> example_translator.
Proof.
  split; [reflexivity|]. split; [reflexivity|].
  intro H. apply (f_equal request_count) in H. vm_compute in H. discriminate.
Qed.

(** ** C2 and C10: requests the validator rejects *)

Section Rejection.
Context {py : runtime}.

(** What a handler does with a request at which the validator stops at
    [missing]: one log line that names the field, one reading of the
    clock, the handler's fixed message in an error envelope. *)
Lemma handler_rejects (c : capability) (request_data : dict) (missing : string) (s : state) :
  first_missing request_data (required_fields c) = Some missing ->
  handler c request_data s =
    (Return (error_envelope (rejection c) (name (self s))
               (clock (outside s) (clock_reads (outside s)))),
     {| self := self s;
        outside :=
          tick (write (Text ("[" ++ name (self s) ++ "] Missing required field: " ++ missing))
                  (outside s)) |}).
Proof.
  intro Hmissing.
  destruct c; cbv beta iota zeta delta
    [handler
     MarketResearchAgent._analyze_market MarketResearchAgent._discover_contacts
     MarketResearchAgent._analyze_trends MarketResearchAgent._match_opportunities
     TranslationAgent._translate_text TranslationAgent._batch_translate
     TranslationAgent._provide_cultural_context TranslationAgent._provide_business_etiquette
     TranslationAgent._detect_language
     BusinessIntelligenceAgent._analyze_user_performance
     BusinessIntelligenceAgent._analyze_product_performance
     BusinessIntelligenceAgent._generate_market_recommendations
     BusinessIntelligenceAgent._analyze_competition
     BusinessIntelligenceAgent._identify_growth_opportunities];
    unfold bind at 1; rewrite validate_request_run;
    cbv beta iota delta [required_fields] in Hmissing; rewrite Hmissing;
    reflexivity.
Qed.

(** C2, as the code has it.  When a required key is missing or holds a
    falsy value, the handler returns an error envelope with the handler's
    own fixed message, makes no completion request, and changes nothing
    but the log, which gets one line naming a missing field, and the
    clock, which it reads once. *)
Theorem incomplete_request_is_rejected
    (c : capability) (request_data : dict) (field : string) (s : state) :
  In field (required_fields c) ->
  (dict_get field request_data = None \/
   exists v, dict_get field request_data = Some v /\ truthy v = false) ->
  exists missing,
    In missing (required_fields c) /\
    handler c request_data s =
      (Return (error_envelope (rejection c) (name (self s))
                 (clock (outside s) (clock_reads (outside s)))),
       {| self := self s;
          outside :=
            tick (write (Text ("[" ++ name (self s) ++ "] Missing required field: "
                               ++ missing))
                    (outside s)) |}) /\
    requests (outside (snd (handler c request_data s))) = requests (outside s).
Proof.
  intros Hin Hbad. apply unusable_absent_or_falsy in Hbad.
  destruct (first_missing_some request_data _ _ Hin Hbad) as (missing & Hfirst & Hmem & _).
  exists missing. split; [exact Hmem|].
  rewrite (handler_rejects c request_data missing s Hfirst).
  split; reflexivity.
Qed.

(** C10.  A batch translation request whose [texts] is the empty list is
    rejected by the validator: the handler returns the error envelope
    "Missing required fields for batch translation", not a success
    envelope with an empty [translations] list, and asks for no
    completion; the same envelope comes back through [process_request]. *)
Theorem empty_batch_is_rejected (request_data : dict) (s : state) :
  dict_get "texts" request_data = Some (VList []) ->
  TranslationAgent._batch_translate request_data s =
    (Return (error_envelope "Missing required fields for batch translation"
               (name (self s)) (clock (outside s) (clock_reads (outside s)))),
     {| self := self s;
        outside :=
          tick (write (Text ("[" ++ name (self s) ++ "] Missing required field: texts"))
                  (outside s)) |}) /\
  requests (outside (snd (TranslationAgent._batch_translate request_data s)))
    = requests (outside s) /\
  (dict_get "type" request_data = Some (VStr "batch_translation") ->
   fst (TranslationAgent.process_request request_data s) =
     Return (error_envelope "Missing required fields for batch translation"
               (name (self s)) (clock (outside s) (clock_reads (outside s))))).
Proof.
  intro Hempty.
  assert (Hfirst : first_missing request_data (required_fields batch_translation)
                   = Some "texts").
  { unfold first_missing. simpl. unfold unusable, dict_mem, get.
    rewrite Hempty. reflexivity. }
  pose proof (handler_rejects batch_translation request_data "texts") as Hrun.
  simpl in Hrun.
  split; [exact (Hrun s Hfirst)|].
  split; [rewrite (Hrun s Hfirst); reflexivity|].
  intro Htype.
  unfold TranslationAgent.process_request. unfold bind at 1.
  rewrite log_request_run. unfold get. rewrite Htype.
  cbn [is_str String.eqb Ascii.eqb Bool.eqb].
  unfold bind at 1. rewrite (Hrun _ Hfirst). reflexivity.
Qed.

End Rejection.

Lemma incomplete_request_is_rejected_witness :
  exists missing,
    In missing (required_fields text_translation) /\
    handler (py := example_runtime) text_translation
      [("type", VStr "text_translation"); ("text", VStr "Hello"); ("target_language", VStr "")]
      {| self := example_translator; outside := stubbed (Content "Bonjour") |} =
      (Return (error_envelope (rejection text_translation) "TranslationAgent"
                 "2024-05-01T12:00:00.000000"),
       {| self := example_translator;
          outside :=
            tick (write (Text ("[TranslationAgent] Missing required field: " ++ missing))
                    (stubbed (Content "Bonjour"))) |}) /\
    requests
      (outside
         (snd (handler (py := example_runtime) text_translation
                 [("type", VStr "text_translation"); ("text", VStr "Hello");
                  ("target_language", VStr "")]
                 {| self := example_translator; outside := stubbed (Content "Bonjour") |})))
    = [].
Proof.
  apply (incomplete_request_is_rejected (py := example_runtime) text_translation
           [("type", VStr "text_translation"); ("text", VStr "Hello");
            ("target_language", VStr "")]
           "target_language"
           {| self := example_translator; outside := stubbed (Content "Bonjour") |}).
  - simpl. right. left. reflexivity.
  - right. exists (VStr ""). split; reflexivity.
Defined.

(** C2 as stated fails: the error message of the envelope is the
    handler's fixed text and does not name the missing field. *)
Lemma rejection_does_not_name_the_field :
  fst (handler (py := example_runtime) text_translation
         [("type", VStr "text_translation"); ("text", VStr "Hello")]
         {| self := example_translator; outside := stubbed (Content "Bonjour") |})
  = Return (error_envelope "Missing required fields for text translation"
              "TranslationAgent" "2024-05-01T12:00:00.000000") /\
  first_missing [("type", VStr "text_translation"); ("text", VStr "Hello")]
    (required_fields text_translation) = Some "target_language" /\
  contains "target_language" "Missing required fields for text translation" = false.
Proof. repeat split; reflexivity. Qed.

Lemma empty_batch_is_rejected_witness :
  dict_get "texts"
    [("type", VStr "batch_translation"); ("texts", VList []); ("target_language", VStr "fr")]
  = Some (VList []) /\
  TranslationAgent._batch_translate (py := example_runtime)
    [("type", VStr "batch_translation"); ("texts", VList []); ("target_language", VStr "fr")]
    {| self := example_translator; outside := stubbed (Content "Bonjour") |} =
    (Return (error_envelope "Missing required fields for batch translation"
               "TranslationAgent" "2024-05-01T12:00:00.000000"),
     {| self := example_translator;
        outside :=
          tick (write (Text "[TranslationAgent] Missing required field: texts")
                  (stubbed (Content "Bonjour"))) |}) /\
  fst (TranslationAgent.process_request (py := example_runtime)
         [("type", VStr "batch_translation"); ("texts", VList []);
          ("target_language", VStr "fr")]
         {| self := example_translator; outside := stubbed (Content "Bonjour") |}) =
    Return (error_envelope "Missing required fields for batch translation"
              "TranslationAgent" "2024-05-01T12:00:00.000000").
Proof.
  split; [reflexivity|].
  destruct (empty_batch_is_rejected (py := example_runtime)
              [("type", VStr "batch_translation"); ("texts", VList []);
               ("target_language", VStr "fr")]
              {| self := example_translator; outside := stubbed (Content "Bonjour") |}
              eq_refl) as (Hhandler & _ & Hrequest).
  split; [exact Hhandler | exact (Hrequest eq_refl)].
Defined.

(** ** C3: batch translation *)

Lemma yields_ret {A : Type} (a : A) (Q : A -> Prop) : Q a -> yields (ret a) Q.
Proof. intros H s b s' E. inversion E; subst. exact H. Qed.

Lemma yields_bind {A B : Type} (m : M state A) (k : A -> M state B)
    (P : A -> Prop) (Q : B -> Prop) :
  yields m P -> (forall a, P a -> yields (k a) Q) -> yields (bind m k) Q.
Proof.
  intros Hm Hk s b s' E. unfold bind in E.
  destruct (m s) as [[a|e] s1] eqn:R; [|discriminate].
  exact (Hk a (Hm _ _ _ R) _ _ _ E).
Qed.

Lemma yields_then {A B : Type} (m : M state A) (k : A -> M state B) (Q : B -> Prop) :
  (forall a, yields (k a) Q) -> yields (bind m k) Q.
Proof.
  intro Hk. apply (yields_bind m k (fun _ => True)); [intros s a s' _; exact I|].
  intros a _. apply Hk.
Qed.

Lemma yields_try_except {A : Type} (body : M state A) (handler : exn -> M state A)
    (Q : A -> Prop) :
  yields body Q -> (forall e, yields (handler e) Q) -> yields (try_except body handler) Q.
Proof.
  intros Hb Hh s a s' E. unfold try_except in E.
  destruct (body s) as [[b|e] s1] eqn:R.
  - inversion E; subst. exact (Hb _ _ _ R).
  - exact (Hh e _ _ _ E).
Qed.

Lemma yields_format_success_response (data : value) (Q : value -> Prop) :
  (forall agent_name timestamp, Q (success_envelope data agent_name timestamp)) ->
  yields (BaseAgent.format_success_response data) Q.
Proof. intros H s a s' E. cbn in E. inversion E; subst. apply H. Qed.

Lemma yields_format_error_response (error_message : string) (Q : value -> Prop) :
  (forall agent_name timestamp, Q (error_envelope error_message agent_name timestamp)) ->
  yields (BaseAgent.format_error_response error_message) Q.
Proof. intros H s a s' E. cbn in E. inversion E; subst. apply H. Qed.

Lemma always_ret {A : Type} (a : A) (Q : A -> Prop) : Q a -> always (ret a) Q.
Proof. intros H s. exists a, s. split; [reflexivity | exact H]. Qed.

Lemma always_try_except {A : Type} (body : M state A) (handler : exn -> M state A)
    (Q : A -> Prop) :
  yields body Q -> (forall e, always (handler e) Q) -> always (try_except body handler) Q.
Proof.
  intros Hb Hh s. unfold try_except.
  destruct (body s) as [[a|e] s1] eqn:R.
  - exists a, s1. split; [reflexivity | exact (Hb _ _ _ R)].
  - apply Hh.
Qed.

Lemma entries_from_length (items entries : list value) (i : Z) :
  entries_from i items entries -> List.length entries = List.length items.
Proof.
  revert entries i.
  induction items as [|text items IH]; intros [|entry entries] i H; simpl in *;
    try contradiction; [reflexivity|].
  f_equal. exact (IH _ _ (proj2 H)).
Qed.

Lemma entries_from_nth (items entries : list value) (i : Z) (k : nat) (text : value) :
  entries_from i items entries ->
  nth_error items k = Some text ->
  exists entry, nth_error entries k = Some entry /\ entry_for (i + Z.of_nat k) text entry.
Proof.
  revert entries i k.
  induction items as [|first items IH]; intros [|entry entries] i k H Hk; simpl in H;
    try contradiction.
  - destruct k; discriminate.
  - destruct H as [Hfirst Hrest]. destruct k as [|k]; simpl in Hk.
    + inversion Hk; subst. exists entry. split; [reflexivity|].
      replace (i + Z.of_nat 0)%Z with i by lia. exact Hfirst.
    + destruct (IH _ _ _ Hrest Hk) as (e & He & Hentry).
      exists e. split; [exact He|].
      replace (i + Z.of_nat (S k))%Z with (i + 1 + Z.of_nat k)%Z by lia. exact Hentry.
Qed.

Lemma count_successes_returns (items entries : list value) (i : Z) :
  entries_from i items entries -> exists n, count_successes entries = Return n.
Proof.
  revert entries i.
  induction items as [|text items IH]; intros [|entry entries] i H; simpl in H;
    try contradiction.
  - exists 0%Z. reflexivity.
  - destruct H as [(fields & -> & _ & _ & Hflag) Hrest].
    destruct (IH _ _ Hrest) as (n & Hn). simpl. rewrite Hn.
    destruct Hflag as [[Hs _] | [Hs _]]; rewrite Hs; eexists; reflexivity.
Qed.

Section Batch.
Context {py : runtime}.

Lemma translate_text_envelope (request_data : dict) :
  yields (TranslationAgent._translate_text request_data) translation_envelope.
Proof.
  unfold TranslationAgent._translate_text.
  repeat first
    [ apply yields_format_error_response; intros; right; eauto
    | apply yields_format_success_response; intros; left;
      do 4 eexists; split; reflexivity
    | apply yields_try_except
    | progress intros
    | match goal with
      | |- yields (if ?b then _ else _) _ => destruct b
      end
    | apply yields_then ].
Qed.

Lemma translate_element_appends (request_data : dict) (target source : value)
    (i : Z) (text : value) (translations : list value) :
  always (TranslationAgent.translate_element request_data target source (i, text) translations)
    (fun out => exists entry, out = (translations ++ [entry])%list /\ entry_for i text entry).
Proof.
  unfold TranslationAgent.translate_element.
  apply always_try_except.
  - eapply yields_bind; [apply translate_text_envelope|].
    intros result
      [(data & agent_name & timestamp & translated & -> & Hdata)
      |(error_message & agent_name & timestamp & ->)];
      intros s out s' E; cbn in E.
    + rewrite Hdata in E. inversion E; subst.
      eexists. split; [reflexivity|].
      eexists. split; [reflexivity|]. cbn. repeat split. left. split; eauto.
    + inversion E; subst.
      eexists. split; [reflexivity|].
      eexists. split; [reflexivity|]. cbn. repeat split. right. eauto.
  - intro e. apply always_ret.
    eexists. split; [reflexivity|].
    eexists. split; [reflexivity|]. cbn. repeat split. right. eauto.
Qed.

Lemma batch_loop (request_data : dict) (target source : value) (items : list value) :
  forall (i : Z) (translations : list value) (s : state),
  exists entries s',
    for_each (TranslationAgent.translate_element request_data target source)
      (enumerate_from i items) translations s
    = (Return (translations ++ entries)%list, s') /\
    entries_from i items entries.
Proof.
  induction items as [|text items IH]; intros i translations s;
    cbn [for_each enumerate_from].
  - exists [], s. rewrite app_nil_r. split; [reflexivity | exact I].
  - unfold bind at 1.
    destruct (translate_element_appends request_data target source i text translations s)
      as (out & s1 & -> & entry & -> & Hentry).
    destruct (IH (i + 1)%Z (translations ++ [entry])%list s1) as (entries & s2 & -> & Hrest).
    exists (entry :: entries), s2. rewrite <- app_assoc. split; [reflexivity|].
    simpl. split; assumption.
Qed.

(** One text of the batch: the loop body appends the entry that goes
    with the way [_translate_text] ended on it, and leaves the state
    that call left. *)
Lemma translate_element_entry (request_data : dict) (target source : value)
    (i : Z) (text : value) (translations : list value) (s : state) :
  exists entry,
    TranslationAgent.translate_element request_data target source (i, text) translations s
    = (Return (translations ++ [entry])%list,
       snd (TranslationAgent._translate_text
              (element_request request_data target source text) s)) /\
    entry_after i text
      (fst (TranslationAgent._translate_text
              (element_request request_data target source text) s))
      entry /\
    entry_for i text entry.
Proof.
  unfold TranslationAgent.translate_element, try_except. unfold bind at 1.
  fold (element_request request_data target source text).
  destruct (TranslationAgent._translate_text
              (element_request request_data target source text) s)
    as [[result|e] s1] eqn:Hrun; cbn [fst snd].
  - destruct (translate_text_envelope _ _ _ _ Hrun)
      as [(data & agent_name & timestamp & translated & -> & Hdata)
         |(error_message & agent_name & timestamp & ->)].
    + cbn. rewrite Hdata. cbn.
      eexists. split; [reflexivity|]. split.
      * left. exists data, agent_name, timestamp, translated. repeat split. exact Hdata.
      * eexists. split; [reflexivity|]. cbn. repeat split. left. split; eauto.
    + cbn.
      eexists. split; [reflexivity|]. split.
      * right. left. exists error_message, agent_name, timestamp. split; reflexivity.
      * eexists. split; [reflexivity|]. cbn. repeat split. right. eauto.
  - cbn.
    eexists. split; [reflexivity|]. split.
    + right. right. exists e. split; reflexivity.
    + eexists. split; [reflexivity|]. cbn. repeat split. right. eauto.
Qed.

Lemma batch_loop_entries (request_data : dict) (target source : value) (items : list value) :
  forall (i : Z) (translations : list value) (s : state),
  exists entries s',
    for_each (TranslationAgent.translate_element request_data target source)
      (enumerate_from i items) translations s
    = (Return (translations ++ entries)%list, s') /\
    entries_from i items entries /\
    entries_after request_data target source i items s entries.
Proof.
  induction items as [|text items IH]; intros i translations s;
    cbn [for_each enumerate_from].
  - exists [], s. rewrite app_nil_r. split; [reflexivity|]. split; exact I.
  - unfold bind at 1.
    destruct (translate_element_entry request_data target source i text translations s)
      as (entry & -> & Hafter & Hentry).
    destruct (IH (i + 1)%Z (translations ++ [entry])%list
                (snd (TranslationAgent._translate_text
                        (element_request request_data target source text) s)))
      as (entries & s2 & -> & Hrest & Hrest').
    exists (entry :: entries), s2. rewrite <- app_assoc. split; [reflexivity|].
    split; simpl; split; assumption.
Qed.

(** C3, as the code has it.  For a request with a non-empty list of N
    texts and a usable [target_language], batch translation returns a
    success envelope with exactly N entries in input order: entry i has
    index i and the i-th text as [original], and it is the entry that
    goes with the way [_translate_text] ended on that text, in the state
    the texts before it left: the [translated_text] of a success
    envelope, with [success] true; for an error envelope or an exception
    the original text as its translation, with [success] false and the
    error.  A failed element does not end the batch. *)
Theorem batch_translation_keeps_length_and_order
    (request_data : dict) (items : list value) (s : state) :
  dict_get "texts" request_data = Some (VList items) ->
  items <> [] ->
  truthy (get request_data "target_language" VNone) = true ->
  exists translations successful timestamp s',
    TranslationAgent._batch_translate request_data s =
      (Return
         (success_envelope
            (VDict [("translations", VList translations);
                    ("total_texts", VInt (Z.of_nat (List.length items)));
                    ("successful_translations", VInt successful);
                    ("target_language", get request_data "target_language" VNone)])
            (name (self s)) timestamp),
       s') /\
    List.length translations = List.length items /\
    (forall i text,
       nth_error items i = Some text ->
       exists entry,
         nth_error translations i = Some entry /\ entry_for (Z.of_nat i) text entry) /\
    entries_after request_data
      (get request_data "target_language" VNone)
      (get request_data "source_language" (VStr "auto"))
      0 items s translations.
Proof.
  intros Htexts Hitems Htarget.
  unfold TranslationAgent._batch_translate.
  unfold bind at 1. rewrite validate_request_run.
  assert (Hfirst : first_missing request_data ["texts"; "target_language"] = None).
  { unfold first_missing. simpl. unfold unusable, dict_mem, get in *.
    rewrite Htexts. destruct (dict_get "target_language" request_data); [|discriminate].
    rewrite Htarget. destruct items; [contradiction|reflexivity]. }
  rewrite Hfirst. cbn [negb].
  unfold BaseAgent.subscript, eval, py_item. unfold bind at 1. rewrite Htexts.
  unfold bind at 1.
  assert (Hsome : exists target, dict_get "target_language" request_data = Some target).
  { unfold get in Htarget. destruct (dict_get "target_language" request_data); [eauto|discriminate]. }
  destruct Hsome as (target & Hsome). rewrite Hsome. unfold bind at 1.
  destruct (batch_loop_entries request_data target
              (get request_data "source_language" (VStr "auto"))
              items 0%Z [] s) as (entries & s1 & Hloop & Hentries & Hafter).
  rewrite Hloop. simpl app.
  destruct (count_successes_returns _ _ _ Hentries) as (n & Hn).
  unfold bind at 1. rewrite Hn.
  assert (Hself : self s1 = self s).
  { pose proof (keeps_self_for_each
                  (TranslationAgent.translate_element request_data target
                     (get request_data "source_language" (VStr "auto")))
                  (enumerate_from 0 items) []
                  (fun element c => keeps_self_translate_element _ _ _ element c) s) as K.
    rewrite Hloop in K. exact K. }
  exists entries, n. unfold get. rewrite Hsome.
  do 2 eexists. split; [cbn; rewrite Hself; reflexivity|].
  split; [exact (entries_from_length _ _ _ Hentries)|].
  split; [|exact Hafter].
  intros i text Hi. exact (entries_from_nth _ _ _ _ _ Hentries Hi).
Qed.

End Batch.

(** Three texts, the second of them empty: [_translate_text] refuses it,
    and its entry has the text itself and the error. *)
Lemma batch_translation_keeps_length_and_order_witness :
  exists timestamp s',
    TranslationAgent._batch_translate (py := example_runtime)
      [("type", VStr "batch_translation");
       ("texts", VList [VStr "Good morning"; VStr ""; VStr "Thank you"]);
       ("target_language", VStr "fr"); ("source_language", VStr "en")]
      {| self := example_translator; outside := stubbed (Content "Bonjour") |} =
      (Return
         (success_envelope
            (VDict [("translations",
                     VList [VDict [("index", VInt 0);
                                   ("original", VStr "Good morning");
                                   ("translated", VStr "Bonjour");
                                   ("success", VBool true)];
                            VDict [("index", VInt 1);
                                   ("original", VStr "");
                                   ("translated", VStr "");
                                   ("success", VBool false);
                                   ("error",
                                    VStr "Missing required fields for text translation")];
                            VDict [("index", VInt 2);
                                   ("original", VStr "Thank you");
                                   ("translated", VStr "Bonjour");
                                   ("success", VBool true)]]);
                    ("total_texts", VInt 3);
                    ("successful_translations", VInt 2);
                    ("target_language", VStr "fr")])
            "TranslationAgent" timestamp),
       s').
Proof.
  destruct (batch_translation_keeps_length_and_order (py := example_runtime)
              [("type", VStr "batch_translation");
               ("texts", VList [VStr "Good morning"; VStr ""; VStr "Thank you"]);
               ("target_language", VStr "fr"); ("source_language", VStr "en")]
              [VStr "Good morning"; VStr ""; VStr "Thank you"]
              {| self := example_translator; outside := stubbed (Content "Bonjour") |}
              eq_refl ltac:(discriminate) eq_refl)
    as (translations & successful & timestamp & s' & Hrun & _).
  exists timestamp, s'. rewrite Hrun.
  vm_compute in Hrun. inversion Hrun. reflexivity.
Defined.

(** C3 as stated fails: a batch of no texts, and a batch of one text
    whose request names no target language, are answered with an error
    envelope, which has no entries at all. *)
Lemma batch_without_entries :
  fst (TranslationAgent._batch_translate (py := example_runtime)
         [("type", VStr "batch_translation"); ("texts", VList []);
          ("target_language", VStr "fr")]
         {| self := example_translator; outside := stubbed (Content "Bonjour") |})
  = Return (error_envelope "Missing required fields for batch translation"
              "TranslationAgent" "2024-05-01T12:00:00.000000") /\
  fst (TranslationAgent._batch_translate (py := example_runtime)
         [("type", VStr "batch_translation"); ("texts", VList [VStr "Good morning"])]
         {| self := example_translator; outside := stubbed (Content "Bonjour") |})
  = Return (error_envelope "Missing required fields for batch translation"
              "TranslationAgent" "2024-05-01T12:00:00.000000") /\
  (exists fields,
     error_envelope "Missing required fields for batch translation"
       "TranslationAgent" "2024-05-01T12:00:00.000000" = VDict fields /\
     dict_get "data" fields = None).
Proof.
  split; [reflexivity|]. split; [reflexivity|]. eexists. split; reflexivity.
Qed.

(** ** C1 and C7: what becomes of the completion text *)

Lemma call_openai_gpt_content (messages : list message) (s : state) (text : string) :
  next_completion s = Content text ->
  BaseAgent.call_openai_gpt messages s = (Return text, asked messages s).
Proof.
  unfold next_completion, BaseAgent.call_openai_gpt, try_except, chat_completions_create.
  cbn. intros ->. reflexivity.
Qed.

Lemma call_openai_gpt_run (messages : list message) (s : state) :
  BaseAgent.call_openai_gpt messages s =
  (Return (reply_text (next_completion s)),
   match next_completion s with
   | Content _ => asked messages s
   | Failure e =>
       logged (Text ("[" ++ name (self s) ++ "] OpenAI API error: " ++ str e))
         (asked messages s)
   end).
Proof.
  unfold next_completion, BaseAgent.call_openai_gpt, try_except, chat_completions_create.
  cbn. destruct (completions (outside s) (List.length (requests (outside s)))); reflexivity.
Qed.

(** The state after [call_openai_gpt]: the agent and the clock are as
    before, and the log of requests has one more entry. *)
Lemma call_openai_gpt_state (messages : list message) (s : state) :
  let s' := snd (BaseAgent.call_openai_gpt messages s) in
  self s' = self s /\
  requests (outside s') = (requests (outside s) ++ [messages])%list /\
  completions (outside s') = completions (outside s) /\
  clock (outside s') = clock (outside s) /\
  clock_reads (outside s') = clock_reads (outside s).
Proof.
  rewrite call_openai_gpt_run. cbn.
  destruct (next_completion s); cbn; repeat split.
Qed.

Lemma call_openai_gpt_returns (messages : list message) (s : state) :
  exists after,
    BaseAgent.call_openai_gpt messages s = (Return (reply_text (next_completion s)), after) /\
    self after = self s /\
    requests (outside after) = (requests (outside s) ++ [messages])%list /\
    completions (outside after) = completions (outside s).
Proof.
  pose proof (call_openai_gpt_state messages s) as H. cbv zeta in H.
  rewrite call_openai_gpt_run in *. cbn [snd] in H.
  eexists. split; [reflexivity|]. tauto.
Qed.

Section Completion.
Context {py : runtime}.

(** The run [Hrun] stopped before any completion request was made, which
    [Hcall] excludes. *)
Ltac stopped Hrun Hcall :=
  cbn in Hrun; inversion Hrun; subst; cbn in Hcall; congruence.

(** The validator passes [field], or the run stopped there. *)
Ltac passes Hrun Hcall field :=
  let U := fresh "U" in
  destruct (unusable _ field) eqn:U;
  [ stopped Hrun Hcall
  | apply usable_present in U; destruct U as (? & U & _);
    unfold BaseAgent.subscript, eval, py_item in Hrun; rewrite U in Hrun ].

(** The completion request is answered with [text]; what is left of the
    run is decoding and the envelope. *)
Ltac completes Hrun Hnext text :=
  unfold try_except at 1 in Hrun;
  unfold bind at 1 in Hrun; rewrite (call_openai_gpt_content _ _ _ Hnext) in Hrun;
  destruct (json_loads text);
  cbn in Hrun; inversion Hrun; subst; cbv beta iota;
  [ do 2 eexists; split; reflexivity
  | do 4 eexists; repeat split;
    cbn [fallback_object]; unfold get;
    repeat match goal with U : dict_get _ _ = Some _ |- _ => rewrite U end;
    reflexivity
  | do 2 eexists; split; reflexivity ].

(** The handlers that make one completion request and put what they
    decode, or their fallback object, under one key of the payload. *)
Lemma single_completion_run (c : capability) (slot : string)
    (request_data : dict) (s s' : state) (text : string) (r : outcome value) :
  decoded_slot c = Some slot ->
  c <> contact_discovery ->
  next_completion s = Content text ->
  handler c request_data s = (r, s') ->
  requests (outside s') <> requests (outside s) ->
  match json_loads text with
  | Decoded decoded =>
      exists payload timestamp,
        r = Return (success_envelope (VDict payload) (name (self s)) timestamp) /\
        dict_get slot payload = Some decoded
  | JSONDecodeError =>
      exists payload timestamp fallback field,
        r = Return (success_envelope (VDict payload) (name (self s)) timestamp) /\
        free_text_field c = Some field /\
        dict_get slot payload = Some (VDict fallback) /\
        dict_get field fallback = Some (VStr text) /\
        fallback_object c request_data text = Some (VDict fallback)
  | OtherError e =>
      exists prefix timestamp,
        failure_prefix c = Some prefix /\
        r = Return (error_envelope (prefix ++ str e) (name (self s)) timestamp)
  end.
Proof.
  intros Hslot Hnot Hnext Hrun Hcall.
  destruct c; try discriminate Hslot; try (exfalso; apply Hnot; reflexivity);
    cbn in Hslot; inversion Hslot; subst slot; clear Hslot Hnot;
    cbv beta iota zeta delta
      [handler
       MarketResearchAgent._analyze_market MarketResearchAgent._analyze_trends
       TranslationAgent._provide_cultural_context
       TranslationAgent._provide_business_etiquette
       BusinessIntelligenceAgent._analyze_user_performance
       BusinessIntelligenceAgent._generate_market_recommendations
       BusinessIntelligenceAgent._analyze_competition
       BusinessIntelligenceAgent._identify_growth_opportunities] in Hrun;
    unfold bind at 1 in Hrun; rewrite validate_request_run in Hrun;
    unfold first_missing in Hrun; cbn [find] in Hrun.
  - (* market analysis *)
    passes Hrun Hcall "product_name". passes Hrun Hcall "target_country".
    cbn [negb] in Hrun. unfold bind at 1 2 in Hrun. completes Hrun Hnext text.
  - (* trend analysis *)
    passes Hrun Hcall "country".
    cbn [negb] in Hrun. unfold bind at 1 in Hrun. completes Hrun Hnext text.
  - (* cultural context *)
    passes Hrun Hcall "country".
    cbn [negb] in Hrun. unfold bind at 1 in Hrun. completes Hrun Hnext text.
  - (* business etiquette *)
    passes Hrun Hcall "country". passes Hrun Hcall "situation".
    cbn [negb] in Hrun. unfold bind at 1 2 in Hrun. completes Hrun Hnext text.
  - (* user analytics *)
    passes Hrun Hcall "user_id".
    cbn [negb] in Hrun. unfold bind at 1 in Hrun. completes Hrun Hnext text.
  - (* market recommendations *)
    passes Hrun Hcall "user_profile".
    cbn [negb] in Hrun. unfold bind at 1 2 in Hrun.
    match type of Hrun with context [py_get ?v _ _] => destruct v end;
      try stopped Hrun Hcall.
    cbn [py_get] in Hrun. completes Hrun Hnext text.
  - (* competitive analysis *)
    passes Hrun Hcall "industry". passes Hrun Hcall "target_market".
    cbn [negb] in Hrun. unfold bind at 1 2 in Hrun. completes Hrun Hnext text.
  - (* growth opportunities *)
    passes Hrun Hcall "user_data".
    cbn [negb] in Hrun. unfold bind at 1 2 3 in Hrun.
    match type of Hrun with context [py_get ?v _ _] => destruct v end;
      try stopped Hrun Hcall.
    cbn [py_get] in Hrun. unfold bind at 1 in Hrun.
    match type of Hrun with
    | context [if truthy ?m then _ else _] => destruct (truthy m)
    end.
    + match type of Hrun with context [py_join ?a ?b] => destruct (py_join a b) end;
        try stopped Hrun Hcall.
      unfold bind at 1 in Hrun.
      match type of Hrun with context [py_len ?a] => destruct (py_len a) end;
        try stopped Hrun Hcall.
      completes Hrun Hnext text.
    + unfold ret at 1 in Hrun. unfold bind at 1 in Hrun.
      match type of Hrun with context [py_len ?a] => destruct (py_len a) end;
        try stopped Hrun Hcall.
      completes Hrun Hnext text.
Qed.

Lemma single_fallback_run (c : capability) (field : string)
    (request_data : dict) (s s' : state) (text : string) (r : outcome value) :
  free_text_field c = Some field ->
  next_completion s = Content text ->
  json_loads text = JSONDecodeError ->
  handler c request_data s = (r, s') ->
  requests (outside s') <> requests (outside s) ->
  exists slot payload fallback timestamp,
    decoded_slot c = Some slot /\
    r = Return (success_envelope (VDict payload) (name (self s)) timestamp) /\
    dict_get slot payload = Some (VDict fallback) /\
    dict_get field fallback = Some (VStr text) /\
    fallback_object c request_data text = Some (VDict fallback).
Proof.
  intros Hfield Hnext Hjson Hrun Hcall.
  assert (Hslot : exists slot, decoded_slot c = Some slot)
    by (destruct c; try discriminate Hfield; eexists; reflexivity).
  destruct Hslot as (slot & Hslot).
  assert (Hnot : c <> contact_discovery) by (intros ->; discriminate Hfield).
  pose proof (single_completion_run c slot request_data s s' text r Hslot Hnot Hnext Hrun Hcall)
    as Hpayload.
  rewrite Hjson in Hpayload.
  destruct Hpayload as (payload & timestamp & fallback & field' & Hr & Hfield' & Hget & Htext
                        & Hobject).
  rewrite Hfield in Hfield'. inversion Hfield'; subst field'.
  exists slot, payload, fallback, timestamp. repeat split; assumption.
Qed.

(** The loop body of product insights on a completion that is not a
    JSON document. *)
Lemma insights_for_fallback (product : dict) (product_insights : list value) (s : state) :
  json_loads (reply_text (next_completion s)) = JSONDecodeError ->
  exists after,
    BusinessIntelligenceAgent.insights_for (VDict product) product_insights s
    = (Return (product_insights
               ++ [insight_fallback (VDict product) (reply_text (next_completion s))])%list,
       after) /\
    self after = self s /\
    completions (outside after) = completions (outside s) /\
    List.length (requests (outside after)) = S (List.length (requests (outside s))).
Proof.
  intro Hjson.
  unfold BusinessIntelligenceAgent.insights_for.
  cbn [py_get]. unfold eval at 1 2. unfold bind at 1 2. unfold try_except at 1.
  unfold bind at 1.
  match goal with
  | |- context [BaseAgent.call_openai_gpt ?m s] =>
      destruct (call_openai_gpt_returns m s) as (after & -> & Hself & Hrequests & Hcompletions)
  end.
  rewrite Hjson. cbn [ret].
  eexists. split; [reflexivity|].
  split; [exact Hself|]. split; [exact Hcompletions|].
  rewrite Hrequests, length_app. simpl. lia.
Qed.

Lemma insights_loop_fallback (products : list dict) :
  forall (product_insights : list value) (s : state),
    (forall n, json_loads (reply_text (completions (outside s) n)) = JSONDecodeError) ->
    exists after,
      for_each BusinessIntelligenceAgent.insights_for (map VDict products) product_insights s
      = (Return (product_insights
                 ++ insight_fallbacks (completions (outside s))
                      (List.length (requests (outside s))) products)%list,
         after) /\
      self after = self s.
Proof.
  induction products as [|product products IH]; intros product_insights s Hprose;
    cbn [map for_each insight_fallbacks].
  - exists s. rewrite app_nil_r. split; reflexivity.
  - unfold bind at 1.
    destruct (insights_for_fallback product product_insights s (Hprose _))
      as (s1 & -> & Hself & Hcompletions & Hrequests).
    destruct (IH (product_insights
                  ++ [insight_fallback (VDict product) (reply_text (next_completion s))])%list
                 s1) as (s2 & -> & Hself').
    { intro n. rewrite Hcompletions. apply Hprose. }
    exists s2. rewrite <- app_assoc, Hcompletions, Hrequests.
    split; [reflexivity | congruence].
Qed.

Lemma scores_of_fallbacks (completions : nat -> reply) (products : list dict) :
  forall n,
    get_each "performance_score" (VInt 70) (insight_fallbacks completions n products)
    = Return (map (fun _ => VInt 70) products).
Proof.
  induction products as [|product products IH]; intro n; cbn [insight_fallbacks map].
  - reflexivity.
  - cbn [get_each insight_fallback py_get]. rewrite IH. reflexivity.
Qed.

(** C1, as the code has it.  A completion text on which [json.loads]
    raises [JSONDecodeError] does not lead to an error envelope in the
    nine handlers whose fallback has a free-text field.  The eight that
    answer with one object return a success envelope whose payload holds
    their fallback object, which is the one of [fallback_object] and has
    the completion text verbatim in its free-text field.  Product
    insights returns a success envelope with one fallback insight per
    product, each with the text of its completion in [analysis_text]
    (given that [sum] and the division return on the scores 70, as they
    do). *)
Theorem fallback_keeps_completion_text :
  (forall c field request_data s s' text r,
     free_text_field c = Some field ->
     next_completion s = Content text ->
     json_loads text = JSONDecodeError ->
     handler c request_data s = (r, s') ->
     requests (outside s') <> requests (outside s) ->
     exists slot payload fallback timestamp,
       decoded_slot c = Some slot /\
       r = Return (success_envelope (VDict payload) (name (self s)) timestamp) /\
       dict_get slot payload = Some (VDict fallback) /\
       dict_get field fallback = Some (VStr text) /\
       fallback_object c request_data text = Some (VDict fallback)) /\
  (forall (request_data : dict) (products : list dict) (s : state) (total score : value),
     dict_get "products" request_data = Some (VList (map VDict products)) ->
     products <> [] ->
     (forall n, json_loads (reply_text (completions (outside s) n)) = JSONDecodeError) ->
     py_sum (map (fun _ : dict => VInt 70) products) = Return total ->
     truediv total (Z.of_nat (List.length products)) = Return score ->
     exists timestamp s',
       handler product_insights request_data s =
         (Return
            (success_envelope
               (VDict [("product_insights",
                        VList (insight_fallbacks (completions (outside s))
                                 (List.length (requests (outside s))) products));
                       ("total_products_analyzed", VInt (Z.of_nat (List.length products)));
                       ("overall_portfolio_score", score)])
               (name (self s)) timestamp),
          s')).
Proof.
  split.
  - intros c field request_data s s' text r. apply single_fallback_run.
  - intros request_data products s total score Hproducts Hsome Hprose Hsum Hdiv.
    cbv beta iota delta [handler BusinessIntelligenceAgent._analyze_product_performance].
    unfold bind at 1. rewrite validate_request_run.
    assert (Hfirst : first_missing request_data ["products"] = None).
    { unfold first_missing. simpl. unfold unusable, dict_mem, get.
      rewrite Hproducts. destruct products; [contradiction|reflexivity]. }
    rewrite Hfirst. cbn [negb].
    unfold BaseAgent.subscript, eval, py_item. unfold bind at 1. rewrite Hproducts.
    cbn [py_iter]. unfold bind at 1. unfold bind at 1.
    destruct (insights_loop_fallback products [] s Hprose) as (s1 & -> & Hself).
    cbn [app]. unfold bind at 1. cbn [py_len]. unfold bind at 1.
    destruct products as [|product products]; [contradiction|].
    cbn [insight_fallbacks]. unfold bind at 1.
    change (insight_fallback (VDict product) _ :: insight_fallbacks _ _ products)
      with (insight_fallbacks (completions (outside s)) (List.length (requests (outside s)))
              (product :: products)).
    rewrite scores_of_fallbacks. cbv beta iota. unfold bind at 1.
    rewrite Hsum.
    assert (Hlength : forall completions n items,
               List.length (insight_fallbacks completions n items) = List.length items).
    { intros completions n items. revert n.
      induction items as [|item items IH]; intro n; simpl; [reflexivity|].
      rewrite IH. reflexivity. }
    rewrite Hlength, Hdiv. cbn. rewrite Hself, length_map.
    do 2 eexists. reflexivity.
Qed.



End Completion.

(** An etiquette request answered in prose, and the insights for two
    products while the service answers in prose. *)
Lemma fallback_keeps_completion_text_witness :
  (exists slot payload fallback timestamp,
     decoded_slot business_etiquette = Some slot /\
     fst (handler (py := example_runtime) business_etiquette
            [("type", VStr "business_etiquette"); ("country", VStr "Japan");
             ("situation", VStr "first_meeting")]
            {| self := example_translator;
               outside := stubbed (Content "Bow slightly and bring business cards.") |})
     = Return (success_envelope (VDict payload) "TranslationAgent" timestamp) /\
     dict_get slot payload = Some (VDict fallback) /\
     dict_get "etiquette_advice" fallback
     = Some (VStr "Bow slightly and bring business cards.") /\
     VDict fallback
     = VDict [("etiquette_advice", VStr "Bow slightly and bring business cards.");
              ("general_tips", VList [VStr "Be respectful";
                                      VStr "Research local customs";
                                      VStr "Be punctual"])]) /\
  (exists timestamp s',
     handler (py := example_runtime) product_insights
       [("type", VStr "product_insights");
        ("products", VList [VDict [("name", VStr "Arabica beans")];
                            VDict [("name", VStr "Green tea")]])]
       {| self := example_analyst; outside := stubbed (Content "No idea.") |} =
       (Return
          (success_envelope
             (VDict [("product_insights",
                      VList [VDict [("product", VDict [("name", VStr "Arabica beans")]);
                                    ("performance_score", VInt 70);
                                    ("analysis_text", VStr "No idea.");
                                    ("optimization_tips",
                                     VList [VStr "Improve product description";
                                            VStr "Add more images"])];
                             VDict [("product", VDict [("name", VStr "Green tea")]);
                                    ("performance_score", VInt 70);
                                    ("analysis_text", VStr "No idea.");
                                    ("optimization_tips",
                                     VList [VStr "Improve product description";
                                            VStr "Add more images"])]]);
                     ("total_products_analyzed", VInt 2);
                     ("overall_portfolio_score", VFloat 70%float)])
             "BusinessIntelligenceAgent" timestamp),
        s')).
Proof.
  split.
  - destruct (proj1 (fallback_keeps_completion_text (py := example_runtime))
                business_etiquette "etiquette_advice"
                [("type", VStr "business_etiquette"); ("country", VStr "Japan");
                 ("situation", VStr "first_meeting")]
                {| self := example_translator;
                   outside := stubbed (Content "Bow slightly and bring business cards.") |}
                (snd (handler (py := example_runtime) business_etiquette
                        [("type", VStr "business_etiquette"); ("country", VStr "Japan");
                         ("situation", VStr "first_meeting")]
                        {| self := example_translator;
                           outside :=
                             stubbed (Content "Bow slightly and bring business cards.") |}))
                "Bow slightly and bring business cards."
                _ eq_refl eq_refl eq_refl (surjective_pairing _))
      as (slot & payload & fallback & timestamp & Hslot & Hr & Hget & Htext & Hobject).
    + vm_compute. discriminate.
    + exists slot, payload, fallback, timestamp.
      repeat split; try assumption.
      cbn in Hobject. inversion Hobject. reflexivity.
  - apply (proj2 (fallback_keeps_completion_text (py := example_runtime))
             [("type", VStr "product_insights");
              ("products", VList [VDict [("name", VStr "Arabica beans")];
                                  VDict [("name", VStr "Green tea")]])]
             [[("name", VStr "Arabica beans")]; [("name", VStr "Green tea")]]
             {| self := example_analyst; outside := stubbed (Content "No idea.") |}
             (VInt 140) (VFloat 70%float)).
    + reflexivity.
    + discriminate.
    + intro n. reflexivity.
    + reflexivity.
    + reflexivity.
Defined.

Section ContactDiscoveryOnProse.
Context {py : runtime}.

(** Contact discovery for Italian coffee, answered in prose, whatever the
    built-ins are, as long as the decoder rejects the answer. *)
Lemma contact_discovery_on_prose :
  json_loads "I cannot share contact data." = JSONDecodeError ->
  exists contacts,
    fst (handler contact_discovery
           [("type", VStr "contact_discovery"); ("country", VStr "Italy");
            ("industry", VStr "Coffee")]
           {| self := example_researcher;
              outside := stubbed (Content "I cannot share contact data.") |})
    = Return (success_envelope
                (VDict [("contacts", VList contacts);
                        ("total_found", VInt 2);
                        ("search_criteria",
                         VDict [("country", VStr "Italy");
                                ("industry", VStr "Coffee");
                                ("company_size", VStr "any");
                                ("contact_type", VStr "buyer")])])
                "MarketResearchAgent" "2024-05-01T12:00:00.000000") /\
    mentions "I cannot share contact data." (VList contacts) = false /\
    nth_error contacts 0
    = Some (VDict [("company_name", VStr "Milano Coffee Roasters");
                   ("contact_person", VStr "Marco Rossi");
                   ("position", VStr "Procurement Manager");
                   ("email", VStr "marco.rossi@milanocoffee.it");
                   ("phone", VStr "+39 02 1234567");
                   ("address", VStr "Via Roma 123, 20121 Milano, Italy");
                   ("company_size", VStr "50-100 employees");
                   ("website", VStr "https://milanocoffee.it");
                   ("description",
                    VStr "Premium coffee roaster specializing in single-origin beans");
                   ("verified", VBool true);
                   ("industry", VStr "Coffee");
                   ("country", VStr "Italy")]).
Proof.
  intro Hjson. vm_compute in Hjson. eexists. split; [|split].
  - vm_compute. rewrite Hjson. reflexivity.
  - reflexivity.
  - reflexivity.
Qed.

End ContactDiscoveryOnProse.

(** C1 as stated fails for contact discovery: the completion text is not
    valid JSON, the handler answers with a success envelope, and no
    string of its payload contains the text; the fallback is a list of
    sample contacts.  It fails for opportunity matching in the same way:
    the fallback is an opportunity made from the product's name. *)
Lemma contact_discovery_drops_the_text :
  json_loads (runtime := example_runtime) "I cannot share contact data." = JSONDecodeError /\
  (exists opportunities,
     fst (handler (py := example_runtime) opportunity_matching
            [("type", VStr "opportunity_matching");
             ("products", VList [VDict [("name", VStr "Arabica beans")]])]
            {| self := example_researcher;
               outside := stubbed (Content "I cannot share contact data.") |})
     = Return (success_envelope
                 (VDict [("opportunities", VList opportunities);
                         ("total_found", VInt 1);
                         ("products_analyzed", VInt 1)])
                 "MarketResearchAgent" "2024-05-01T12:00:00.000000") /\
     mentions "I cannot share contact data." (VList opportunities) = false /\
     nth_error opportunities 0
     = Some (VDict [("title", VStr "Export Opportunity for Arabica beans");
                    ("description",
                     VStr "Potential market opportunity for Arabica beans in international markets");
                    ("market", VStr "Global");
                    ("potential_value", VStr "To be determined");
                    ("confidence", VInt 70);
                    ("matched_product", VDict [("name", VStr "Arabica beans")]);
                    ("requirements", VList [VStr "Market research";
                                            VStr "Regulatory compliance"]);
                    ("next_steps", VList [VStr "Contact potential buyers";
                                          VStr "Prepare samples"])])) /\
  exists contacts,
    fst (handler (py := example_runtime) contact_discovery
           [("type", VStr "contact_discovery"); ("country", VStr "Italy");
            ("industry", VStr "Coffee")]
           {| self := example_researcher;
              outside := stubbed (Content "I cannot share contact data.") |})
    = Return (success_envelope
                (VDict [("contacts", VList contacts);
                        ("total_found", VInt 2);
                        ("search_criteria",
                         VDict [("country", VStr "Italy");
                                ("industry", VStr "Coffee");
                                ("company_size", VStr "any");
                                ("contact_type", VStr "buyer")])])
                "MarketResearchAgent" "2024-05-01T12:00:00.000000") /\
    mentions "I cannot share contact data." (VList contacts) = false /\
    nth_error contacts 0
    = Some (VDict [("company_name", VStr "Milano Coffee Roasters");
                   ("contact_person", VStr "Marco Rossi");
                   ("position", VStr "Procurement Manager");
                   ("email", VStr "marco.rossi@milanocoffee.it");
                   ("phone", VStr "+39 02 1234567");
                   ("address", VStr "Via Roma 123, 20121 Milano, Italy");
                   ("company_size", VStr "50-100 employees");
                   ("website", VStr "https://milanocoffee.it");
                   ("description",
                    VStr "Premium coffee roaster specializing in single-origin beans");
                   ("verified", VBool true);
                   ("industry", VStr "Coffee");
                   ("country", VStr "Italy")]).
Proof.
  split; [reflexivity|].
  split; [eexists; split; [vm_compute; reflexivity | split; reflexivity]|].
  exact (contact_discovery_on_prose (py := example_runtime) eq_refl).
Qed.


Section OpportunityMatchingOnJson.
Context {py : runtime}.


End OpportunityMatchingOnJson.


(** ** C8: the language detection scenario *)

Section Detection.
Context {py : runtime}.

(** C8, as the code has it.  With the completion service answering "fr",
    the translation agent answers the request
    [{type: "language_detection", text: "Bonjour"}] with a success
    envelope whose data holds the text itself besides the detected
    language, its name and the confidence 0.9; the envelope also carries
    the agent's name and the time. *)
Theorem bonjour_is_detected_as_french (s : state) :
  supported_languages (self s) = TranslationAgent.language_table ->
  next_completion s = Content "fr" ->
  fst (TranslationAgent.process_request
         [("type", VStr "language_detection"); ("text", VStr "Bonjour")] s)
  = Return
      (success_envelope
         (VDict [("text", VStr "Bonjour");
                 ("detected_language", VStr "fr");
                 ("language_name", VStr "French");
                 ("confidence", VFloat 0.9%float)])
         (name (self s))
         (clock (outside s) (clock_reads (outside s)))).
Proof.
  intros Htable Hnext.
  unfold TranslationAgent.process_request. unfold bind at 1. rewrite log_request_run.
  cbn [get dict_get is_str String.eqb Ascii.eqb Bool.eqb].
  unfold TranslationAgent._detect_language. unfold bind at 1 2.
  rewrite validate_request_run. cbn [first_missing find unusable dict_mem get dict_get
    String.eqb Ascii.eqb Bool.eqb truthy negb orb].
  unfold BaseAgent.subscript. cbn [eval py_item dict_get String.eqb Ascii.eqb Bool.eqb].
  unfold bind at 1 2.
  unfold TranslationAgent._detect_language_internal. unfold try_except at 1.
  unfold bind at 1.
  unfold eval at 1.
  rewrite (call_openai_gpt_content _ _ "fr") by exact Hnext.
  assert (Hcode : lower (strip "fr") = "fr") by reflexivity.
  cbn -[strip lower existsb lookup_or decimal String.append].
  rewrite Hcode, Htable.
  assert (Hknown : existsb (String.eqb "fr") (map fst TranslationAgent.language_table) = true)
    by reflexivity.
  rewrite Hknown.
  cbn -[lookup_or decimal String.append]. rewrite Htable. reflexivity.
Qed.

End Detection.

Lemma bonjour_is_detected_as_french_witness :
  fst (TranslationAgent.process_request (py := example_runtime)
         [("type", VStr "language_detection"); ("text", VStr "Bonjour")]
         {| self := example_translator; outside := stubbed (Content "fr") |})
  = Return
      (success_envelope
         (VDict [("text", VStr "Bonjour");
                 ("detected_language", VStr "fr");
                 ("language_name", VStr "French");
                 ("confidence", VFloat 0.9%float)])
         "TranslationAgent" "2024-05-01T12:00:00.000000").
Proof.
  apply (bonjour_is_detected_as_french (py := example_runtime)
           {| self := example_translator; outside := stubbed (Content "fr") |}).
  - reflexivity.
  - reflexivity.
Defined.

(** C8 as stated fails: the output is not the dictionary of the claim;
    its data has a fourth field, [text], and the envelope names the
    agent and the time. *)
Lemma detection_output_has_more_fields :
  (exists data,
     fst (TranslationAgent.process_request (py := example_runtime)
            [("type", VStr "language_detection"); ("text", VStr "Bonjour")]
            {| self := example_translator; outside := stubbed (Content "fr") |})
     = Return (VDict [("success", VBool true);
                      ("data", VDict data);
                      ("agent", VStr "TranslationAgent");
                      ("timestamp", VStr "2024-05-01T12:00:00.000000")]) /\
     dict_get "text" data = Some (VStr "Bonjour") /\
     List.length data = 4%nat) /\
  dict_get "text"
    [("detected_language", VStr "fr"); ("language_name", VStr "French");
     ("confidence", VFloat 0.9%float)] = None /\
  fst (TranslationAgent.process_request (py := example_runtime)
         [("type", VStr "language_detection"); ("text", VStr "Bonjour")]
         {| self := example_translator; outside := stubbed (Content "fr") |})
  <> Return (VDict [("success", VBool true);
                    ("data", VDict [("detected_language", VStr "fr");
                                    ("language_name", VStr "French");
                                    ("confidence", VFloat 0.9%float)])]).
Proof.
  split; [eexists; split; [reflexivity | split; reflexivity]|].
  split; [reflexivity|].
  vm_compute. discriminate.
Qed.

(** ** C4: the comprehensive market research *)

Section FanOut.
Context {py : runtime}.



End FanOut.


(** * Further properties *)

(** ** The completion call *)

(** X1.  [call_openai_gpt] never raises: a text of the service is returned as
    it is, an exception of the client library becomes the text
    "Error: Unable to process request - ..." and is returned in the same
    way.  Either way exactly one request is made, and neither the agent
    nor the clock changes. *)
Theorem completion_call_never_raises (messages : list message) (s : state) :
  exists s',
    BaseAgent.call_openai_gpt messages s = (Return (reply_text (next_completion s)), s') /\
    (forall e, next_completion s = Failure e ->
       reply_text (next_completion s) = "Error: Unable to process request - " ++ str e) /\
    self s' = self s /\
    requests (outside s') = (requests (outside s) ++ [messages])%list /\
    clock_reads (outside s') = clock_reads (outside s).
Proof.
  pose proof (call_openai_gpt_state messages s) as H. cbv zeta in H.
  rewrite call_openai_gpt_run in *. cbn [snd] in H.
  eexists. split; [reflexivity|].
  split; [intros e ->; reflexivity|]. tauto.
Qed.

(** ** The validator and the dispatch on the request type *)

(** X2.  [validate_request] never raises and makes no request; it accepts a
    request exactly when every required field is present with a truthy
    value (so a field that holds 0, False, an empty string or an empty
    list counts as missing), and an accepted request leaves no trace. *)
Theorem validator_accepts_complete_requests
    (request_data : dict) (fields : list string) (s : state) :
  exists accepted s',
    BaseAgent.validate_request request_data fields s = (Return accepted, s') /\
    (accepted = true <->
     forall field, In field fields ->
       exists v, dict_get field request_data = Some v /\ truthy v = true) /\
    (accepted = true -> s' = s) /\
    self s' = self s /\
    requests (outside s') = requests (outside s).
Proof.
  rewrite validate_request_run. unfold first_missing.
  destruct (find (unusable request_data) fields) as [missing|] eqn:F.
  - do 2 eexists. split; [reflexivity|]. split; [|split; [discriminate | split; reflexivity]].
    split; [discriminate|]. intro Hall. exfalso.
    apply find_some in F. destruct F as [Hin Hbad].
    destruct (Hall _ Hin) as (v & Hget & Htrue).
    apply unusable_absent_or_falsy in Hbad.
    destruct Hbad as [Hnone | (v' & Hget' & Hfalse)]; congruence.
  - do 2 eexists. split; [reflexivity|]. split; [|split; [reflexivity | split; reflexivity]].
    split; [|reflexivity]. intros _ field Hin.
    apply usable_present. exact (find_none _ _ F _ Hin).
Qed.

Section UnknownType.
Context {py : runtime}.


End UnknownType.


(** ** Translation *)

Section Translation.
Context {py : runtime}.

Lemma detect_language_internal_run (text : value) (s : state) :
  TranslationAgent._detect_language_internal text s =
  (Return (detected_code s),
   snd (BaseAgent.call_openai_gpt
          [system "You are a language detection expert. Return only the ISO 639-1 language code, nothing else.";
           user (detection_prompt text)] s)).
Proof.
  unfold TranslationAgent._detect_language_internal, try_except, detected_code.
  unfold bind at 1. rewrite call_openai_gpt_run. cbn [snd].
  destruct (next_completion s); cbn -[lower strip existsb];
    match goal with
    | |- context [if ?b then _ else _] => destruct b
    end; reflexivity.
Qed.

(** X4.  Language detection never raises and makes exactly one request.  What
    it returns is the answer of the service, stripped and lowered, when
    that is a key of the agent's language table, and "en" otherwise: an
    unknown code, a sentence, an error of the client all read as
    English. *)
Theorem detected_language_is_supported_or_english (text : value) (s : state) :
  exists code s',
    TranslationAgent._detect_language_internal text s = (Return code, s') /\
    (In code (keys (supported_languages (self s))) /\
     code = lower (strip (reply_text (next_completion s)))
     \/
     ~ In (lower (strip (reply_text (next_completion s)))) (keys (supported_languages (self s))) /\
     code = "en") /\
    self s' = self s /\
    List.length (requests (outside s')) = S (List.length (requests (outside s))).
Proof.
  rewrite detect_language_internal_run.
  do 2 eexists. split; [reflexivity|].
  pose proof (call_openai_gpt_state
                [system "You are a language detection expert. Return only the ISO 639-1 language code, nothing else.";
                 user (detection_prompt text)] s) as (Hself & Hrequests & _).
  split; [|split; [exact Hself | rewrite Hrequests, length_app; simpl; lia]].
  unfold detected_code.
  destruct (existsb _ _) eqn:E.
  - left. split; [|reflexivity].
    apply existsb_exists in E. destruct E as (k & Hin & Heq).
    apply String.eqb_eq in Heq. subst k. exact Hin.
  - right. split; [|reflexivity]. intro Hin.
    assert (existsb (String.eqb (lower (strip (reply_text (next_completion s)))))
              (keys (supported_languages (self s))) = true) as K.
    { apply existsb_exists. eexists. split; [exact Hin | apply String.eqb_refl]. }
    congruence.
Qed.

(** A code followed by a no-break space (U+00A0, two bytes in UTF-8):
    the answer is outside ASCII, so it is stripped by the interpreter,
    and with an interpreter that strips the space the code is found. *)
Lemma detection_strips_with_the_interpreter (text : value) (s : state) :
  supported_languages (self s) = TranslationAgent.language_table ->
  next_completion s = Content ("fr" ++ String "194"%char (String "160"%char EmptyString)) ->
  unicode_strip ("fr" ++ String "194"%char (String "160"%char EmptyString)) = "fr" ->
  fst (TranslationAgent._detect_language_internal text s) = Return "fr".
Proof.
  intros Hlanguages Hnext Hstrip.
  rewrite detect_language_internal_run. cbn [fst].
  unfold detected_code. rewrite Hnext, Hlanguages. cbn [reply_text].
  assert (Hstripped :
            strip ("fr" ++ String "194"%char (String "160"%char EmptyString)) = "fr")
    by exact Hstrip.
  rewrite Hstripped. reflexivity.
Qed.

End Translation.

Lemma lookup_of_key (table : list (string * string)) (key : string) :
  In key (keys table) ->
  exists language_name,
    find (fun entry => String.eqb (fst entry) key) table = Some (key, language_name).
Proof.
  induction table as [|[k v] rest IH]; simpl; [contradiction|].
  intros [-> | Hin].
  - rewrite String.eqb_refl. eauto.
  - destruct (String.eqb k key) eqn:E.
    + apply String.eqb_eq in E. subst k. eauto.
    + exact (IH Hin).
Qed.

Lemma existsb_of_key (keys : list string) (key : string) :
  In key keys -> existsb (String.eqb key) keys = true.
Proof.
  intro Hin. apply existsb_exists. exists key. split; [exact Hin | apply String.eqb_refl].
Qed.

Section TranslateText.
Context {py : runtime}.

(** The validator of [_translate_text] passes. *)
Lemma translate_text_valid (request_data : dict) (text target_language : value) :
  dict_get "text" request_data = Some text -> truthy text = true ->
  dict_get "target_language" request_data = Some target_language ->
  truthy target_language = true ->
  first_missing request_data ["text"; "target_language"] = None.
Proof.
  intros Htext Htruthy Htarget Htruthy'.
  unfold first_missing. simpl. unfold unusable, dict_mem, get.
  rewrite Htext, Htarget, Htruthy, Htruthy'. reflexivity.
Qed.

(** X5.  A translation request with a usable text and a truthy
    [target_language] that passes the validator and fails the test
    [target_language not in self.supported_languages].  When the test
    says the target is no key of the agent's language table (a string
    the table lacks, or a number or [True], which are hashable and no
    keys), the request is refused before any completion is asked for:
    the answer is the error envelope "Unsupported target language: ..."
    and only the clock was read.  When the test itself raises (a list
    or a dictionary cannot be hashed), [_translate_text] raises that
    exception and nothing has changed. *)
Theorem unsupported_target_language_is_refused
    (request_data : dict) (text target_language : value) (s : state) :
  dict_get "text" request_data = Some text -> truthy text = true ->
  dict_get "target_language" request_data = Some target_language ->
  truthy target_language = true ->
  (py_in target_language (supported_languages (self s)) = Return false ->
   TranslationAgent._translate_text request_data s =
     (Return (error_envelope ("Unsupported target language: " ++ format target_language)
                (name (self s)) (clock (outside s) (clock_reads (outside s)))),
      {| self := self s; outside := tick (outside s) |})) /\
  (forall e,
     py_in target_language (supported_languages (self s)) = Raise e ->
     TranslationAgent._translate_text request_data s = (Raise e, s)) /\
  (py_in target_language (supported_languages (self s)) = Return false <->
   match target_language with
   | VStr code => ~ In code (keys (supported_languages (self s)))
   | VList _ | VDict _ => False
   | _ => True
   end).
Proof.
  intros Htext Htruthy Htarget Htruthy'.
  assert (Hrun :
    TranslationAgent._translate_text request_data s =
    match py_in target_language (supported_languages (self s)) with
    | Return false =>
        (Return (error_envelope ("Unsupported target language: " ++ format target_language)
                   (name (self s)) (clock (outside s) (clock_reads (outside s)))),
         {| self := self s; outside := tick (outside s) |})
    | Raise e => (Raise e, s)
    | Return true => TranslationAgent._translate_text request_data s
    end).
  { destruct (py_in target_language (supported_languages (self s))) as [[|]|e] eqn:Hin;
      [reflexivity| |];
      unfold TranslationAgent._translate_text;
      unfold bind at 1; rewrite validate_request_run;
      rewrite (translate_text_valid _ _ _ Htext Htruthy Htarget Htruthy'); cbn [negb];
      unfold BaseAgent.subscript, eval, py_item; unfold bind at 1; rewrite Htext;
      unfold bind at 1; rewrite Htarget;
      unfold bind at 1; unfold get_self at 1; unfold bind at 1; cbn [self];
      rewrite Hin; reflexivity. }
  split; [intro Hin; rewrite Hrun, Hin; reflexivity|].
  split; [intros e Hin; rewrite Hrun, Hin; reflexivity|].
  destruct target_language as [|b|z|f|code|items|entries]; cbn [py_in];
    try (split; [intros _; exact I | reflexivity]);
    try (split; [discriminate | contradiction]).
  split.
  - intros Hin Hkey. rewrite (existsb_of_key _ _ Hkey) in Hin. discriminate.
  - intro Hnot. destruct (existsb (String.eqb code) (keys (supported_languages (self s))))
      eqn:Hknown; [|reflexivity].
    exfalso. apply Hnot. apply existsb_exists in Hknown.
    destruct Hknown as (k & Hin & Heq). apply String.eqb_eq in Heq. subst k. exact Hin.
Qed.

(** The run of [_translate_text] on a usable text and a target language
    of the agent's table. *)
Lemma translate_text_succeeds
    (request_data : dict) (text : value) (target : string) (s : state) :
  dict_get "text" request_data = Some text -> truthy text = true ->
  dict_get "target_language" request_data = Some (VStr target) -> target <> "" ->
  In target (keys (supported_languages (self s))) ->
  exists detected timestamp s',
    TranslationAgent._translate_text request_data s =
      (Return
         (success_envelope
            (VDict [("original_text", text);
                    ("translated_text", VStr (reply_text (next_completion s)));
                    ("source_language", detected);
                    ("target_language", VStr target);
                    ("context", get request_data "context" (VStr "general"));
                    ("confidence", VFloat 0.95%float)])
            (name (self s)) timestamp),
       s') /\
    self s' = self s /\
    List.length (requests (outside s')) =
      (List.length (requests (outside s))
       + if is_str (get request_data "source_language" (VStr "auto")) "auto" then 2 else 1)%nat.
Proof.
  intros Htext Htruthy Htarget Hnonempty Hin.
  assert (Htruthy' : truthy (VStr target) = true).
  { simpl. destruct (String.eqb target "") eqn:E; [|reflexivity].
    apply String.eqb_eq in E. contradiction. }
  unfold TranslationAgent._translate_text.
  unfold bind at 1. rewrite validate_request_run.
  rewrite (translate_text_valid _ _ _ Htext Htruthy Htarget Htruthy'). cbn [negb].
  unfold BaseAgent.subscript, eval, py_item. unfold bind at 1. rewrite Htext.
  unfold bind at 1. rewrite Htarget.
  unfold bind at 1. unfold get_self at 1. unfold bind at 1. cbn [self py_in].
  rewrite (existsb_of_key _ _ Hin). cbn [negb].
  unfold try_except at 1. unfold bind at 1. unfold py_lookup.
  destruct (lookup_of_key _ _ Hin) as (language_name & ->). cbn [snd].
  unfold bind at 1.
  match goal with
  | |- context [BaseAgent.call_openai_gpt ?m s] =>
      destruct (call_openai_gpt_returns m s) as (after & -> & Hself & Hrequests & _)
  end.
  unfold bind at 1.
  destruct (is_str (get request_data "source_language" (VStr "auto")) "auto").
  - unfold bind at 1. rewrite detect_language_internal_run.
    match goal with
    | |- context [BaseAgent.call_openai_gpt ?m after] =>
        destruct (call_openai_gpt_returns m after)
          as (asked_twice & Hdetected & Hself' & Hrequests' & _);
        rewrite Hdetected
    end.
    cbn. rewrite Hself', Hself.
    do 3 eexists. split; [reflexivity|]. split; [reflexivity|].
    cbn. rewrite Hrequests', Hrequests, !length_app. simpl. lia.
  - cbn. rewrite Hself.
    do 3 eexists. split; [reflexivity|]. split; [reflexivity|].
    cbn. rewrite Hrequests, length_app. simpl. lia.
Qed.

(** X6.  A translation request with a usable text and a target language of
    the agent's table is always answered with a success envelope: the
    completion call cannot fail, so [translated_text] is whatever came
    back, the text of the service or the text made of the client's
    error.  One request is made when the request names a source
    language, two when the source is "auto" or missing (the second one
    detects the language). *)
Theorem translation_asks_once_or_twice
    (request_data : dict) (text : value) (target : string) (s : state) :
  dict_get "text" request_data = Some text -> truthy text = true ->
  dict_get "target_language" request_data = Some (VStr target) -> target <> "" ->
  In target (keys (supported_languages (self s))) ->
  exists payload timestamp s',
    TranslationAgent._translate_text request_data s =
      (Return (success_envelope (VDict payload) (name (self s)) timestamp), s') /\
    dict_get "original_text" payload = Some text /\
    dict_get "translated_text" payload = Some (VStr (reply_text (next_completion s))) /\
    dict_get "target_language" payload = Some (VStr target) /\
    (forall e, next_completion s = Failure e ->
       dict_get "translated_text" payload
       = Some (VStr ("Error: Unable to process request - " ++ str e))) /\
    self s' = self s /\
    List.length (requests (outside s')) =
      (List.length (requests (outside s))
       + if is_str (get request_data "source_language" (VStr "auto")) "auto" then 2 else 1)%nat.
Proof.
  intros Htext Htruthy Htarget Hnonempty Hin.
  destruct (translate_text_succeeds request_data text target s
              Htext Htruthy Htarget Hnonempty Hin)
    as (detected & timestamp & s' & Hrun & Hself & Hrequests).
  do 3 eexists. split; [exact Hrun|].
  split; [reflexivity|]. split; [reflexivity|]. split; [reflexivity|].
  split; [intros e ->; reflexivity|]. split; [exact Hself | exact Hrequests].
Qed.

End TranslateText.

(** A target language the table lacks, and a list of languages as the
    target. *)
Lemma unsupported_target_language_is_refused_witness :
  TranslationAgent._translate_text (py := example_runtime)
    [("type", VStr "text_translation"); ("text", VStr "Hello"); ("target_language", VStr "xx")]
    {| self := example_translator; outside := stubbed (Content "Bonjour") |} =
    (Return (error_envelope "Unsupported target language: xx" "TranslationAgent"
               "2024-05-01T12:00:00.000000"),
     {| self := example_translator; outside := tick (stubbed (Content "Bonjour")) |}) /\
  TranslationAgent._translate_text (py := example_runtime)
    [("type", VStr "text_translation"); ("text", VStr "Hello");
     ("target_language", VList [VStr "fr"; VStr "de"])]
    {| self := example_translator; outside := stubbed (Content "Bonjour") |} =
    (Raise (TypeError "unhashable type: 'list'"),
     {| self := example_translator; outside := stubbed (Content "Bonjour") |}).
Proof.
  split.
  - apply (proj1 (unsupported_target_language_is_refused (py := example_runtime)
                    [("type", VStr "text_translation"); ("text", VStr "Hello");
                     ("target_language", VStr "xx")]
                    (VStr "Hello") (VStr "xx")
                    {| self := example_translator; outside := stubbed (Content "Bonjour") |}
                    eq_refl eq_refl eq_refl eq_refl)).
    reflexivity.
  - apply (proj1 (proj2 (unsupported_target_language_is_refused (py := example_runtime)
                           [("type", VStr "text_translation"); ("text", VStr "Hello");
                            ("target_language", VList [VStr "fr"; VStr "de"])]
                           (VStr "Hello") (VList [VStr "fr"; VStr "de"])
                           {| self := example_translator;
                              outside := stubbed (Content "Bonjour") |}
                           eq_refl eq_refl eq_refl eq_refl))).
    reflexivity.
Defined.

(** A translation into French while the completion service is
    unreachable: two requests, a success envelope, and the text of the
    error as the translation. *)
Lemma translation_asks_once_or_twice_witness :
  exists payload timestamp s',
    TranslationAgent._translate_text (py := example_runtime)
      [("type", VStr "text_translation"); ("text", VStr "Hello"); ("target_language", VStr "fr")]
      {| self := example_translator;
         outside := stubbed (Failure (Exception "APIConnectionError" "Connection error.")) |} =
      (Return (success_envelope (VDict payload) "TranslationAgent" timestamp), s') /\
    dict_get "original_text" payload = Some (VStr "Hello") /\
    dict_get "translated_text" payload
    = Some (VStr "Error: Unable to process request - Connection error.") /\
    dict_get "target_language" payload = Some (VStr "fr") /\
    (forall e, Failure (Exception "APIConnectionError" "Connection error.") = Failure e ->
       dict_get "translated_text" payload
       = Some (VStr ("Error: Unable to process request - " ++ str e))) /\
    self s' = example_translator /\
    List.length (requests (outside s')) = 2%nat.
Proof.
  apply (translation_asks_once_or_twice (py := example_runtime)
           [("type", VStr "text_translation"); ("text", VStr "Hello");
            ("target_language", VStr "fr")]
           (VStr "Hello") "fr"
           {| self := example_translator;
              outside := stubbed (Failure (Exception "APIConnectionError" "Connection error.")) |}).
  - reflexivity.
  - reflexivity.
  - reflexivity.
  - discriminate.
  - simpl. tauto.
Defined.

(** ** A completion service that fails *)

Lemma call_openai_gpt_failure (messages : list message) (s : state) (e : exn) :
  next_completion s = Failure e ->
  BaseAgent.call_openai_gpt messages s =
    (Return (reply_text (Failure e)),
     logged (Text ("[" ++ name (self s) ++ "] OpenAI API error: " ++ str e))
       (asked messages s)).
Proof. intro Hnext. rewrite call_openai_gpt_run, Hnext. reflexivity. Qed.

Section UpstreamFailure.
Context {py : runtime}.

Ltac stopped Hrun Hcall :=
  cbn in Hrun; inversion Hrun; subst; cbn in Hcall; congruence.

Ltac passes Hrun Hcall field :=
  let U := fresh "U" in
  destruct (unusable _ field) eqn:U;
  [ stopped Hrun Hcall
  | apply usable_present in U; destruct U as (? & U & _);
    unfold BaseAgent.subscript, eval, py_item in Hrun; rewrite U in Hrun ].

(** The completion request fails with [e]; what is left of the run is
    the fallback object and the success envelope. *)
Ltac fails Hrun Hnext Hjson :=
  unfold try_except at 1 in Hrun;
  unfold bind at 1 in Hrun; rewrite (call_openai_gpt_failure _ _ _ Hnext) in Hrun;
  rewrite Hjson in Hrun;
  cbn -[reply_text] in Hrun; inversion Hrun; subst;
  eexists; (split; [reflexivity|]); do 3 eexists; repeat split.

(** X7.  When the completion client raises (no network, a refused key, a
    timeout), the eight handlers with a free-text fallback do not report
    an error: [call_openai_gpt] turns the exception into the text
    "Error: Unable to process request - ...", that text is not JSON, and
    the handler returns a success envelope whose fallback object carries
    it as the analysis. *)
Theorem upstream_failure_is_answered_as_success (c : capability) (field : string)
    (request_data : dict) (s s' : state) (e : exn) (r : outcome value) :
  free_text_field c = Some field ->
  next_completion s = Failure e ->
  json_loads ("Error: Unable to process request - " ++ str e) = JSONDecodeError ->
  handler c request_data s = (r, s') ->
  requests (outside s') <> requests (outside s) ->
  exists slot,
    decoded_slot c = Some slot /\
    exists payload fallback timestamp,
      r = Return (success_envelope (VDict payload) (name (self s)) timestamp) /\
      dict_get slot payload = Some (VDict fallback) /\
      dict_get field fallback
      = Some (VStr ("Error: Unable to process request - " ++ str e)).
Proof.
  intros Hfield Hnext Hjson Hrun Hcall.
  change ("Error: Unable to process request - " ++ str e) with (reply_text (Failure e)) in *.
  destruct c; try discriminate Hfield;
    cbn in Hfield; inversion Hfield; subst field; clear Hfield;
    cbv beta iota zeta delta
      [handler
       MarketResearchAgent._analyze_market MarketResearchAgent._analyze_trends
       TranslationAgent._provide_cultural_context
       TranslationAgent._provide_business_etiquette
       BusinessIntelligenceAgent._analyze_user_performance
       BusinessIntelligenceAgent._generate_market_recommendations
       BusinessIntelligenceAgent._analyze_competition
       BusinessIntelligenceAgent._identify_growth_opportunities] in Hrun;
    unfold bind at 1 in Hrun; rewrite validate_request_run in Hrun;
    unfold first_missing in Hrun; cbn [find] in Hrun.
  - (* market analysis *)
    passes Hrun Hcall "product_name". passes Hrun Hcall "target_country".
    cbn [negb] in Hrun. unfold bind at 1 2 in Hrun. fails Hrun Hnext Hjson.
  - (* trend analysis *)
    passes Hrun Hcall "country".
    cbn [negb] in Hrun. unfold bind at 1 in Hrun. fails Hrun Hnext Hjson.
  - (* cultural context *)
    passes Hrun Hcall "country".
    cbn [negb] in Hrun. unfold bind at 1 in Hrun. fails Hrun Hnext Hjson.
  - (* business etiquette *)
    passes Hrun Hcall "country". passes Hrun Hcall "situation".
    cbn [negb] in Hrun. unfold bind at 1 2 in Hrun. fails Hrun Hnext Hjson.
  - (* user analytics *)
    passes Hrun Hcall "user_id".
    cbn [negb] in Hrun. unfold bind at 1 in Hrun. fails Hrun Hnext Hjson.
  - (* market recommendations *)
    passes Hrun Hcall "user_profile".
    cbn [negb] in Hrun. unfold bind at 1 2 in Hrun.
    match type of Hrun with context [py_get ?v _ _] => destruct v end;
      try stopped Hrun Hcall.
    cbn [py_get] in Hrun. fails Hrun Hnext Hjson.
  - (* competitive analysis *)
    passes Hrun Hcall "industry". passes Hrun Hcall "target_market".
    cbn [negb] in Hrun. unfold bind at 1 2 in Hrun. fails Hrun Hnext Hjson.
  - (* growth opportunities *)
    passes Hrun Hcall "user_data".
    cbn [negb] in Hrun. unfold bind at 1 2 3 in Hrun.
    match type of Hrun with context [py_get ?v _ _] => destruct v end;
      try stopped Hrun Hcall.
    cbn [py_get] in Hrun. unfold bind at 1 in Hrun.
    match type of Hrun with
    | context [if truthy ?m then _ else _] => destruct (truthy m)
    end.
    + match type of Hrun with context [py_join ?a ?b] => destruct (py_join a b) end;
        try stopped Hrun Hcall.
      unfold bind at 1 in Hrun.
      match type of Hrun with context [py_len ?a] => destruct (py_len a) end;
        try stopped Hrun Hcall.
      fails Hrun Hnext Hjson.
    + unfold ret at 1 in Hrun. unfold bind at 1 in Hrun.
      match type of Hrun with context [py_len ?a] => destruct (py_len a) end;
        try stopped Hrun Hcall.
      fails Hrun Hnext Hjson.
Qed.

(** X29.  A completion text on which [json.loads] raises something other
    than [JSONDecodeError] (a [RecursionError] on a deeply nested text, a
    [ValueError] on an over-long integer) is not replaced by a fallback:
    the exception passes the inner [except json.JSONDecodeError], reaches
    the handler's [except Exception], and the eight handlers with a
    free-text fallback answer with the error envelope
    "<what the handler does> failed: <the exception's text>". *)
Theorem decoder_exception_is_answered_as_error (c : capability) (field : string)
    (request_data : dict) (s s' : state) (text : string) (e : exn) (r : outcome value) :
  free_text_field c = Some field ->
  next_completion s = Content text ->
  json_loads text = OtherError e ->
  handler c request_data s = (r, s') ->
  requests (outside s') <> requests (outside s) ->
  exists prefix timestamp,
    failure_prefix c = Some prefix /\
    r = Return (error_envelope (prefix ++ str e) (name (self s)) timestamp).
Proof.
  intros Hfield Hnext Hjson Hrun Hcall.
  assert (Hslot : exists slot, decoded_slot c = Some slot)
    by (destruct c; try discriminate Hfield; eexists; reflexivity).
  destruct Hslot as (slot & Hslot).
  assert (Hnot : c <> contact_discovery) by (intros ->; discriminate Hfield).
  pose proof (single_completion_run c slot request_data s s' text r Hslot Hnot Hnext Hrun Hcall)
    as Hanswer.
  rewrite Hjson in Hanswer. exact Hanswer.
Qed.

End UpstreamFailure.

(** A market analysis while the completion service is unreachable. *)
Lemma upstream_failure_is_answered_as_success_witness :
  exists slot,
    decoded_slot market_analysis = Some slot /\
    exists payload fallback timestamp,
      fst (handler (py := example_runtime) market_analysis
             [("type", VStr "market_analysis"); ("product_name", VStr "Arabica beans");
              ("target_country", VStr "Italy")]
             {| self := example_researcher;
                outside := stubbed (Failure (Exception "APIConnectionError"
                                               "Connection error.")) |})
      = Return (success_envelope (VDict payload) "MarketResearchAgent" timestamp) /\
      dict_get slot payload = Some (VDict fallback) /\
      dict_get "analysis_text" fallback
      = Some (VStr "Error: Unable to process request - Connection error.").
Proof.
  apply (upstream_failure_is_answered_as_success (py := example_runtime) market_analysis
           "analysis_text"
           [("type", VStr "market_analysis"); ("product_name", VStr "Arabica beans");
            ("target_country", VStr "Italy")]
           {| self := example_researcher;
              outside := stubbed (Failure (Exception "APIConnectionError"
                                             "Connection error.")) |}
           (snd (handler (py := example_runtime) market_analysis
                   [("type", VStr "market_analysis"); ("product_name", VStr "Arabica beans");
                    ("target_country", VStr "Italy")]
                   {| self := example_researcher;
                      outside := stubbed (Failure (Exception "APIConnectionError"
                                                     "Connection error.")) |}))
           (Exception "APIConnectionError" "Connection error.")).
  - reflexivity.
  - reflexivity.
  - reflexivity.
  - apply surjective_pairing.
  - vm_compute. discriminate.
Defined.

(** A market analysis answered with 1200 opening brackets. *)
Lemma decoder_exception_is_answered_as_error_witness :
  exists timestamp,
    fst (handler (py := example_runtime) market_analysis
           [("type", VStr "market_analysis"); ("product_name", VStr "Arabica beans");
            ("target_country", VStr "Italy")]
           {| self := example_researcher; outside := stubbed (Content deeply_nested) |})
    = Return (error_envelope
                "Market analysis failed: maximum recursion depth exceeded while decoding a JSON array from a unicode string"
                "MarketResearchAgent" timestamp).
Proof.
  destruct (decoder_exception_is_answered_as_error (py := example_runtime) market_analysis
              "analysis_text"
              [("type", VStr "market_analysis"); ("product_name", VStr "Arabica beans");
               ("target_country", VStr "Italy")]
              {| self := example_researcher; outside := stubbed (Content deeply_nested) |}
              (snd (handler (py := example_runtime) market_analysis
                      [("type", VStr "market_analysis");
                       ("product_name", VStr "Arabica beans");
                       ("target_country", VStr "Italy")]
                      {| self := example_researcher;
                         outside := stubbed (Content deeply_nested) |}))
              deeply_nested RecursionError
              _ eq_refl eq_refl eq_refl (surjective_pairing _))
    as (prefix & timestamp & Hprefix & Hr).
  - vm_compute. discriminate.
  - exists timestamp. rewrite Hr. cbn in Hprefix. inversion Hprefix. reflexivity.
Defined.

(** ** The registry *)

Lemma registry_get_set_same (agent_name : string) (a : agent) (r : registry) :
  registry_get agent_name (registry_set agent_name a r) = Some a.
Proof.
  induction r as [|[k b] rest IH]; simpl.
  - rewrite String.eqb_refl. reflexivity.
  - destruct (String.eqb k agent_name) eqn:E; simpl; rewrite E; [reflexivity | exact IH].
Qed.

Lemma registry_get_set_other (agent_name other : string) (a : agent) (r : registry) :
  other <> agent_name ->
  registry_get other (registry_set agent_name a r) = registry_get other r.
Proof.
  intro Hother. induction r as [|[k b] rest IH]; simpl.
  - destruct (String.eqb agent_name other) eqn:E; [|reflexivity].
    apply String.eqb_eq in E. congruence.
  - destruct (String.eqb k agent_name) eqn:E; simpl.
    + destruct (String.eqb k other) eqn:E'; [|reflexivity].
      apply String.eqb_eq in E, E'. congruence.
    + rewrite IH. reflexivity.
Qed.

Lemma keys_registry_set (agent_name : string) (a : agent) (r : registry) :
  keys (registry_set agent_name a r) =
  if existsb (String.eqb agent_name) (keys r) then keys r
  else (keys r ++ [agent_name])%list.
Proof.
  unfold keys. induction r as [|[k b] rest IH]; simpl; [reflexivity|].
  rewrite (String.eqb_sym agent_name k).
  destruct (String.eqb k agent_name) eqn:E; simpl; [reflexivity|].
  rewrite IH.
  destruct (existsb (String.eqb agent_name) (map fst rest)); reflexivity.
Qed.

Lemma keys_registry_set_known (agent_name : string) (a b : agent) (r : registry) :
  registry_get agent_name r = Some b ->
  keys (registry_set agent_name a r) = keys r.
Proof.
  intro Hsome. rewrite keys_registry_set.
  rewrite (existsb_of_key _ _ (registry_get_some_in _ _ _ Hsome)). reflexivity.
Qed.

(** X8.  Registering an agent never fails and makes it the agent found under
    its name: a new name goes last, a name already taken keeps its place
    and gets the new object; every other name finds what it found
    before, and the names stay distinct. *)
Theorem registered_agent_is_found (a : agent) (p : platform) :
  exists p',
    AgentOrchestrator.register_agent a p = (Return tt, p') /\
    AgentOrchestrator.get_agent (name a) p' = (Return (Some a), p') /\
    (forall other, other <> name a ->
       AgentOrchestrator.get_agent other p'
       = (Return (registry_get other (agents (fst p))), p')) /\
    keys (agents (fst p')) =
      (if existsb (String.eqb (name a)) (keys (agents (fst p)))
       then keys (agents (fst p))
       else (keys (agents (fst p)) ++ [name a])%list) /\
    (NoDup (keys (agents (fst p))) -> NoDup (keys (agents (fst p')))) /\
    running (fst p') = running (fst p) /\
    requests (snd p') = requests (snd p).
Proof.
  eexists. split; [reflexivity|].
  unfold AgentOrchestrator.get_agent. cbn -[keys existsb registry_set registry_get].
  split; [rewrite registry_get_set_same; reflexivity|].
  split; [intros other Hother; rewrite registry_get_set_other by exact Hother; reflexivity|].
  split; [apply keys_registry_set|].
  split; [|split; reflexivity].
  intro Hnodup. rewrite keys_registry_set.
  destruct (existsb (String.eqb (name a)) (keys (agents (fst p)))) eqn:E; [exact Hnodup|].
  apply NoDup_app; [exact Hnodup | repeat constructor; intros [] |].
  intros k Hin [<- | []].
  rewrite (existsb_of_key _ _ Hin) in E. discriminate.
Qed.

Section OneAgent.
Context {py : runtime}.

Ltac branch c :=
  match goal with
  | |- keeps_self (if ?b then ?h ?d else _) =>
      destruct b; [exact (keeps_self_handler c d)|]
  end.

(** What [process_request] leaves of the agent, whether it returns or
    raises. *)
Lemma process_request_self (request_data : dict) (s : state) :
  self (snd (process_request (self s) request_data s)) = count_request (self s).
Proof.
  unfold process_request.
  destruct (class_of (self s));
    [ unfold MarketResearchAgent.process_request
    | unfold TranslationAgent.process_request
    | unfold BusinessIntelligenceAgent.process_request ];
    unfold bind at 1; rewrite log_request_run;
    match goal with
    | |- self (snd (?m ?s1)) = _ =>
        assert (K : keeps_self m); [|rewrite (K s1); reflexivity]
    end;
    apply keeps_self_bind;
    try (intro result; apply keeps_self_bind;
         [apply keeps_self_log_response | intro; apply keeps_self_ret]).
  - branch market_analysis. branch contact_discovery. branch trend_analysis.
    branch opportunity_matching. apply keeps_self_format_error_response.
  - branch text_translation. branch batch_translation. branch cultural_context.
    branch business_etiquette. branch language_detection.
    apply keeps_self_format_error_response.
  - branch user_analytics. branch product_insights. branch market_recommendations.
    branch competitive_analysis. branch growth_opportunities.
    apply keeps_self_format_error_response.
Qed.

(** The registry after a method call on the agent registered under
    [agent_name]. *)
Lemma on_agent_process_request (agent_name : string) (a : agent) (request_data : dict)
    (p : platform) :
  exists result w,
    on_agent agent_name a (process_request a request_data) p =
      (result,
       ({| agents := registry_set agent_name (count_request a) (agents (fst p));
           running := running (fst p) |}, w)).
Proof.
  unfold on_agent.
  pose proof (process_request_self request_data {| self := a; outside := snd p |}) as Hself.
  cbn [self] in Hself.
  destruct (process_request a request_data {| self := a; outside := snd p |}) as [result s'].
  cbn [snd] in Hself. rewrite Hself. eauto.
Qed.

(** X9.  [route_request] never raises, and all it changes of the orchestrator
    is the request counter of the agent it was sent to: the names and
    their order, the other agents and the running flag are as before; a
    request for an unknown name changes nothing. *)
Theorem route_request_touches_one_agent
    (agent_name : string) (request_data : dict) (p : platform) :
  exists envelope p',
    AgentOrchestrator.route_request agent_name request_data p = (Return envelope, p') /\
    keys (agents (fst p')) = keys (agents (fst p)) /\
    running (fst p') = running (fst p) /\
    registry_get agent_name (agents (fst p'))
    = option_map count_request (registry_get agent_name (agents (fst p))) /\
    (forall other, other <> agent_name ->
       registry_get other (agents (fst p')) = registry_get other (agents (fst p))) /\
    (registry_get agent_name (agents (fst p)) = None -> p' = p).
Proof.
  unfold AgentOrchestrator.route_request, AgentOrchestrator.get_agent, bind.
  destruct (registry_get agent_name (agents (fst p))) as [a|] eqn:Hget.
  - unfold try_except.
    destruct (on_agent_process_request agent_name a request_data p) as (result & w & ->).
    assert (Hregistry :
              keys (registry_set agent_name (count_request a) (agents (fst p)))
              = keys (agents (fst p)) /\
              registry_get agent_name (registry_set agent_name (count_request a) (agents (fst p)))
              = Some (count_request a) /\
              forall other, other <> agent_name ->
                registry_get other (registry_set agent_name (count_request a) (agents (fst p)))
                = registry_get other (agents (fst p))).
    { split; [exact (keys_registry_set_known _ _ _ _ Hget)|].
      split; [apply registry_get_set_same|].
      intros other Hother. apply registry_get_set_other. exact Hother. }
    destruct Hregistry as (Hkeys & Hsame & Hothers).
    destruct result as [envelope|e]; do 2 eexists; (split; [reflexivity|]); cbn;
      (split; [exact Hkeys|]); (split; [reflexivity|]); (split; [exact Hsame|]);
      (split; [exact Hothers | discriminate]).
  - do 2 eexists. split; [reflexivity|]. cbn [ret fst snd].
    split; [reflexivity|]. split; [reflexivity|]. split; [exact Hget|].
    split; [reflexivity | reflexivity].
Qed.

End OneAgent.

Section Initialization.
Context {py : runtime}.

(** The platform after [AgentManager._initialize_agents] when the client
    can be built: three readings of the clock, three registrations, four
    lines printed. *)
Lemma initialize_agents_run (o : orchestrator) (w : world) :
  OpenAI = Return tt ->
  exists w',
    _initialize_agents (o, w) =
      (Return true,
       ({| agents :=
             registry_set "BusinessIntelligenceAgent"
               {| class_of := BusinessIntelligence;
                  name := "BusinessIntelligenceAgent";
                  capabilities := ["user_analytics"; "performance_insights";
                                   "recommendations"; "trend_prediction"];
                  created_at := clock w (S (S (clock_reads w)));
                  request_count := 0;
                  supported_languages := [] |}
               (registry_set "TranslationAgent"
                  {| class_of := Translation;
                     name := "TranslationAgent";
                     capabilities := ["text_translation"; "voice_translation";
                                      "cultural_context"; "business_etiquette"];
                     created_at := clock w (S (clock_reads w));
                     request_count := 0;
                     supported_languages := TranslationAgent.language_table |}
                  (registry_set "MarketResearchAgent"
                     {| class_of := MarketResearch;
                        name := "MarketResearchAgent";
                        capabilities := ["market_analysis"; "contact_discovery";
                                         "trend_analysis"; "opportunity_matching"];
                        created_at := clock w (clock_reads w);
                        request_count := 0;
                        supported_languages := [] |}
                     (agents o)));
           running := running o |},
        w')) /\
    requests w' = requests w.
Proof.
  intro Hclient.
  unfold _initialize_agents, try_except, in_world,
    MarketResearchAgent.init, TranslationAgent.init, BusinessIntelligenceAgent.init,
    BaseAgent.init, bind, eval.
  cbn [snd fst]. rewrite Hclient.
  eexists. split; reflexivity.
Qed.

(** The first constructor call fails when no client can be built. *)
Lemma initialize_agents_failure (p : platform) (e : exn) :
  OpenAI = Raise e ->
  _initialize_agents p =
    (Return false,
     (fst p, write (Text ("[AgentManager] Error initializing agents: " ++ str e)) (snd p))).
Proof.
  intro Hclient.
  unfold _initialize_agents, try_except, in_world, MarketResearchAgent.init, BaseAgent.init,
    bind, eval.
  cbn [snd fst]. rewrite Hclient. reflexivity.
Qed.

(** X10.  [AgentManager._initialize_agents] never raises, and what it does
    depends on whether a completion client can be built.  If [OpenAI()]
    returns, the method returns [True], and afterwards the three agents
    are found under their class names, each newly created (no request
    counted, the translation agent with the language table), whatever
    was registered under these names before; the other names, the
    running flag and the request log are untouched.  If [OpenAI()]
    raises, the method returns [False] from its [except] branch: nothing
    is registered, and one line with the error is printed. *)
Theorem initialization_registers_the_three_agents (p : platform) :
  (OpenAI = Return tt ->
   exists p' researcher translator analyst,
     _initialize_agents p = (Return true, p') /\
     (registry_get "MarketResearchAgent" (agents (fst p')) = Some researcher /\
      registry_get "TranslationAgent" (agents (fst p')) = Some translator /\
      registry_get "BusinessIntelligenceAgent" (agents (fst p')) = Some analyst) /\
     (class_of researcher = MarketResearch /\
      class_of translator = Translation /\
      class_of analyst = BusinessIntelligence) /\
     (request_count researcher = 0%Z /\
      request_count translator = 0%Z /\
      request_count analyst = 0%Z) /\
     supported_languages translator = TranslationAgent.language_table /\
     (forall other,
        other <> "MarketResearchAgent" -> other <> "TranslationAgent" ->
        other <> "BusinessIntelligenceAgent" ->
        registry_get other (agents (fst p')) = registry_get other (agents (fst p))) /\
     running (fst p') = running (fst p) /\
     requests (snd p') = requests (snd p)) /\
  (forall e,
     OpenAI = Raise e ->
     _initialize_agents p =
       (Return false,
        (fst p,
         write (Text ("[AgentManager] Error initializing agents: " ++ str e)) (snd p)))).
Proof.
  split; [|intros e Hclient; exact (initialize_agents_failure p e Hclient)].
  intro Hclient.
  destruct p as [o w].
  destruct (initialize_agents_run o w Hclient) as (w' & -> & Hrequests).
  do 4 eexists. split; [reflexivity|]. cbn [fst snd agents running].
  split; [split; [|split]|].
  - rewrite registry_get_set_other by discriminate.
    rewrite registry_get_set_other by discriminate.
    apply registry_get_set_same.
  - rewrite registry_get_set_other by discriminate.
    apply registry_get_set_same.
  - apply registry_get_set_same.
  - split; [repeat split|]. split; [repeat split|]. split; [reflexivity|].
    split; [|split; [reflexivity | exact Hrequests]].
    intros other H1 H2 H3.
    rewrite !registry_get_set_other by assumption. reflexivity.
Qed.

End Initialization.

(** With a client, on an empty orchestrator, the three agents are
    registered; without credentials nothing is. *)
Lemma initialization_registers_the_three_agents_witness :
  (exists p',
     _initialize_agents (py := example_runtime)
       (AgentOrchestrator.init, stubbed (Content "fr")) = (Return true, p') /\
     keys (agents (fst p'))
     = ["MarketResearchAgent"; "TranslationAgent"; "BusinessIntelligenceAgent"]) /\
  _initialize_agents (py := without_credentials)
    (AgentOrchestrator.init, stubbed (Content "fr")) =
    (Return false,
     (AgentOrchestrator.init,
      write (Text "[AgentManager] Error initializing agents: The api_key client option must be set either by passing api_key to the client or by setting the OPENAI_API_KEY environment variable")
        (stubbed (Content "fr")))).
Proof.
  split.
  - destruct (proj1 (initialization_registers_the_three_agents (py := example_runtime)
                       (AgentOrchestrator.init, stubbed (Content "fr"))) eq_refl)
      as (p' & researcher & translator & analyst & Hrun & _).
    exists p'. split; [exact Hrun|].
    vm_compute in Hrun. inversion Hrun. reflexivity.
  - exact (proj2 (initialization_registers_the_three_agents (py := without_credentials)
                    (AgentOrchestrator.init, stubbed (Content "fr")))
             _ eq_refl).
Defined.

(** ** Contact discovery *)

Lemma nonempty_is_truthy (text : string) : text <> "" -> truthy (VStr text) = true.
Proof.
  intro H. simpl. destruct (String.eqb text "") eqn:E; [|reflexivity].
  apply String.eqb_eq in E. contradiction.
Qed.

Section ContactDiscovery.
Context {py : runtime}.

(** With strings for the country, the industry and the contact type the
    generator of sample contacts returns one or two contacts and touches
    nothing. *)
Lemma generate_mock_contacts_pure (country industry contact_type : string) :
  exists first others,
    (forall s,
       MarketResearchAgent._generate_mock_contacts
         (VStr country) (VStr industry) (VStr contact_type) s
       = (Return (VList (first :: others)), s)) /\
    (List.length others <= 1)%nat.
Proof.
  unfold MarketResearchAgent._generate_mock_contacts.
  unfold bind, eval, ret. cbn [py_lower py_title].
  destruct (String.eqb (lower country) "italy");
    [destruct (contains "coffee" (lower industry))|];
    do 2 eexists; (split; [intro s; reflexivity | simpl; lia]).
Qed.

Lemma generate_mock_contacts_run (country industry contact_type : string) (s : state) :
  exists first others,
    MarketResearchAgent._generate_mock_contacts
      (VStr country) (VStr industry) (VStr contact_type) s
    = (Return (VList (first :: others)), s) /\
    (List.length others <= 1)%nat.
Proof.
  destruct (generate_mock_contacts_pure country industry contact_type)
    as (first & others & Hmock & Hlength).
  exists first, others. split; [apply Hmock | exact Hlength].
Qed.

(** The run of [_discover_contacts] on a request with a country, an
    industry and a string for the contact type. *)
Lemma discover_contacts_answers
    (request_data : dict) (country industry contact_type : string) (s : state) :
  dict_get "country" request_data = Some (VStr country) -> country <> "" ->
  dict_get "industry" request_data = Some (VStr industry) -> industry <> "" ->
  get request_data "contact_type" (VStr "buyer") = VStr contact_type ->
  exists contacts total more timestamp s',
    MarketResearchAgent._discover_contacts request_data s =
      (Return
         (success_envelope
            (VDict (("contacts", contacts) :: ("total_found", VInt total) :: more))
            (name (self s)) timestamp),
       s') /\
    py_len contacts = Return total /\
    (json_loads (reply_text (next_completion s)) = JSONDecodeError ->
     exists first others, contacts = VList (first :: others)) /\
    self s' = self s /\
    List.length (requests (outside s')) = S (List.length (requests (outside s))).
Proof.
  intros Hcountry Hcountry' Hindustry Hindustry' Htype.
  unfold MarketResearchAgent._discover_contacts.
  unfold bind at 1. rewrite validate_request_run.
  assert (Hfirst : first_missing request_data ["country"; "industry"] = None).
  { unfold first_missing. simpl. unfold unusable, dict_mem, get.
    rewrite Hcountry, Hindustry.
    rewrite (nonempty_is_truthy _ Hcountry'), (nonempty_is_truthy _ Hindustry').
    reflexivity. }
  rewrite Hfirst. cbn [negb].
  unfold BaseAgent.subscript, eval, py_item. unfold bind at 1. rewrite Hcountry.
  unfold bind at 1. rewrite Hindustry. rewrite Htype.
  unfold try_except at 1. unfold bind at 1.
  match goal with
  | |- context [BaseAgent.call_openai_gpt ?m s] =>
      destruct (call_openai_gpt_returns m s) as (asked_once & -> & Hself & Hrequests & _)
  end.
  apply (f_equal (@List.length _)) in Hrequests.
  rewrite length_app, Nat.add_comm in Hrequests. simpl in Hrequests.
  destruct (json_loads (reply_text (next_completion s))) as [decoded| |refusal].
  - unfold bind at 1. unfold ret at 1. unfold bind at 1.
    destruct (py_len decoded) as [total|e] eqn:Hlen.
    + cbn. rewrite Hself.
      do 5 eexists. split; [reflexivity|]. split; [exact Hlen|].
      split; [discriminate|]. split; [reflexivity | exact Hrequests].
    + destruct (generate_mock_contacts_run country industry contact_type asked_once)
        as (first & others & Hmock & _).
      unfold bind at 1. rewrite Hmock.
      cbn. rewrite Hself.
      do 5 eexists. split; [reflexivity|]. split; [reflexivity|].
      split; [discriminate|]. split; [reflexivity | exact Hrequests].
  - unfold bind at 1. unfold bind at 1.
    destruct (generate_mock_contacts_run country industry contact_type asked_once)
      as (first & others & Hmock & _).
    rewrite Hmock.
    cbn. rewrite Hself.
    do 5 eexists. split; [reflexivity|]. split; [reflexivity|].
    split; [eauto|]. split; [reflexivity | exact Hrequests].
  - unfold bind at 1. unfold raise at 1. unfold bind at 1.
    destruct (generate_mock_contacts_run country industry contact_type asked_once)
      as (first & others & Hmock & _).
    rewrite Hmock.
    cbn. rewrite Hself.
    do 5 eexists. split; [reflexivity|]. split; [reflexivity|].
    split; [discriminate|]. split; [reflexivity | exact Hrequests].
Qed.

(** The same run, with the payload of each of its branches. *)
Lemma discover_contacts_payload
    (request_data : dict) (country industry contact_type : string) (s : state) :
  dict_get "country" request_data = Some (VStr country) -> country <> "" ->
  dict_get "industry" request_data = Some (VStr industry) -> industry <> "" ->
  get request_data "contact_type" (VStr "buyer") = VStr contact_type ->
  exists first others payload timestamp s',
    (forall s0,
       MarketResearchAgent._generate_mock_contacts
         (VStr country) (VStr industry) (VStr contact_type) s0
       = (Return (VList (first :: others)), s0)) /\
    (List.length others <= 1)%nat /\
    MarketResearchAgent._discover_contacts request_data s =
      (Return (success_envelope (VDict payload) (name (self s)) timestamp), s') /\
    payload = discovered request_data (first :: others)
                (json_loads (reply_text (next_completion s))) /\
    self s' = self s /\
    List.length (requests (outside s')) = S (List.length (requests (outside s))) /\
    completions (outside s') = completions (outside s).
Proof.
  intros Hcountry Hcountry' Hindustry Hindustry' Htype.
  destruct (generate_mock_contacts_pure country industry contact_type)
    as (first & others & Hmock & Hlength).
  exists first, others.
  unfold MarketResearchAgent._discover_contacts.
  unfold bind at 1. rewrite validate_request_run.
  assert (Hfirst : first_missing request_data ["country"; "industry"] = None).
  { unfold first_missing. simpl. unfold unusable, dict_mem, get.
    rewrite Hcountry, Hindustry.
    rewrite (nonempty_is_truthy _ Hcountry'), (nonempty_is_truthy _ Hindustry').
    reflexivity. }
  rewrite Hfirst. cbn [negb].
  unfold BaseAgent.subscript, eval, py_item. unfold bind at 1. rewrite Hcountry.
  unfold bind at 1. rewrite Hindustry. rewrite Htype.
  unfold try_except at 1. unfold bind at 1.
  match goal with
  | |- context [BaseAgent.call_openai_gpt ?m s] =>
      destruct (call_openai_gpt_returns m s)
        as (asked_once & -> & Hself & Hrequests & Hcompletions)
  end.
  apply (f_equal (@List.length _)) in Hrequests.
  rewrite length_app, Nat.add_comm in Hrequests. simpl in Hrequests.
  assert (Hcountry_or : get request_data "country" VNone = VStr country)
    by (unfold get; rewrite Hcountry; reflexivity).
  assert (Hindustry_or : get request_data "industry" VNone = VStr industry)
    by (unfold get; rewrite Hindustry; reflexivity).
  unfold discovered. rewrite Hcountry_or, Hindustry_or, Htype. cbn [List.length].
  destruct (json_loads (reply_text (next_completion s))) as [decoded| |refusal].
  - unfold bind at 1. unfold ret at 1. unfold bind at 1.
    destruct (py_len decoded) as [total|e] eqn:Hlen.
    + cbn. rewrite Hself.
      do 3 eexists. split; [exact Hmock|]. split; [exact Hlength|].
      repeat split; assumption.
    + unfold bind at 1. rewrite Hmock.
      cbn. rewrite Hself.
      do 3 eexists. split; [exact Hmock|]. split; [exact Hlength|].
      repeat split; assumption.
  - unfold bind at 1. unfold bind at 1. rewrite Hmock.
    cbn. rewrite Hself.
    do 3 eexists. split; [exact Hmock|]. split; [exact Hlength|].
    repeat split; assumption.
  - unfold bind at 1. unfold raise at 1. unfold bind at 1. rewrite Hmock.
    cbn. rewrite Hself.
    do 3 eexists. split; [exact Hmock|]. split; [exact Hlength|].
    repeat split; assumption.
Qed.

(** X11.  Contact discovery with a country and an industry (non-empty
    strings) and a string for the contact type always answers with a
    success envelope that holds contacts and their number, after one
    completion request.  The contacts are the decoded completion when it
    has a length; in every other case they are the sample contacts of
    [_generate_mock_contacts] for the request, a list of one or two: the
    completion is no JSON document (the payload then has the search
    criteria, as for decoded contacts), or it decodes to a value without
    a length, or the decoder raises something else (the payload then has
    the note "Using sample data due to API limitations"). *)
Theorem contact_discovery_always_answers
    (request_data : dict) (country industry contact_type : string) (s : state) :
  dict_get "country" request_data = Some (VStr country) -> country <> "" ->
  dict_get "industry" request_data = Some (VStr industry) -> industry <> "" ->
  get request_data "contact_type" (VStr "buyer") = VStr contact_type ->
  exists payload contacts total timestamp s' first others,
    MarketResearchAgent._discover_contacts request_data s =
      (Return (success_envelope (VDict payload) (name (self s)) timestamp), s') /\
    dict_get "contacts" payload = Some contacts /\
    dict_get "total_found" payload = Some (VInt total) /\
    py_len contacts = Return total /\
    (forall s0,
       MarketResearchAgent._generate_mock_contacts
         (VStr country) (VStr industry) (VStr contact_type) s0
       = (Return (VList (first :: others)), s0)) /\
    (List.length others <= 1)%nat /\
    payload = discovered request_data (first :: others)
                (json_loads (reply_text (next_completion s))) /\
    List.length (requests (outside s')) = S (List.length (requests (outside s))).
Proof.
  intros Hcountry Hcountry' Hindustry Hindustry' Htype.
  destruct (discover_contacts_answers request_data country industry contact_type s
              Hcountry Hcountry' Hindustry Hindustry' Htype)
    as (contacts & total & more & timestamp & s' & Hrun & Hlen & _ & _ & Hrequests).
  destruct (discover_contacts_payload request_data country industry contact_type s
              Hcountry Hcountry' Hindustry Hindustry' Htype)
    as (first & others & payload & timestamp' & s'' & Hmock & Hlength & Hrun' & Hpayload & _).
  rewrite Hrun in Hrun'. inversion Hrun'; subst timestamp' s''.
  exists (("contacts", contacts) :: ("total_found", VInt total) :: more),
    contacts, total, timestamp, s', first, others.
  split; [exact Hrun|]. split; [reflexivity|]. split; [reflexivity|].
  split; [exact Hlen|]. split; [exact Hmock|]. split; [exact Hlength|].
  split; [|exact Hrequests]. rewrite <- Hpayload. assumption.
Qed.

End ContactDiscovery.

(** Contacts in Japan while the completion service is unreachable: the
    one sample contact, with the search criteria. *)
Lemma contact_discovery_always_answers_witness :
  exists timestamp s',
    MarketResearchAgent._discover_contacts (py := example_runtime)
      [("type", VStr "contact_discovery"); ("country", VStr "Japan");
       ("industry", VStr "Green Tea")]
      {| self := example_researcher;
         outside := stubbed (Failure (Exception "APIConnectionError" "Connection error.")) |} =
      (Return
         (success_envelope
            (VDict [("contacts",
                     VList [VDict [("company_name", VStr "Global Green Tea Corp");
                                   ("contact_person", VStr "John Smith");
                                   ("position", VStr "Buyer Manager");
                                   ("email", VStr "j.smith@globalgreentea.com");
                                   ("phone", VStr "+1 555 123 4567");
                                   ("address", VStr "123 Business St, Japan");
                                   ("company_size", VStr "100-500 employees");
                                   ("website", VStr "https://globalgreentea.com");
                                   ("description",
                                    VStr "Leading Green Tea company in Japan");
                                   ("verified", VBool true);
                                   ("industry", VStr "Green Tea");
                                   ("country", VStr "Japan")]]);
                    ("total_found", VInt 1);
                    ("search_criteria",
                     VDict [("country", VStr "Japan");
                            ("industry", VStr "Green Tea");
                            ("company_size", VStr "any");
                            ("contact_type", VStr "buyer")])])
            "MarketResearchAgent" timestamp),
       s') /\
    List.length (requests (outside s')) = 1%nat.
Proof.
  destruct (contact_discovery_always_answers (py := example_runtime)
              [("type", VStr "contact_discovery"); ("country", VStr "Japan");
               ("industry", VStr "Green Tea")]
              "Japan" "Green Tea" "buyer"
              {| self := example_researcher;
                 outside := stubbed (Failure (Exception "APIConnectionError"
                                                "Connection error.")) |}
              eq_refl ltac:(discriminate) eq_refl ltac:(discriminate) eq_refl)
    as (payload & contacts & total & timestamp & s' & first & others
        & Hrun & _ & _ & _ & Hmock & _ & Hpayload & Hrequests).
  exists timestamp, s'. split; [|exact Hrequests].
  rewrite Hrun, Hpayload.
  specialize (Hmock {| self := example_researcher; outside := stubbed (Content "") |}).
  vm_compute in Hmock. inversion Hmock; subst first others. reflexivity.
Defined.

(** ** The count of a batch *)

Lemma count_successes_counts (items entries : list value) (i : Z) :
  entries_from i items entries ->
  count_successes entries
  = Return (Z.of_nat (List.length (filter reports_success entries))).
Proof.
  revert entries i.
  induction items as [|text items IH]; intros [|entry entries] i H; simpl in H;
    try contradiction.
  - reflexivity.
  - destruct H as [(fields & -> & _ & _ & Hflag) Hrest].
    cbn [count_successes filter py_item]. unfold reports_success at 1. cbn [py_item].
    rewrite (IH _ _ Hrest).
    destruct Hflag as [[Hs _] | [Hs _]]; rewrite Hs; cbn [truthy].
    + cbn [List.length]. apply f_equal. lia.
    + reflexivity.
Qed.

Section BatchCount.
Context {py : runtime}.

(** X12.  In the answer to a batch of N texts, [successful_translations] is
    the number of entries whose [success] is true, so it never exceeds
    [total_texts], which is N; the entries that failed are in the list
    all the same. *)
Theorem batch_counts_its_successes
    (request_data : dict) (items : list value) (s : state) :
  dict_get "texts" request_data = Some (VList items) ->
  items <> [] ->
  truthy (get request_data "target_language" VNone) = true ->
  exists translations timestamp s',
    TranslationAgent._batch_translate request_data s =
      (Return
         (success_envelope
            (VDict [("translations", VList translations);
                    ("total_texts", VInt (Z.of_nat (List.length items)));
                    ("successful_translations",
                     VInt (Z.of_nat (List.length (filter reports_success translations))));
                    ("target_language", get request_data "target_language" VNone)])
            (name (self s)) timestamp),
       s') /\
    (List.length (filter reports_success translations) <= List.length items)%nat.
Proof.
  intros Htexts Hitems Htarget.
  unfold TranslationAgent._batch_translate.
  unfold bind at 1. rewrite validate_request_run.
  assert (Hfirst : first_missing request_data ["texts"; "target_language"] = None).
  { unfold first_missing. simpl. unfold unusable, dict_mem, get in *.
    rewrite Htexts. destruct (dict_get "target_language" request_data); [|discriminate].
    rewrite Htarget. destruct items; [contradiction|reflexivity]. }
  rewrite Hfirst. cbn [negb].
  unfold BaseAgent.subscript, eval, py_item. unfold bind at 1. rewrite Htexts.
  unfold bind at 1.
  assert (Hsome : exists target, dict_get "target_language" request_data = Some target).
  { unfold get in Htarget. destruct (dict_get "target_language" request_data); [eauto|discriminate]. }
  destruct Hsome as (target & Hsome). rewrite Hsome. unfold bind at 1.
  destruct (batch_loop request_data target (get request_data "source_language" (VStr "auto"))
              items 0%Z [] s) as (entries & s1 & Hloop & Hentries).
  rewrite Hloop. simpl app.
  unfold bind at 1. rewrite (count_successes_counts _ _ _ Hentries).
  assert (Hself : self s1 = self s).
  { pose proof (keeps_self_for_each
                  (TranslationAgent.translate_element request_data target
                     (get request_data "source_language" (VStr "auto")))
                  (enumerate_from 0 items) []
                  (fun element c => keeps_self_translate_element _ _ _ element c) s) as K.
    rewrite Hloop in K. exact K. }
  exists entries. unfold get. rewrite Hsome.
  do 2 eexists. split; [cbn -[filter]; rewrite Hself; reflexivity|].
  rewrite <- (entries_from_length _ _ _ Hentries). apply filter_length_le.
Qed.

End BatchCount.

(** Three texts, the second one empty: two successes out of three. *)
Lemma batch_counts_its_successes_witness :
  exists translations timestamp s',
    TranslationAgent._batch_translate (py := example_runtime)
      [("type", VStr "batch_translation");
       ("texts", VList [VStr "Good morning"; VStr ""; VStr "Thank you"]);
       ("target_language", VStr "fr"); ("source_language", VStr "en")]
      {| self := example_translator; outside := stubbed (Content "Bonjour") |} =
      (Return
         (success_envelope
            (VDict [("translations", VList translations);
                    ("total_texts", VInt 3);
                    ("successful_translations",
                     VInt (Z.of_nat (List.length (filter reports_success translations))));
                    ("target_language", VStr "fr")])
            "TranslationAgent" timestamp),
       s') /\
    (List.length (filter reports_success translations) <= 3)%nat.
Proof.
  apply (batch_counts_its_successes (py := example_runtime)
           [("type", VStr "batch_translation");
            ("texts", VList [VStr "Good morning"; VStr ""; VStr "Thank you"]);
            ("target_language", VStr "fr"); ("source_language", VStr "en")]
           [VStr "Good morning"; VStr ""; VStr "Thank you"]
           {| self := example_translator; outside := stubbed (Content "Bonjour") |}).
  - reflexivity.
  - discriminate.
  - reflexivity.
Defined.

(** ** Opportunity matching without a JSON answer *)

Section OpportunityFallback.
Context {py : runtime}.

(** One product, no target countries, an answer that is not JSON: the
    loop body appends its fallback opportunity. *)
Lemma opportunities_for_fallback
    (target_countries : value) (product : dict) (opportunities : list value) (s : state) :
  truthy target_countries = false ->
  json_loads (reply_text (next_completion s)) = JSONDecodeError ->
  exists fallback after,
    MarketResearchAgent.opportunities_for target_countries (VDict product) opportunities s
    = (Return (opportunities ++ [VDict fallback])%list, after) /\
    dict_get "matched_product" fallback = Some (VDict product) /\
    dict_get "confidence" fallback = Some (VInt 70) /\
    self after = self s /\
    completions (outside after) = completions (outside s) /\
    List.length (requests (outside after)) = S (List.length (requests (outside s))).
Proof.
  intros Hfalsy Hjson.
  unfold MarketResearchAgent.opportunities_for.
  cbn [py_get]. unfold eval at 1 2. unfold bind at 1 2. rewrite Hfalsy.
  unfold bind at 1. unfold ret at 1. unfold bind at 1. unfold try_except at 1.
  unfold bind at 1.
  match goal with
  | |- context [BaseAgent.call_openai_gpt ?m s] =>
      destruct (call_openai_gpt_returns m s) as (after & -> & Hself & Hrequests & Hcompletions)
  end.
  rewrite Hjson. cbn [ret].
  do 2 eexists. split; [reflexivity|].
  split; [reflexivity|]. split; [reflexivity|]. split; [exact Hself|].
  split; [exact Hcompletions|].
  rewrite Hrequests, length_app. simpl. lia.
Qed.

Lemma opportunities_loop (target_countries : value) (products : list dict) :
  truthy target_countries = false ->
  forall (opportunities : list value) (s : state),
    (forall n, json_loads (reply_text (completions (outside s) n)) = JSONDecodeError) ->
    exists added after,
      for_each (MarketResearchAgent.opportunities_for target_countries)
        (map VDict products) opportunities s
      = (Return (opportunities ++ added)%list, after) /\
      Forall2 (fun product opportunity =>
                 exists fallback,
                   opportunity = VDict fallback /\
                   dict_get "matched_product" fallback = Some (VDict product) /\
                   dict_get "confidence" fallback = Some (VInt 70))
              products added /\
      self after = self s /\
      List.length (requests (outside after))
      = (List.length (requests (outside s)) + List.length products)%nat.
Proof.
  intro Hfalsy.
  induction products as [|product products IH]; intros opportunities s Hprose;
    cbn [map for_each].
  - exists [], s. rewrite app_nil_r. split; [reflexivity|].
    split; [constructor|]. split; [reflexivity | simpl; lia].
  - unfold bind at 1.
    destruct (opportunities_for_fallback target_countries product opportunities s
                Hfalsy (Hprose _))
      as (fallback & s1 & -> & Hmatched & Hconfidence & Hself & Hcompletions & Hrequests).
    destruct (IH (opportunities ++ [VDict fallback])%list s1) as (added & s2 & -> & Hall & Hself' & Hrequests').
    { intro n. rewrite Hcompletions. apply Hprose. }
    exists (VDict fallback :: added), s2. rewrite <- app_assoc.
    split; [reflexivity|].
    split; [constructor; [eauto | exact Hall]|].
    split; [congruence|]. rewrite Hrequests', Hrequests. simpl. lia.
Qed.

(** X13.  When the completion service answers in prose (or fails) every time,
    opportunity matching over N products, with no target countries
    named, still succeeds: one request per product, and one generated
    opportunity per product, in order, each with the product as
    [matched_product] and the fixed confidence 70. *)
Theorem opportunity_matching_falls_back_per_product
    (request_data : dict) (products : list dict) (s : state) :
  dict_get "products" request_data = Some (VList (map VDict products)) ->
  products <> [] ->
  truthy (get request_data "target_countries" (VList [])) = false ->
  (forall n, json_loads (reply_text (completions (outside s) n)) = JSONDecodeError) ->
  exists opportunities timestamp s',
    MarketResearchAgent._match_opportunities request_data s =
      (Return
         (success_envelope
            (VDict [("opportunities", VList opportunities);
                    ("total_found", VInt (Z.of_nat (List.length products)));
                    ("products_analyzed", VInt (Z.of_nat (List.length products)))])
            (name (self s)) timestamp),
       s') /\
    Forall2 (fun product opportunity =>
               exists fallback,
                 opportunity = VDict fallback /\
                 dict_get "matched_product" fallback = Some (VDict product) /\
                 dict_get "confidence" fallback = Some (VInt 70))
            products opportunities /\
    List.length (requests (outside s'))
    = (List.length (requests (outside s)) + List.length products)%nat.
Proof.
  intros Hproducts Hsome Hfalsy Hprose.
  unfold MarketResearchAgent._match_opportunities.
  unfold bind at 1. rewrite validate_request_run.
  assert (Hfirst : first_missing request_data ["products"] = None).
  { unfold first_missing. simpl. unfold unusable, dict_mem, get.
    rewrite Hproducts. destruct products; [contradiction|reflexivity]. }
  rewrite Hfirst. cbn [negb].
  unfold BaseAgent.subscript, eval, py_item. unfold bind at 1. rewrite Hproducts.
  cbn [py_iter]. unfold bind at 1. unfold bind at 1.
  destruct (opportunities_loop _ products Hfalsy [] s Hprose)
    as (added & s1 & -> & Hall & Hself & Hrequests).
  cbn [app]. unfold bind at 1. cbn [py_len].
  pose proof (Forall2_length Hall) as Hlength.
  cbn. rewrite Hself, length_map, <- Hlength.
  do 3 eexists. split; [reflexivity|]. split; [exact Hall | exact Hrequests].
Qed.

End OpportunityFallback.

(** Two products while the service answers in prose. *)
Lemma opportunity_matching_falls_back_per_product_witness :
  exists opportunities timestamp s',
    MarketResearchAgent._match_opportunities (py := example_runtime)
      [("type", VStr "opportunity_matching");
       ("products", VList [VDict [("name", VStr "Arabica beans")];
                           VDict [("name", VStr "Green tea")]])]
      {| self := example_researcher; outside := stubbed (Content "No idea.") |} =
      (Return
         (success_envelope
            (VDict [("opportunities", VList opportunities);
                    ("total_found", VInt 2);
                    ("products_analyzed", VInt 2)])
            "MarketResearchAgent" timestamp),
       s') /\
    Forall2 (fun product opportunity =>
               exists fallback,
                 opportunity = VDict fallback /\
                 dict_get "matched_product" fallback = Some (VDict product) /\
                 dict_get "confidence" fallback = Some (VInt 70))
            [[("name", VStr "Arabica beans")]; [("name", VStr "Green tea")]]
            opportunities /\
    List.length (requests (outside s')) = 2%nat.
Proof.
  apply (opportunity_matching_falls_back_per_product (py := example_runtime)
           [("type", VStr "opportunity_matching");
            ("products", VList [VDict [("name", VStr "Arabica beans")];
                                VDict [("name", VStr "Green tea")]])]
           [[("name", VStr "Arabica beans")]; [("name", VStr "Green tea")]]
           {| self := example_researcher; outside := stubbed (Content "No idea.") |}).
  - reflexivity.
  - discriminate.
  - reflexivity.
  - intro n. reflexivity.
Defined.

(** ** The other methods of [BaseAgent] *)

(** X14.  [BaseAgent.translate_text] returns what the completion call returns
    and never raises, so the handler of its [try], which would return
    the original text, is never entered: when the client fails, the
    caller gets the text of the error as the translation. *)
Theorem translate_text_returns_the_answer
    (text target_language source_language : string) (s : state) :
  exists s',
    BaseAgentMethods.translate_text text target_language source_language s
    = (Return (reply_text (next_completion s)), s') /\
    (forall e, next_completion s = Failure e ->
       fst (BaseAgentMethods.translate_text text target_language source_language s)
       = Return ("Error: Unable to process request - " ++ str e)) /\
    self s' = self s /\
    List.length (requests (outside s')) = S (List.length (requests (outside s))).
Proof.
  unfold BaseAgentMethods.translate_text, try_except.
  match goal with
  | |- context [BaseAgent.call_openai_gpt ?m s] =>
      destruct (call_openai_gpt_returns m s) as (after & -> & Hself & Hrequests & _)
  end.
  eexists. split; [reflexivity|].
  split; [intros e ->; reflexivity|]. split; [exact Hself|].
  rewrite Hrequests, length_app. simpl. lia.
Qed.




(** ** The other methods of [AgentOrchestrator] *)

Lemma agent_info_of_registered (r : registry) (agent_name : string) :
  dict_get agent_name
    (map (fun entry => (fst entry, BaseAgentMethods.get_agent_info (snd entry))) r)
  = option_map BaseAgentMethods.get_agent_info (registry_get agent_name r).
Proof.
  induction r as [|[k a] rest IH]; simpl; [reflexivity|].
  destruct (String.eqb k agent_name); [reflexivity | exact IH].
Qed.

(** X16.  The system status reads the clock once and changes nothing else.
    [total_agents] is the number of registered agents and [agents] has,
    under each registered name and in registration order, the
    information of that agent with its request count so far;
    [orchestrator_status] is "active" after [start] and "inactive" after
    [stop], neither of which touches the registry. *)
Theorem system_status_reports_the_registry (p : platform) :
  (exists infos,
     OrchestratorMethods.get_system_status p =
       (Return (VDict [("orchestrator_status",
                        VStr (if running (fst p) then "active" else "inactive"));
                       ("total_agents", VInt (Z.of_nat (List.length (agents (fst p)))));
                       ("agents", VDict infos);
                       ("timestamp", VStr (clock (snd p) (clock_reads (snd p))))]),
        (fst p, tick (snd p))) /\
     keys infos = keys (agents (fst p)) /\
     forall agent_name,
       dict_get agent_name infos
       = option_map BaseAgentMethods.get_agent_info
           (registry_get agent_name (agents (fst p)))) /\
  (exists status p',
     (AgentOrchestrator.start ;; OrchestratorMethods.get_system_status) p
     = (Return (VDict status), p') /\
     dict_get "orchestrator_status" status = Some (VStr "active") /\
     agents (fst p') = agents (fst p)) /\
  (exists status p',
     (AgentOrchestrator.stop ;; OrchestratorMethods.get_system_status) p
     = (Return (VDict status), p') /\
     dict_get "orchestrator_status" status = Some (VStr "inactive") /\
     agents (fst p') = agents (fst p)).
Proof.
  split; [|split].
  - eexists. split; [reflexivity|]. split.
    + unfold keys. rewrite map_map. reflexivity.
    + apply agent_info_of_registered.
  - do 2 eexists. split; [reflexivity|]. split; reflexivity.
  - do 2 eexists. split; [reflexivity|]. split; reflexivity.
Qed.

Lemma dict_mem_set (key other : string) (v : value) (d : dict) :
  dict_mem key (dict_set other v d) = String.eqb other key || dict_mem key d.
Proof.
  unfold dict_mem.
  induction d as [|[k x] rest IH]; simpl.
  - destruct (String.eqb other key); reflexivity.
  - destruct (String.eqb k other) eqn:E; simpl.
    + apply String.eqb_eq in E. subst k.
      destruct (String.eqb other key); reflexivity.
    + destruct (String.eqb k key) eqn:E'; [|exact IH].
      rewrite orb_true_r. reflexivity.
Qed.

Lemma registry_set_keeps_keys (agent_name : string) (a : agent) (r : registry) :
  In agent_name (keys r) -> keys (registry_set agent_name a r) = keys r.
Proof.
  intro Hin. rewrite keys_registry_set, (existsb_of_key _ _ Hin). reflexivity.
Qed.

Section Broadcast.
Context {py : runtime}.

(** One iteration of the loop of [broadcast_request]: it returns, with a
    result under the agent's name, and the agent is counted. *)
Lemma ask_agent_run (request_data : dict) (registered_as : string) (a : agent)
    (results : dict) (p : platform) :
  exists result w,
    OrchestratorMethods.ask_agent request_data (registered_as, a) results p =
      (Return (dict_set (name a) result results),
       ({| agents := registry_set registered_as (count_request a) (agents (fst p));
           running := running (fst p) |}, w)).
Proof.
  unfold OrchestratorMethods.ask_agent, try_except. unfold bind at 1.
  destruct (on_agent_process_request registered_as a request_data p)
    as ([result|e] & w & ->); do 2 eexists; reflexivity.
Qed.

Lemma broadcast_loop (request_data : dict) (matching : registry) :
  forall (results : dict) (p : platform),
    (forall entry, In entry matching -> In (fst entry) (keys (agents (fst p)))) ->
    exists results' p',
      for_each (OrchestratorMethods.ask_agent request_data) matching results p
      = (Return results', p') /\
      (forall key, dict_mem key results = true -> dict_mem key results' = true) /\
      (forall entry, In entry matching -> dict_mem (name (snd entry)) results' = true) /\
      keys (agents (fst p')) = keys (agents (fst p)) /\
      running (fst p') = running (fst p) /\
      (forall other, ~ In other (keys matching) ->
         registry_get other (agents (fst p')) = registry_get other (agents (fst p))) /\
      (NoDup (keys matching) ->
       forall entry, In entry matching ->
         registry_get (fst entry) (agents (fst p')) = Some (count_request (snd entry))).
Proof.
  induction matching as [|[registered_as a] matching IH]; intros results p Hknown;
    cbn [for_each].
  - exists results, p. split; [reflexivity|].
    split; [tauto|]. split; [intros entry []|]. split; [reflexivity|].
    split; [reflexivity|]. split; [reflexivity|]. intros _ entry [].
  - unfold bind at 1.
    destruct (ask_agent_run request_data registered_as a results p) as (result & w & ->).
    assert (Hin : In registered_as (keys (agents (fst p))))
      by exact (Hknown (registered_as, a) (or_introl eq_refl)).
    match goal with
    | |- context [for_each _ matching ?r ?q] =>
        destruct (IH r q) as (results' & p' & -> & Hkept & Hnamed & Hkeys & Hrunning
                              & Hothers & Hcounted)
    end.
    { intros entry Hentry. cbn [fst agents].
      rewrite (registry_set_keeps_keys _ _ _ Hin).
      apply Hknown. right. exact Hentry. }
    cbn [fst agents running] in Hkeys, Hrunning, Hothers.
    exists results', p'. split; [reflexivity|].
    split; [|split; [|split; [|split; [|split]]]].
    + intros key Hkey. apply Hkept. rewrite dict_mem_set, Hkey. apply orb_true_r.
    + intros entry [<- | Hentry]; [|exact (Hnamed entry Hentry)].
      apply Hkept. rewrite dict_mem_set. cbn [snd]. rewrite String.eqb_refl. reflexivity.
    + rewrite Hkeys. exact (registry_set_keeps_keys _ _ _ Hin).
    + exact Hrunning.
    + intros other Hother. cbn [keys map fst] in Hother.
      rewrite Hothers by (intro K; apply Hother; right; exact K).
      apply registry_get_set_other. intros ->. apply Hother. left. reflexivity.
    + intros Hnodup entry Hentry. cbn [keys map fst] in Hnodup.
      inversion Hnodup as [|? ? Hfresh Hnodup']; subst.
      destruct Hentry as [<- | Hentry].
      * cbn [fst snd]. rewrite Hothers by exact Hfresh. apply registry_get_set_same.
      * exact (Hcounted Hnodup' entry Hentry).
Qed.

(** X17.  A broadcast never raises.  When no registered agent has one of the
    capabilities, it returns an error and changes nothing.  Otherwise it
    reports success, whatever the agents answered or raised:
    [agents_contacted] is the number of matching agents, [results] has
    an entry under the name of each of them, and each is counted one
    more request; an agent that raises does not stop the others.  The
    names of the registry stay, and an agent that did not match is not
    touched. *)
Theorem broadcast_reaches_every_matching_agent
    (request_data : dict) (agent_capabilities : list string) (p : platform) :
  let matching := OrchestratorMethods.matching_agents agent_capabilities (agents (fst p)) in
  (matching = [] ->
   OrchestratorMethods.broadcast_request request_data agent_capabilities p =
     (Return (VDict [("success", VBool false);
                     ("error",
                      VStr ("No agents found with capabilities: "
                            ++ format (VList (map VStr agent_capabilities))))]),
      p)) /\
  (matching <> [] ->
   exists results p',
     OrchestratorMethods.broadcast_request request_data agent_capabilities p =
       (Return (VDict [("success", VBool true);
                       ("results", VDict results);
                       ("agents_contacted", VInt (Z.of_nat (List.length matching)))]),
        p') /\
     (forall entry, In entry matching -> dict_mem (name (snd entry)) results = true) /\
     keys (agents (fst p')) = keys (agents (fst p)) /\
     running (fst p') = running (fst p) /\
     (forall other, ~ In other (keys matching) ->
        registry_get other (agents (fst p')) = registry_get other (agents (fst p))) /\
     (NoDup (keys (agents (fst p))) ->
      forall entry, In entry matching ->
        registry_get (fst entry) (agents (fst p')) = Some (count_request (snd entry)))).
Proof.
  intro matching. unfold OrchestratorMethods.broadcast_request. fold matching.
  split.
  - intros ->. reflexivity.
  - intro Hsome.
    destruct (broadcast_loop request_data matching [] p)
      as (results & p' & Hloop & _ & Hnamed & Hkeys & Hrunning & Hothers & Hcounted).
    { intros entry Hentry. apply in_map. unfold matching, OrchestratorMethods.matching_agents in Hentry.
      apply filter_In in Hentry. tauto. }
    exists results, p'.
    split.
    { destruct matching as [|first others] eqn:E; [contradiction|].
      unfold bind. rewrite Hloop. reflexivity. }
    split; [exact Hnamed|]. split; [exact Hkeys|]. split; [exact Hrunning|].
    split; [exact Hothers|].
    intro Hnodup. apply Hcounted.
    unfold matching, OrchestratorMethods.matching_agents.
    clear - Hnodup. induction (agents (fst p)) as [|[k a] rest IH]; [constructor|].
    cbn [keys map fst] in Hnodup. inversion Hnodup as [|? ? Hfresh Hnodup']; subst.
    cbn [filter]. destruct (OrchestratorMethods.has_capability agent_capabilities (snd (k, a))).
    + cbn [keys map fst]. constructor; [|exact (IH Hnodup')].
      intro K. apply Hfresh. unfold keys in K. apply in_map_iff in K.
      destruct K as (entry & <- & Hentry). apply filter_In in Hentry.
      apply in_map. tauto.
    + exact (IH Hnodup').
Qed.

End Broadcast.

(** On the booted platform the capability "cultural_context" belongs to
    the translation agent alone, and "contact_discovery" together with
    it reaches two agents. *)
Lemma broadcast_reaches_every_matching_agent_witness :
  exists results p',
    OrchestratorMethods.broadcast_request (py := example_runtime)
      [("type", VStr "language_detection"); ("text", VStr "Bonjour")]
      ["contact_discovery"; "cultural_context"] (booted (Content "fr")) =
      (Return (VDict [("success", VBool true);
                      ("results", VDict results);
                      ("agents_contacted", VInt 2)]),
       p') /\
    keys results = ["MarketResearchAgent"; "TranslationAgent"] /\
    keys (agents (fst p')) =
      ["MarketResearchAgent"; "TranslationAgent"; "BusinessIntelligenceAgent"] /\
    option_map request_count (registry_get "MarketResearchAgent" (agents (fst p'))) = Some 1%Z /\
    option_map request_count (registry_get "TranslationAgent" (agents (fst p'))) = Some 1%Z /\
    option_map request_count (registry_get "BusinessIntelligenceAgent" (agents (fst p')))
    = Some 0%Z.
Proof.
  destruct (proj2 (broadcast_reaches_every_matching_agent (py := example_runtime)
                     [("type", VStr "language_detection"); ("text", VStr "Bonjour")]
                     ["contact_discovery"; "cultural_context"] (booted (Content "fr"))))
    as (results & p' & Hrun & _).
  - discriminate.
  - rewrite Hrun. vm_compute in Hrun. inversion Hrun; subst.
    do 2 eexists. split; [reflexivity|]. repeat split.
Defined.

(** ** Chat messages *)

Section ChatTranslation.
Context {py : runtime}.

(** With strings for the text and the target language, [_translate_text]
    returns: a success envelope with a [translated_text], or an error
    envelope. *)
Lemma translate_text_of_strings (request_data : dict) (text target : string) (s : state) :
  dict_get "text" request_data = Some (VStr text) ->
  dict_get "target_language" request_data = Some (VStr target) ->
  exists envelope s',
    TranslationAgent._translate_text request_data s = (Return envelope, s') /\
    translation_envelope envelope.
Proof.
  intros Htext Htarget.
  destruct (TranslationAgent._translate_text request_data s) as [[envelope|e] s'] eqn:Hrun.
  - exists envelope, s'. split; [reflexivity|].
    exact (translate_text_envelope request_data s envelope s' Hrun).
  - exfalso. revert Hrun.
    unfold TranslationAgent._translate_text.
    unfold bind at 1. rewrite validate_request_run.
    destruct (first_missing request_data ["text"; "target_language"]);
      [cbn; discriminate|].
    cbn [negb]. unfold BaseAgent.subscript, eval, py_item.
    unfold bind at 1. rewrite Htext. unfold bind at 1. rewrite Htarget.
    unfold bind at 1. unfold get_self at 1. unfold bind at 1. cbn [self py_in].
    destruct (existsb (String.eqb target) (keys (supported_languages (self s)))) eqn:Hknown;
      [|cbn; discriminate].
    cbn [negb]. unfold try_except at 1.
    match goal with
    | |- match ?run with _ => _ end = _ -> _ =>
        destruct run as [[v|e'] s1]; [discriminate|]
    end.
    cbn. discriminate.
Qed.

(** A chat message between two different languages: one request is
    counted, and the answer is made of the envelope of the translation. *)
Lemma chat_translation_between_languages
    (message sender_language receiver_language : string) (s : state) :
  sender_language <> receiver_language ->
  exists answer s',
    TranslationAgentMethods.translate_message_for_chat
      message sender_language receiver_language s
    = (Return (VDict answer), s') /\
    dict_get "original" answer = Some (VStr message) /\
    self s' = count_request (self s) /\
    dict_get "needs_translation" answer = Some (VBool true) /\
    (dict_mem "error" answer = true ->
     dict_get "translated" answer = Some (VStr message)).
Proof.
  intro Hdiff. apply String.eqb_neq in Hdiff.
  unfold TranslationAgentMethods.translate_message_for_chat. rewrite Hdiff.
  unfold bind at 1. unfold TranslationAgent.process_request.
  unfold bind at 1. rewrite log_request_run.
  cbn [get dict_get is_str String.eqb Ascii.eqb Bool.eqb].
  unfold bind at 1.
  match goal with
  | |- context [TranslationAgent._translate_text ?d ?s1] =>
      destruct (translate_text_of_strings d message receiver_language s1 eq_refl eq_refl)
        as (envelope & s2 & Hrun & Henvelope);
      pose proof (keeps_self_translate_text d s1) as Hself;
      rewrite Hrun in *
  end.
  cbn [snd self] in Hself.
  destruct Henvelope
    as [(data & agent_name & timestamp & translated & -> & Hdata)
       |(error_message & agent_name & timestamp & ->)].
  - cbn. rewrite Hdata. do 2 eexists. split; [reflexivity|].
    split; [reflexivity|]. split; [exact Hself|]. split; [reflexivity | discriminate].
  - cbn. do 2 eexists. split; [reflexivity|].
    split; [reflexivity|]. split; [exact Hself|]. split; reflexivity.
Qed.

(** The answer to a chat message between two different languages, by
    what [_translate_text] makes of the request. *)
Lemma chat_translation_answer
    (message sender_language receiver_language : string) (s : state) :
  sender_language <> receiver_language ->
  exists answer s',
    TranslationAgentMethods.translate_message_for_chat
      message sender_language receiver_language s
    = (Return (VDict answer), s') /\
    (message = "" \/ receiver_language = "" ->
     answer = [("original", VStr message);
               ("translated", VStr message);
               ("needs_translation", VBool true);
               ("error", VStr "Missing required fields for text translation")]) /\
    (message <> "" -> receiver_language <> "" ->
     ~ In receiver_language (keys (supported_languages (self s))) ->
     answer = [("original", VStr message);
               ("translated", VStr message);
               ("needs_translation", VBool true);
               ("error", VStr ("Unsupported target language: " ++ receiver_language))]) /\
    (message <> "" -> receiver_language <> "" ->
     In receiver_language (keys (supported_languages (self s))) ->
     answer = [("original", VStr message);
               ("translated", VStr (reply_text (next_completion s)));
               ("needs_translation", VBool true);
               ("source_language", VStr sender_language);
               ("target_language", VStr receiver_language)]).
Proof.
  intro Hdiff. apply String.eqb_neq in Hdiff.
  unfold TranslationAgentMethods.translate_message_for_chat. rewrite Hdiff.
  unfold bind at 1. unfold TranslationAgent.process_request.
  unfold bind at 1. rewrite log_request_run.
  cbn [get dict_get is_str String.eqb Ascii.eqb Bool.eqb].
  unfold bind at 1.
  destruct (String.eqb message "") eqn:Hmessage;
    [|destruct (String.eqb receiver_language "") eqn:Hreceiver;
      [|destruct (existsb (String.eqb receiver_language)
                    (keys (supported_languages (self s)))) eqn:Hknown]].
  - (* no message *)
    apply String.eqb_eq in Hmessage. subst message.
    do 2 eexists. split; [reflexivity|].
    split; [intros _; reflexivity|].
    split; intros Hsome; contradiction Hsome; reflexivity.
  - (* no receiver language *)
    apply String.eqb_eq in Hreceiver. subst receiver_language.
    unfold TranslationAgent._translate_text.
    unfold bind at 1. rewrite validate_request_run.
    unfold first_missing. cbn [find]. unfold unusable, dict_mem, get.
    cbn [dict_get String.eqb Ascii.eqb Bool.eqb andb negb orb truthy]. rewrite Hmessage.
    do 2 eexists. split; [reflexivity|].
    split; [intros _; reflexivity|].
    split; intros _ Hsome; contradiction Hsome; reflexivity.
  - (* a language of the table *)
    apply String.eqb_neq in Hmessage. apply String.eqb_neq in Hreceiver.
    assert (Hin : In receiver_language (keys (supported_languages (self s)))).
    { apply existsb_exists in Hknown. destruct Hknown as (k & Hin & Heq).
      apply String.eqb_eq in Heq. subst k. exact Hin. }
    match goal with
    | |- context [TranslationAgent._translate_text ?d ?s1] =>
        destruct (translate_text_succeeds d (VStr message) receiver_language s1
                    eq_refl (nonempty_is_truthy _ Hmessage) eq_refl Hreceiver Hin)
          as (detected & timestamp & s2 & -> & _)
    end.
    do 2 eexists. split; [reflexivity|].
    split; [intros [Hnone | Hnone]; contradiction|].
    split; [intros _ _ Hnot; contradiction|].
    intros _ _ _. reflexivity.
  - (* a language the table lacks *)
    apply String.eqb_neq in Hmessage. apply String.eqb_neq in Hreceiver.
    assert (Hnot : ~ In receiver_language (keys (supported_languages (self s)))).
    { intro Hin. rewrite (existsb_of_key _ _ Hin) in Hknown. discriminate. }
    pose proof (nonempty_is_truthy _ Hmessage) as Tmessage.
    pose proof (nonempty_is_truthy _ Hreceiver) as Treceiver.
    unfold TranslationAgent._translate_text.
    unfold bind at 1. rewrite validate_request_run.
    match goal with
    | |- context [first_missing ?d _] =>
        rewrite (translate_text_valid d (VStr message) (VStr receiver_language)
                   eq_refl Tmessage eq_refl Treceiver)
    end.
    cbn [negb].
    unfold BaseAgent.subscript, eval, py_item.
    cbn [dict_get String.eqb Ascii.eqb Bool.eqb andb].
    unfold bind at 1. unfold bind at 1.
    unfold bind at 1. unfold get_self at 1. unfold bind at 1. cbn [self py_in].
    cbn [count_request supported_languages]. rewrite Hknown.
    do 2 eexists. split; [reflexivity|].
    split; [intros [Hnone | Hnone]; contradiction|].
    split; [intros _ _ _; reflexivity|].
    intros _ _ Hin. contradiction.
Qed.

(** X18.  The translation agent answers a chat message without raising, and
    the answer always carries the message as [original].  When the
    sender's and the receiver's language are the same string, nothing
    happens at all: no request is counted, no completion asked for, and
    the message is its own translation.  Otherwise one translation
    request is counted and the answer needs translation.  When the
    translation is refused, the answer has the message itself as
    [translated] and the error of the refusal: "Missing required fields
    for text translation" for an empty message or an empty receiver
    language, "Unsupported target language: ..." for a receiver language
    the table lacks.  When the receiver language is in the table, the
    answer has what the completion call returned as [translated], and
    the two languages. *)
Theorem chat_translation_keeps_the_message
    (message sender_language receiver_language : string) (s : state) :
  exists answer s',
    TranslationAgentMethods.translate_message_for_chat
      message sender_language receiver_language s
    = (Return (VDict answer), s') /\
    dict_get "original" answer = Some (VStr message) /\
    (sender_language = receiver_language ->
     s' = s /\
     dict_get "translated" answer = Some (VStr message) /\
     dict_get "needs_translation" answer = Some (VBool false)) /\
    (sender_language <> receiver_language ->
     self s' = count_request (self s) /\
     dict_get "needs_translation" answer = Some (VBool true) /\
     (dict_mem "error" answer = true ->
      dict_get "translated" answer = Some (VStr message)) /\
     (message = "" \/ receiver_language = "" ->
      answer = [("original", VStr message);
                ("translated", VStr message);
                ("needs_translation", VBool true);
                ("error", VStr "Missing required fields for text translation")]) /\
     (message <> "" -> receiver_language <> "" ->
      ~ In receiver_language (keys (supported_languages (self s))) ->
      answer = [("original", VStr message);
                ("translated", VStr message);
                ("needs_translation", VBool true);
                ("error", VStr ("Unsupported target language: " ++ receiver_language))]) /\
     (message <> "" -> receiver_language <> "" ->
      In receiver_language (keys (supported_languages (self s))) ->
      answer = [("original", VStr message);
                ("translated", VStr (reply_text (next_completion s)));
                ("needs_translation", VBool true);
                ("source_language", VStr sender_language);
                ("target_language", VStr receiver_language)])).
Proof.
  destruct (String.eqb sender_language receiver_language) eqn:Hsame.
  - apply String.eqb_eq in Hsame.
    unfold TranslationAgentMethods.translate_message_for_chat.
    rewrite (proj2 (String.eqb_eq _ _) Hsame).
    do 2 eexists. split; [reflexivity|]. split; [reflexivity|].
    split; [intros _; repeat split | intro Hdiff; contradiction].
  - apply String.eqb_neq in Hsame.
    destruct (chat_translation_between_languages message _ _ s Hsame)
      as (answer & s' & Hrun & Horiginal & Hself & Hneeds & Herror).
    destruct (chat_translation_answer message _ _ s Hsame)
      as (answer' & s'' & Hrun' & Hcases).
    rewrite Hrun in Hrun'. inversion Hrun'; subst answer' s''.
    exists answer, s'. split; [exact Hrun|]. split; [exact Horiginal|].
    split; [intro; contradiction | intros _].
    split; [exact Hself|]. split; [exact Hneeds|]. split; [exact Herror | exact Hcases].
Qed.

Lemma registry_set_registered (agent_name : string) (a : agent) (r : registry) :
  registry_get agent_name r = Some a -> registry_set agent_name a r = r.
Proof.
  induction r as [|[k b] rest IH]; simpl; [discriminate|].
  destruct (String.eqb k agent_name).
  - intro H. inversion H. reflexivity.
  - intro H. rewrite (IH H). reflexivity.
Qed.

(** X19.  [AgentManager.translate_chat_message].  Without a translation agent
    in the registry the manager answers by itself: the message is
    returned as its own translation, flagged as needing none, with the
    error "Translation agent not available", and nothing changes.  With
    the agent registered and the same language on both sides the message
    comes back untranslated and the whole platform is as before. *)
Theorem chat_message_without_translation
    (message sender_language receiver_language : string) (p : platform) :
  (registry_get "TranslationAgent" (agents (fst p)) = None ->
   AgentManagerMethods.translate_chat_message message sender_language receiver_language p =
     (Return (VDict [("original", VStr message);
                     ("translated", VStr message);
                     ("needs_translation", VBool false);
                     ("error", VStr "Translation agent not available")]),
      p)) /\
  (forall a,
     registry_get "TranslationAgent" (agents (fst p)) = Some a ->
     class_of a = Translation ->
     sender_language = receiver_language ->
     AgentManagerMethods.translate_chat_message message sender_language receiver_language p =
       (Return (VDict [("original", VStr message);
                       ("translated", VStr message);
                       ("needs_translation", VBool false)]),
        p)) /\
  (forall a,
     registry_get "TranslationAgent" (agents (fst p)) = Some a ->
     class_of a = Translation ->
     exists answer p',
       AgentManagerMethods.translate_chat_message message sender_language receiver_language p
       = (Return (VDict answer), p') /\
       dict_get "original" answer = Some (VStr message)).
Proof.
  unfold AgentManagerMethods.translate_chat_message, AgentOrchestrator.get_agent, bind.
  split; [|split].
  - intros ->. reflexivity.
  - intros a Hget Hclass ->. rewrite Hget, Hclass.
    unfold on_agent, TranslationAgentMethods.translate_message_for_chat.
    rewrite String.eqb_refl. cbn [ret self outside].
    rewrite (registry_set_registered _ _ _ Hget).
    destruct p as [[r flag] w]. reflexivity.
  - intros a -> ->. unfold on_agent.
    destruct (String.eqb sender_language receiver_language) eqn:Hsame.
    + unfold TranslationAgentMethods.translate_message_for_chat. rewrite Hsame.
      do 2 eexists. split; [reflexivity|]. reflexivity.
    + apply String.eqb_neq in Hsame.
      destruct (chat_translation_between_languages message _ _
                  {| self := a; outside := snd p |} Hsame)
        as (answer & s' & -> & Horiginal & _).
      do 2 eexists. split; [reflexivity | exact Horiginal].
Qed.

End ChatTranslation.

(** Three chat messages from English, the service answering "Bonjour":
    one into French, one into a language the table lacks, and an empty
    one. *)
Lemma chat_translation_keeps_the_message_witness :
  fst (TranslationAgentMethods.translate_message_for_chat (py := example_runtime)
         "Good morning" "en" "fr"
         {| self := example_translator; outside := stubbed (Content "Bonjour") |})
  = Return (VDict [("original", VStr "Good morning");
                   ("translated", VStr "Bonjour");
                   ("needs_translation", VBool true);
                   ("source_language", VStr "en");
                   ("target_language", VStr "fr")]) /\
  fst (TranslationAgentMethods.translate_message_for_chat (py := example_runtime)
         "Good morning" "en" "tlh"
         {| self := example_translator; outside := stubbed (Content "Bonjour") |})
  = Return (VDict [("original", VStr "Good morning");
                   ("translated", VStr "Good morning");
                   ("needs_translation", VBool true);
                   ("error", VStr "Unsupported target language: tlh")]) /\
  fst (TranslationAgentMethods.translate_message_for_chat (py := example_runtime)
         "" "en" "fr"
         {| self := example_translator; outside := stubbed (Content "Bonjour") |})
  = Return (VDict [("original", VStr "");
                   ("translated", VStr "");
                   ("needs_translation", VBool true);
                   ("error", VStr "Missing required fields for text translation")]).
Proof.
  split; [|split].
  - destruct (chat_translation_keeps_the_message (py := example_runtime)
                "Good morning" "en" "fr"
                {| self := example_translator; outside := stubbed (Content "Bonjour") |})
      as (answer & s' & -> & _ & _ & Hdiff).
    destruct (Hdiff ltac:(discriminate)) as (_ & _ & _ & _ & _ & Hknown).
    rewrite (Hknown ltac:(discriminate) ltac:(discriminate)
               ltac:(simpl; right; right; left; reflexivity)).
    reflexivity.
  - destruct (chat_translation_keeps_the_message (py := example_runtime)
                "Good morning" "en" "tlh"
                {| self := example_translator; outside := stubbed (Content "Bonjour") |})
      as (answer & s' & -> & _ & _ & Hdiff).
    destruct (Hdiff ltac:(discriminate)) as (_ & _ & _ & _ & Hunknown & _).
    rewrite (Hunknown ltac:(discriminate) ltac:(discriminate)).
    + reflexivity.
    + simpl. intro Hin.
      repeat (destruct Hin as [Hin | Hin]; [discriminate Hin|]). contradiction.
  - destruct (chat_translation_keeps_the_message (py := example_runtime)
                "" "en" "fr"
                {| self := example_translator; outside := stubbed (Content "Bonjour") |})
      as (answer & s' & -> & _ & _ & Hdiff).
    destruct (Hdiff ltac:(discriminate)) as (_ & _ & _ & Hmissing & _).
    rewrite (Hmissing (or_introl eq_refl)). reflexivity.
Defined.

(** ** The request builders of the manager *)

Section Builders.
Context {py : runtime}.

(** X20.  The request builders of [agent_manager.py] and the agents agree on
    their strings.  Each of the fourteen builders sends, to the agent
    registered under the class name, a request whose [type] selects the
    handler the builder is named after (so none is answered with
    "Unknown request type"), and which has a key for every field that
    handler requires. *)
Theorem manager_calls_reach_their_handlers (call : manager_call) (a : agent) (p : platform) :
  registry_get (class_name (class_for (capability_of call))) (agents (fst p)) = Some a ->
  class_of a = class_for (capability_of call) ->
  exists request_data,
    perform call p =
      try_except
        (on_agent (class_name (class_for (capability_of call))) a
           (BaseAgent.log_request (logged_as (class_for (capability_of call))) request_data ;;
            result <- handler (capability_of call) request_data ;;
            BaseAgent.log_response result ;;
            ret result))
        (fun e =>
           ret (VDict [("success", VBool false);
                       ("error",
                        VStr ("Agent " ++ class_name (class_for (capability_of call))
                              ++ " failed to process request: " ++ str e));
                       ("agent", VStr (class_name (class_for (capability_of call))))]))
        p /\
    forall field, In field (required_fields (capability_of call)) ->
      dict_mem field request_data = true.
Proof.
  intros Hget Hclass.
  destruct call; cbn [capability_of class_for class_name logged_as] in *;
    (eexists; split;
     [ cbv beta iota delta
         [perform
          AgentManager.analyze_market AgentManager.discover_contacts
          AgentManager.analyze_trends AgentManager.translate_text
          AgentManager.batch_translate AgentManager.detect_language
          AgentManagerMethods.match_opportunities AgentManagerMethods.get_cultural_context
          AgentManagerMethods.get_business_etiquette
          AgentManagerMethods.analyze_user_performance
          AgentManagerMethods.analyze_product_performance
          AgentManagerMethods.generate_market_recommendations
          AgentManagerMethods.analyze_competition
          AgentManagerMethods.identify_growth_opportunities];
       unfold AgentOrchestrator.route_request, AgentOrchestrator.get_agent;
       unfold bind at 1; rewrite Hget; unfold process_request; rewrite Hclass;
       unfold MarketResearchAgent.process_request, TranslationAgent.process_request,
         BusinessIntelligenceAgent.process_request;
       cbn [get dict_get is_str String.eqb Ascii.eqb Bool.eqb];
       reflexivity
     | intros field Hin; cbn [required_fields In] in Hin;
       repeat (destruct Hin as [<- | Hin]; [reflexivity|]); contradiction ]).
Qed.

End Builders.

(** Language detection through the manager, with the translation agent
    registered. *)
Lemma manager_calls_reach_their_handlers_witness :
  exists request_data,
    AgentManager.detect_language (py := example_runtime) (VStr "Bonjour")
      ({| agents := [("TranslationAgent", example_translator)]; running := false |},
       stubbed (Content "fr")) =
      try_except
        (on_agent "TranslationAgent" example_translator
           (BaseAgent.log_request "translation" request_data ;;
            result <- handler (py := example_runtime) language_detection request_data ;;
            BaseAgent.log_response result ;;
            ret result))
        (fun e =>
           ret (VDict [("success", VBool false);
                       ("error",
                        VStr ("Agent TranslationAgent failed to process request: " ++ str e));
                       ("agent", VStr "TranslationAgent")]))
        ({| agents := [("TranslationAgent", example_translator)]; running := false |},
         stubbed (Content "fr")) /\
    forall field, In field ["text"] -> dict_mem field request_data = true.
Proof.
  apply (manager_calls_reach_their_handlers (py := example_runtime)
           (call_detect_language (VStr "Bonjour")) example_translator
           ({| agents := [("TranslationAgent", example_translator)]; running := false |},
            stubbed (Content "fr"))).
  - reflexivity.
  - reflexivity.
Defined.

(** ** The routes *)

(** The loop a route validates its body with stops where the validator
    of the agents stops. *)
Lemma first_blank_of_dict (d : dict) (fields : list string) :
  first_blank (VDict d) fields = Return (first_missing d fields).
Proof.
  unfold first_missing.
  induction fields as [|field rest IH]; [reflexivity|].
  cbn [first_blank py_get find]. rewrite IH.
  unfold unusable, dict_mem, get.
  destruct (dict_get field d) as [v|]; cbn [negb orb truthy]; [|reflexivity].
  destruct (truthy v); reflexivity.
Qed.

Section Routes.
Context {py : runtime}.


(** X21.  [POST /translate] and the validator of the translation agent reject
    the same bodies, the route first and by name: a body (a JSON object)
    in which [text] or [target_language] is missing or falsy is answered
    with status 400 and the message "<field> is required", naming the
    first such field, and nothing is sent to the agents.  A body the
    validator accepts is answered with 200 or 500.  A body that is not
    an object is answered with 500 and the text of the attribute error;
    the route itself never raises. *)
Theorem translate_route_validates_by_name (data : value) (p : platform) :
  (forall d field,
     data = VDict d ->
     first_missing d (required_fields text_translation) = Some field ->
     Chat.translate_message data p =
       (Return (VDict [("error", VStr (field ++ " is required"))], 400%Z), p)) /\
  (forall d,
     data = VDict d ->
     first_missing d (required_fields text_translation) = None ->
     exists body status p',
       Chat.translate_message data p = (Return (VDict body, status), p') /\
       (status = 200%Z \/ status = 500%Z)) /\
  ((forall d, data <> VDict d) ->
   Chat.translate_message data p =
     (Return (VDict [("error", VStr "Translation request failed");
                     ("details",
                      VStr ("'" ++ type_name data ++ "' object has no attribute 'get'"))],
              500%Z),
      p)).
Proof.
  split; [|split].
  - intros d field -> Hmissing. cbn [required_fields] in Hmissing.
    unfold Chat.translate_message, try_except. unfold bind at 1.
    unfold eval at 1. rewrite first_blank_of_dict, Hmissing. reflexivity.
  - intros d -> Hvalid. cbn [required_fields] in Hvalid.
    unfold Chat.translate_message. unfold try_except at 1. unfold bind at 1.
    unfold eval at 1. rewrite first_blank_of_dict, Hvalid.
    unfold eval, py_item, py_get. unfold bind at 1.
    destruct (dict_get "text" d) as [text|];
      [|do 3 eexists; split; [reflexivity | right; reflexivity]].
    unfold bind at 1.
    destruct (dict_get "target_language" d) as [target_language|];
      [|do 3 eexists; split; [reflexivity | right; reflexivity]].
    unfold bind at 1. unfold bind at 1. unfold try_except at 1. unfold bind at 1.
    destruct (AgentManager.translate_text text target_language
                (get d "source_language" (VStr "auto")) (get d "context" (VStr "chat")) p)
      as [[result|e] p1];
      [|do 3 eexists; split; [reflexivity | right; reflexivity]].
    destruct result as [| | | | | |envelope];
      try (do 3 eexists; split; [reflexivity | right; reflexivity]).
    unfold bind at 1.
    destruct (truthy (get envelope "success" VNone));
      [|do 3 eexists; split; [reflexivity | right; reflexivity]].
    unfold bind at 1.
    destruct (dict_get "data" envelope) as [payload|];
      [|do 3 eexists; split; [reflexivity | right; reflexivity]].
    unfold bind at 1.
    destruct payload as [| | | | | |payload];
      try (do 3 eexists; split; [reflexivity | right; reflexivity]).
    destruct (dict_get "translated_text" payload) as [translated|];
      [|do 3 eexists; split; [reflexivity | right; reflexivity]].
    unfold bind at 1.
    destruct (dict_get "source_language" payload) as [detected|];
      [|do 3 eexists; split; [reflexivity | right; reflexivity]].
    do 3 eexists. split; [reflexivity | left; reflexivity].
  - intro Hother.
    destruct data; try reflexivity. exfalso. exact (Hother _ eq_refl).
Qed.



End Routes.



(** A body without a target language. *)
Lemma translate_route_validates_by_name_witness :
  Chat.translate_message (py := example_runtime)
    (VDict [("text", VStr "Hello")]) (booted (Content "Bonjour")) =
    (Return (VDict [("error", VStr "target_language is required")], 400%Z),
     booted (Content "Bonjour")).
Proof.
  apply (proj1 (translate_route_validates_by_name (py := example_runtime)
                  (VDict [("text", VStr "Hello")]) (booted (Content "Bonjour")))
           [("text", VStr "Hello")] "target_language").
  - reflexivity.
  - reflexivity.
Defined.

(** ** Voice sessions *)

Lemma session_get_set_same (session_id : string) (v : session)
    (sessions : list (string * session)) :
  session_get session_id (session_set session_id v sessions) = Some v.
Proof.
  induction sessions as [|[k old] rest IH]; simpl.
  - rewrite String.eqb_refl. reflexivity.
  - destruct (String.eqb k session_id) eqn:E; simpl; rewrite E; [reflexivity | exact IH].
Qed.

Lemma session_get_set_other (session_id other : string) (v : session)
    (sessions : list (string * session)) :
  other <> session_id ->
  session_get other (session_set session_id v sessions) = session_get other sessions.
Proof.
  intro Hother. induction sessions as [|[k old] rest IH]; simpl.
  - destruct (String.eqb session_id other) eqn:E; [|reflexivity].
    apply String.eqb_eq in E. congruence.
  - destruct (String.eqb k session_id) eqn:E; simpl.
    + destruct (String.eqb k other) eqn:E'; [|reflexivity].
      apply String.eqb_eq in E, E'. congruence.
    + rewrite IH. reflexivity.
Qed.

Lemma session_get_del_other (session_id other : string) (sessions : list (string * session)) :
  other <> session_id ->
  session_get other (session_del session_id sessions) = session_get other sessions.
Proof.
  intro Hother. induction sessions as [|[k old] rest IH]; simpl; [reflexivity|].
  destruct (String.eqb k session_id) eqn:E; simpl.
  - destruct (String.eqb k other) eqn:E'; [|reflexivity].
    apply String.eqb_eq in E, E'. congruence.
  - rewrite IH. reflexivity.
Qed.

Lemma session_get_del_same (session_id : string) (sessions : list (string * session)) :
  NoDup (keys sessions) ->
  session_get session_id (session_del session_id sessions) = None.
Proof.
  induction sessions as [|[k old] rest IH]; simpl; [reflexivity|].
  intro Hnodup. inversion Hnodup as [|? ? Hfresh Hrest]; subst.
  destruct (String.eqb k session_id) eqn:E; simpl.
  - apply String.eqb_eq in E. subst k.
    destruct (session_get session_id rest) as [found|] eqn:G; [|reflexivity].
    exfalso. apply Hfresh. clear - G.
    induction rest as [|[k v] rest IH]; simpl in *; [discriminate|].
    destruct (String.eqb k session_id) eqn:E.
    + left. apply String.eqb_eq. exact E.
    + right. exact (IH G).
  - rewrite E. exact (IH Hrest).
Qed.

Lemma length_session_set (session_id : string) (v : session)
    (sessions : list (string * session)) :
  List.length (session_set session_id v sessions) =
  match session_get session_id sessions with
  | Some _ => List.length sessions
  | None => S (List.length sessions)
  end.
Proof.
  induction sessions as [|[k old] rest IH]; simpl; [reflexivity|].
  destruct (String.eqb k session_id); simpl; [reflexivity|].
  rewrite IH. destruct (session_get session_id rest); reflexivity.
Qed.

Lemma keys_session_set_nodup (session_id : string) (v : session)
    (sessions : list (string * session)) :
  NoDup (keys sessions) -> NoDup (keys (session_set session_id v sessions)).
Proof.
  induction sessions as [|[k old] rest IH]; simpl; intro Hnodup.
  - repeat constructor. intros [].
  - inversion Hnodup as [|? ? Hfresh Hrest]; subst.
    destruct (String.eqb k session_id) eqn:E; simpl.
    + constructor; assumption.
    + constructor; [|exact (IH Hrest)].
      intro K. apply Hfresh.
      clear - K E. unfold keys in *.
      induction rest as [|[k' v'] rest IH]; simpl in *.
      * destruct K as [K|[]]. apply String.eqb_neq in E. congruence.
      * destruct (String.eqb k' session_id) eqn:E'; simpl in K; tauto.
Qed.

Lemma session_ended_is_gone (session_id : string) (v : session)
    (sessions : list (string * session)) :
  NoDup (keys sessions) ->
  session_get session_id (session_del session_id (session_set session_id v sessions)) = None.
Proof.
  intro Hnodup. apply session_get_del_same, keys_session_set_nodup. exact Hnodup.
Qed.

(** X24.  The life of a voice session.  Started with a settings object, a
    session is stored under its id as "active" with the user and the
    time of the event loop, and its status says so; a second start under
    the same id replaces the session and leaves the number of sessions
    as it was.  Ending it removes it (its status is "not_found"
    afterwards, and ending it again is answered "Session not found");
    neither touches the sessions stored under other ids.  Ending or
    asking for an id that was never started changes nothing. *)
Theorem voice_session_lifecycle
    (session_id : string) (user : value) (settings : dict) (h : voice) :
  exists answer started,
    VoiceHandler.start_voice_session session_id user (VDict settings) h
    = (Return (VDict answer), started) /\
    dict_get "success" answer = Some (VBool true) /\
    dict_get "session_id" answer = Some (VStr session_id) /\
    (exists fields,
       VoiceHandler.get_session_status session_id started = (Return (VDict fields), started) /\
       dict_get "status" fields = Some (VStr "active") /\
       dict_get "user_id" fields = Some user /\
       dict_get "created_at" fields = Some (VFloat (loop_time h (time_reads h)))) /\
    List.length (active_sessions started) =
      match session_get session_id (active_sessions h) with
      | Some _ => List.length (active_sessions h)
      | None => S (List.length (active_sessions h))
      end /\
    (forall other, other <> session_id ->
       session_get other (active_sessions started) = session_get other (active_sessions h)) /\
    (exists ended,
       VoiceHandler.end_voice_session session_id started =
         (Return (VDict [("success", VBool true);
                         ("message", VStr "Voice session ended successfully")]),
          ended) /\
       (forall other, other <> session_id ->
          session_get other (active_sessions ended) = session_get other (active_sessions h)) /\
       (NoDup (keys (active_sessions h)) ->
        VoiceHandler.get_session_status session_id ended =
          (Return (VDict [("session_id", VStr session_id); ("status", VStr "not_found")]),
           ended) /\
        VoiceHandler.end_voice_session session_id ended =
          (Return (VDict [("success", VBool false); ("error", VStr "Session not found")]),
           ended))).
Proof.
  do 2 eexists. split; [reflexivity|]. split; [reflexivity|]. split; [reflexivity|].
  unfold VoiceHandler.get_session_status, VoiceHandler.session_status,
    VoiceHandler.end_voice_session, try_except.
  cbn [active_sessions loop_time time_reads].
  rewrite !session_get_set_same.
  split; [eexists; split; [reflexivity|]; repeat split|].
  split; [apply length_session_set|].
  split; [intros other Hother; apply session_get_set_other; exact Hother|].
  eexists. split; [reflexivity|]. cbn [active_sessions].
  split.
  - intros other Hother.
    rewrite session_get_del_other by exact Hother.
    apply session_get_set_other. exact Hother.
  - intro Hnodup.
    rewrite (session_ended_is_gone _ _ _ Hnodup). split; reflexivity.
Qed.

(** X25.  A session cannot be started with settings that are not an object:
    the attribute error is caught, the answer has [success] false with
    its text, and no session is stored and the clock not read.  Ending a
    session that does not exist is refused in the same way, and asking
    for it is answered "not_found"; the sessions listed by
    [get_active_sessions] are as many as [total_sessions] says. *)
Theorem voice_session_edge_cases (session_id : string) (user settings : value) (h : voice) :
  ((forall d, settings <> VDict d) ->
   VoiceHandler.start_voice_session session_id user settings h =
     (Return (VDict [("success", VBool false);
                     ("error",
                      VStr ("Failed to start voice session: '" ++ type_name settings
                            ++ "' object has no attribute 'get'"))]),
      h)) /\
  (session_get session_id (active_sessions h) = None ->
   VoiceHandler.end_voice_session session_id h =
     (Return (VDict [("success", VBool false); ("error", VStr "Session not found")]), h) /\
   VoiceHandler.get_session_status session_id h =
     (Return (VDict [("session_id", VStr session_id); ("status", VStr "not_found")]), h)) /\
  (exists listed,
     VoiceHandler.get_active_sessions h =
       (Return (VDict [("total_sessions", VInt (Z.of_nat (List.length listed)));
                       ("sessions", VList listed)]),
        h) /\
     List.length listed = List.length (active_sessions h)).
Proof.
  split; [|split].
  - intro Hother. destruct settings; try reflexivity.
    exfalso. exact (Hother _ eq_refl).
  - intro Hnone.
    unfold VoiceHandler.end_voice_session, VoiceHandler.get_session_status,
      VoiceHandler.session_status, try_except.
    rewrite Hnone. split; reflexivity.
  - unfold VoiceHandler.get_active_sessions.
    eexists. split.
    + rewrite length_map. unfold keys. rewrite length_map. reflexivity.
    + rewrite length_map. unfold keys. rewrite length_map. reflexivity.
Qed.

(** ** Product insights that are not objects *)

Section DroppedInsights.
Context {py : runtime}.

(** One product, an answer that decodes to something other than an
    object: the assignment of the product fails, the error is printed,
    and no insight is appended. *)
Lemma insights_for_non_object
    (product : dict) (product_insights : list value) (decoded : value) (s : state) :
  json_loads (reply_text (next_completion s)) = Decoded decoded ->
  (forall fields, decoded <> VDict fields) ->
  exists after,
    BusinessIntelligenceAgent.insights_for (VDict product) product_insights s
    = (Return product_insights, after) /\
    self after = self s /\
    completions (outside after) = completions (outside s) /\
    List.length (requests (outside after)) = S (List.length (requests (outside s))) /\
    List.length (stdout (outside after)) > List.length (stdout (outside s)).
Proof.
  intros Hjson Hother.
  unfold BusinessIntelligenceAgent.insights_for.
  cbn [py_get]. unfold eval at 1 2. unfold bind at 1 2.
  unfold try_except at 1. unfold bind at 1.
  rewrite call_openai_gpt_run. rewrite Hjson.
  assert (Hraise : exists e, py_setitem decoded "product" (VDict product) = Raise e).
  { destruct decoded; try (eexists; reflexivity). exfalso. exact (Hother _ eq_refl). }
  destruct Hraise as (e & Hraise).
  unfold bind at 1. unfold eval at 1. rewrite Hraise.
  destruct (next_completion s); cbn;
    (eexists; split; [reflexivity|]); cbn; rewrite !length_app; cbn;
    repeat split; lia.
Qed.

Lemma insights_loop_non_objects (products : list dict) :
  forall (product_insights : list value) (s : state),
    (forall n, exists decoded,
       json_loads (reply_text (completions (outside s) n)) = Decoded decoded /\
       forall fields, decoded <> VDict fields) ->
    exists after,
      for_each BusinessIntelligenceAgent.insights_for (map VDict products) product_insights s
      = (Return product_insights, after) /\
      self after = self s /\
      List.length (requests (outside after))
      = (List.length (requests (outside s)) + List.length products)%nat /\
      (List.length (stdout (outside after))
       >= List.length (stdout (outside s)) + List.length products)%nat.
Proof.
  induction products as [|product products IH]; intros product_insights s Hlists;
    cbn [map for_each].
  - exists s. split; [reflexivity|]. split; [reflexivity|]. simpl. lia.
  - unfold bind at 1.
    destruct (Hlists (List.length (requests (outside s)))) as (decoded & Hjson & Hother).
    destruct (insights_for_non_object product product_insights decoded s Hjson Hother)
      as (s1 & -> & Hself & Hcompletions & Hrequests & Hprinted).
    destruct (IH product_insights s1) as (s2 & -> & Hself' & Hrequests' & Hprinted').
    { intro n. rewrite Hcompletions. apply Hlists. }
    exists s2. split; [reflexivity|]. split; [congruence|]. simpl. lia.
Qed.

(** X26.  When every completion decodes to JSON that is not an object (a list,
    a string, a number, null), product insights over N products still
    succeeds, with one completion request and one printed error per
    product: the answer counts N products analyzed and holds no insight
    at all, with a portfolio score of 0. *)
Theorem product_insights_drop_non_objects
    (request_data : dict) (products : list dict) (s : state) :
  dict_get "products" request_data = Some (VList (map VDict products)) ->
  products <> [] ->
  (forall n, exists decoded,
     json_loads (reply_text (completions (outside s) n)) = Decoded decoded /\
     forall fields, decoded <> VDict fields) ->
  exists timestamp s',
    BusinessIntelligenceAgent._analyze_product_performance request_data s =
      (Return
         (success_envelope
            (VDict [("product_insights", VList []);
                    ("total_products_analyzed", VInt (Z.of_nat (List.length products)));
                    ("overall_portfolio_score", VInt 0)])
            (name (self s)) timestamp),
       s') /\
    List.length (requests (outside s'))
    = (List.length (requests (outside s)) + List.length products)%nat /\
    (List.length (stdout (outside s'))
     >= List.length (stdout (outside s)) + List.length products)%nat.
Proof.
  intros Hproducts Hsome Hlists.
  unfold BusinessIntelligenceAgent._analyze_product_performance.
  unfold bind at 1. rewrite validate_request_run.
  assert (Hfirst : first_missing request_data ["products"] = None).
  { unfold first_missing. simpl. unfold unusable, dict_mem, get.
    rewrite Hproducts. destruct products; [contradiction|reflexivity]. }
  rewrite Hfirst. cbn [negb].
  unfold BaseAgent.subscript, eval, py_item. unfold bind at 1. rewrite Hproducts.
  cbn [py_iter]. unfold bind at 1. unfold bind at 1.
  destruct (insights_loop_non_objects products [] s Hlists)
    as (s1 & -> & Hself & Hrequests & Hprinted).
  unfold bind at 1. cbn [py_len]. unfold bind at 1. cbn [ret].
  cbn. rewrite Hself, length_map.
  do 2 eexists. split; [reflexivity|]. split; [exact Hrequests | exact Hprinted].
Qed.

End DroppedInsights.

(** Two products while the service answers with a JSON array. *)
Lemma product_insights_drop_non_objects_witness :
  exists timestamp s',
    BusinessIntelligenceAgent._analyze_product_performance (py := example_runtime)
      [("type", VStr "product_insights");
       ("products", VList [VDict [("name", VStr "Arabica beans")];
                           VDict [("name", VStr "Green tea")]])]
      {| self := example_analyst; outside := stubbed (Content opportunity_json) |} =
      (Return
         (success_envelope
            (VDict [("product_insights", VList []);
                    ("total_products_analyzed", VInt 2);
                    ("overall_portfolio_score", VInt 0)])
            "BusinessIntelligenceAgent" timestamp),
       s') /\
    List.length (requests (outside s')) = 2%nat /\
    (List.length (stdout (outside s')) >= 2)%nat.
Proof.
  apply (product_insights_drop_non_objects (py := example_runtime)
           [("type", VStr "product_insights");
            ("products", VList [VDict [("name", VStr "Arabica beans")];
                                VDict [("name", VStr "Green tea")]])]
           [[("name", VStr "Arabica beans")]; [("name", VStr "Green tea")]]
           {| self := example_analyst; outside := stubbed (Content opportunity_json) |}).
  - reflexivity.
  - discriminate.
  - intro n. exists opportunity_decoded. split; [reflexivity | discriminate].
Defined.

(** ** Contact discovery with a contact type that is not a string *)

Section FallbackRaises.
Context {py : runtime}.

(** X27.  The string hypothesis on the contact type is needed.  When the
    answer of the service is not JSON and the request is not for Italian
    coffee, the generator of sample contacts calls [title] on the
    contact type; on a value that is not a string this raises inside the
    [try], the handler of the [try] calls the generator again, outside
    any [try], and the exception leaves [_discover_contacts]. *)
Theorem contact_discovery_fallback_can_raise
    (request_data : dict) (country industry : string) (contact_type : value) (s : state) :
  dict_get "country" request_data = Some (VStr country) -> country <> "" ->
  dict_get "industry" request_data = Some (VStr industry) -> industry <> "" ->
  get request_data "contact_type" (VStr "buyer") = contact_type ->
  (forall text, contact_type <> VStr text) ->
  String.eqb (lower country) "italy" && contains "coffee" (lower industry) = false ->
  json_loads (reply_text (next_completion s)) = JSONDecodeError ->
  fst (MarketResearchAgent._discover_contacts request_data s)
  = Raise (AttributeError contact_type "title").
Proof.
  intros Hcountry Hcountry' Hindustry Hindustry' Htype Hother Hgeneric Hjson.
  assert (Hmock : forall s1,
            MarketResearchAgent._generate_mock_contacts (VStr country) (VStr industry)
              contact_type s1
            = (Raise (AttributeError contact_type "title"), s1)).
  { intro s1. unfold MarketResearchAgent._generate_mock_contacts.
    unfold bind, eval, ret. cbn [py_lower].
    assert (Htitle : py_title contact_type = Raise (AttributeError contact_type "title")).
    { destruct contact_type; try reflexivity. exfalso. exact (Hother _ eq_refl). }
    destruct (String.eqb (lower country) "italy"); cbn [andb] in Hgeneric.
    - rewrite Hgeneric, Htitle. reflexivity.
    - rewrite Htitle. reflexivity. }
  unfold MarketResearchAgent._discover_contacts.
  unfold bind at 1. rewrite validate_request_run.
  assert (Hfirst : first_missing request_data ["country"; "industry"] = None).
  { unfold first_missing. simpl. unfold unusable, dict_mem, get.
    rewrite Hcountry, Hindustry.
    rewrite (nonempty_is_truthy _ Hcountry'), (nonempty_is_truthy _ Hindustry').
    reflexivity. }
  rewrite Hfirst. cbn [negb].
  unfold BaseAgent.subscript, eval, py_item. unfold bind at 1. rewrite Hcountry.
  unfold bind at 1. rewrite Hindustry. rewrite Htype.
  unfold try_except at 1. unfold bind at 1.
  match goal with
  | |- context [BaseAgent.call_openai_gpt ?m s] =>
      destruct (call_openai_gpt_returns m s) as (asked_once & -> & _)
  end.
  rewrite Hjson. unfold bind at 1. rewrite Hmock.
  unfold bind at 1. rewrite Hmock. reflexivity.
Qed.

End FallbackRaises.

(** A contact type given as a number, through the dispatcher. *)
Lemma contact_discovery_fallback_can_raise_witness :
  fst (MarketResearchAgent._discover_contacts (py := example_runtime)
         [("type", VStr "contact_discovery"); ("country", VStr "Japan");
          ("industry", VStr "Green Tea"); ("contact_type", VInt 2)]
         {| self := example_researcher;
            outside := stubbed (Content "I cannot share contact data.") |})
  = Raise (Exception "AttributeError" "'int' object has no attribute 'title'").
Proof.
  apply (contact_discovery_fallback_can_raise (py := example_runtime)
           [("type", VStr "contact_discovery"); ("country", VStr "Japan");
            ("industry", VStr "Green Tea"); ("contact_type", VInt 2)]
           "Japan" "Green Tea" (VInt 2)
           {| self := example_researcher;
              outside := stubbed (Content "I cannot share contact data.") |}).
  - reflexivity.
  - discriminate.
  - reflexivity.
  - discriminate.
  - reflexivity.
  - discriminate.
  - reflexivity.
  - reflexivity.
Defined.

(** ** The comprehensive market research on a complete request *)

Section CompleteResearch.
Context {py : runtime}.





End CompleteResearch.

